(** * The per-device state machine of device.cpp

    A shallow embedding of [Device], its three-level state dispatcher, the
    top-level state handlers, the binding and poll sub state machines and the
    device registry, followed by the properties of the specification. *)

From Stdlib Require Import ZArith List String Bool Lia.
Import ListNotations.
Open Scope Z_scope.

(** ** Data model *)

(** [DeviceKey] is a [quint64]; for physical devices the MAC address. *)
Definition DeviceKey := Z.

(** [DEV_StateLevel]; [StateLevelMax] is the size of the handler array. *)
Inductive DEV_StateLevel := StateLevel0 | StateLevel1 | StateLevel2.

Definition StateLevelMax : Z := 3.
Definition STATE_LEVEL_BINDING := StateLevel1.
Definition STATE_LEVEL_POLL := StateLevel2.

Definition level_num (l : DEV_StateLevel) : Z :=
  match l with StateLevel0 => 0 | StateLevel1 => 1 | StateLevel2 => 2 end.

Definition DEV_StateLevel_eqb (a b : DEV_StateLevel) : bool :=
  match a, b with
  | StateLevel0, StateLevel0 | StateLevel1, StateLevel1
  | StateLevel2, StateLevel2 => true
  | _, _ => false
  end.

(** An [int] used as index into an array of [StateLevelMax] entries. *)
Definition level_of_num (n : Z) : option DEV_StateLevel :=
  if n =? 0 then Some StateLevel0
  else if n =? 1 then Some StateLevel1
  else if n =? 2 then Some StateLevel2
  else None.

Definition MinMacPollRxOn : Z := 8000.
Definition MaxPollItemRetries : Z := 3.

(** [size_t] is 64 bit wide; [x++] wraps around. *)
Definition size_t_incr (x : Z) : Z := (x + 1) mod 2 ^ 64.

(** The event and item suffix constants the handlers compare [event.what()]
    with; any other suffix is [ROther]. *)
Inductive What :=
| REventStateEnter | REventStateLeave | REventStateTimeout
| REventPoll | REventAwake | REventApsConfirm
| REventNodeDescriptor | REventActiveEndpoints | REventSimpleDescriptor
| REventBindingTable | REventBindingTick
| REventDDFInitRequest | REventDDFInitResponse | REventDDFReload
| RAttrLastSeen | RAttrManufacturerName | RAttrModelId
| RConfigReachable | RStateReachable | RStateLastUpdated
| RAttrUniqueId | RAttrId
| ROther (suffix : string).

Definition what_tag (w : What) : nat :=
  match w with
  | REventStateEnter => 0 | REventStateLeave => 1 | REventStateTimeout => 2
  | REventPoll => 3 | REventAwake => 4 | REventApsConfirm => 5
  | REventNodeDescriptor => 6 | REventActiveEndpoints => 7
  | REventSimpleDescriptor => 8 | REventBindingTable => 9
  | REventBindingTick => 10 | REventDDFInitRequest => 11
  | REventDDFInitResponse => 12 | REventDDFReload => 13
  | RAttrLastSeen => 14 | RAttrManufacturerName => 15 | RAttrModelId => 16
  | RConfigReachable => 17 | RStateReachable => 18 | RStateLastUpdated => 19
  | RAttrUniqueId => 20 | RAttrId => 21
  | ROther _ => 22
  end%nat.

Definition What_eqb (a b : What) : bool :=
  match a, b with
  | ROther s, ROther t => String.eqb s t
  | _, _ => Nat.eqb (what_tag a) (what_tag b)
  end.

(** [Event(resource, what, num, deviceKey)] and [Event(resource, what, id, ...)]. *)
Record Event := mkEvent {
  ev_resource : option string;  (* const char *, may be null *)
  ev_what : What;
  ev_id : string;
  ev_num : Z;
  ev_deviceKey : DeviceKey
}.

(** Modelled from the spec: event.h is not part of the sources.  The event
    [ApsConfirm(reqId, status)] carries the APS request id and the confirm
    status in its numeric payload, one byte each. *)
Definition EventApsConfirmId (e : Event) : Z := Z.land (Z.shiftr (ev_num e) 8) 255.
Definition EventApsConfirmStatus (e : Event) : Z := Z.land (ev_num e) 255.
Definition ApsSuccessStatus : Z := 0.

(** ZDP status codes carried by [REventBindingTable] (deconz/types.h). *)
Definition ZdpSuccess : Z := 0.
Definition ZdpNotSupported : Z := 132.

(** The values of [DeviceStateHandler] function pointers; [None] in a slot
    is the null pointer. *)
Inductive Handler :=
| H_Init | H_NodeDescriptor | H_ActiveEndpoints | H_SimpleDescriptor
| H_BasicCluster | H_GetDeviceDescription | H_Idle | H_Dead
| H_Binding | H_BindingTableVerify
| H_PollIdle | H_PollNext | H_PollBusy.

Definition Handler_eqb (a b : Handler) : bool :=
  match a, b with
  | H_Init, H_Init | H_NodeDescriptor, H_NodeDescriptor
  | H_ActiveEndpoints, H_ActiveEndpoints
  | H_SimpleDescriptor, H_SimpleDescriptor
  | H_BasicCluster, H_BasicCluster
  | H_GetDeviceDescription, H_GetDeviceDescription
  | H_Idle, H_Idle | H_Dead, H_Dead | H_Binding, H_Binding
  | H_BindingTableVerify, H_BindingTableVerify
  | H_PollIdle, H_PollIdle | H_PollNext, H_PollNext
  | H_PollBusy, H_PollBusy => true
  | _, _ => false
  end.

(** Comparison of two function pointers. *)
Definition slot_eqb (a b : option Handler) : bool :=
  match a, b with
  | None, None => true
  | Some x, Some y => Handler_eqb x y
  | _, _ => false
  end.

(** [std::array<T, StateLevelMax>]. *)
Record PerLevel (A : Type) := mkPerLevel { at0 : A; at1 : A; at2 : A }.
Arguments mkPerLevel {A}.
Arguments at0 {A}.
Arguments at1 {A}.
Arguments at2 {A}.

Definition slot {A} (a : PerLevel A) (l : DEV_StateLevel) : A :=
  match l with StateLevel0 => at0 a | StateLevel1 => at1 a | StateLevel2 => at2 a end.

Definition set_slot {A} (l : DEV_StateLevel) (v : A) (a : PerLevel A) : PerLevel A :=
  match l with
  | StateLevel0 => mkPerLevel v (at1 a) (at2 a)
  | StateLevel1 => mkPerLevel (at0 a) v (at2 a)
  | StateLevel2 => mkPerLevel (at0 a) (at1 a) v
  end.

(** A [QVariant] as far as [readParameters] is inspected: null, a map, or a
    value of another type ([toMap] of which is empty). *)
Inductive QVariant :=
| VNull
| VMap (m : list (string * string))
| VOther (s : string).

Definition QVariant_isNull (v : QVariant) : bool :=
  match v with VNull => true | _ => false end.

Definition QVariant_toMap (v : QVariant) : list (string * string) :=
  match v with VMap m => m | _ => [] end.

(** [const Resource *] and [const ResourceItem *] of a poll item, as the
    identity of the object pointed to. *)
Definition ResourceRef : Type := string * string.  (* prefix, unique id *)
Definition ItemRef := What.                         (* item suffix *)

Record PollItem := mkPollItem {
  retry : Z;                      (* size_t *)
  resource : ResourceRef;
  item : ItemRef;
  readParameters : QVariant
}.

Definition PollItem_new (r : ResourceRef) (i : ItemRef) (p : QVariant) : PollItem :=
  mkPollItem 0 r i p.

Definition set_retry (n : Z) (p : PollItem) : PollItem :=
  mkPollItem n (resource p) (item p) (readParameters p).

(** [QElapsedTimer]: invalid, or started at a reading of the monotonic clock. *)
Definition QElapsedTimer := option Z.

Record BindingContext := mkBindingContext {
  bindingVerify : QElapsedTimer;
  bindingIter : Z;                (* size_t *)
  mgmtBindSupported : bool
}.

Record ZDP_Result := mkZDP_Result {
  zdp_isEnqueued : bool;
  zdp_apsReqId : Z;
  zdp_zdpSeq : Z
}.

Record DA_ReadResult := mkReadResult {
  isEnqueued : bool;
  apsReqId : Z;
  sequenceNumber : Z
}.

(** Value initialisation, [{ }]. *)
Definition ZDP_Result_default := mkZDP_Result false 0 0.
Definition DA_ReadResult_default := mkReadResult false 0 0.

(** ** The collaborators outside of device.cpp

    What the handlers read from the core node, the resource store, the DDF
    engine and the APS controller is taken from a snapshot [Env] of the outside
    world at the time an event is handled. *)

Record NodeDescriptor := mkNodeDescriptor { receiverOnWhenIdle : bool }.

Record SimpleDescriptor := mkSimpleDescriptor {
  sd_endpoint : Z;
  sd_deviceId : Z;
  sd_inClusters : list Z
}.

Record Binding := mkBinding {
  bnd_srcAddress : Z;
  bnd_clusterId : Z;
  bnd_dstAddressMode : Z;
  bnd_confirmedMsSinceEpoch : Z
}.

(** [deCONZ::Node]; a null node descriptor is [None]. *)
Record Node := mkNode {
  address_nwk : Z;
  address_ext : Z;
  nodeDescriptor : option NodeDescriptor;
  endpoints : list Z;
  simpleDescriptors : list SimpleDescriptor;
  bindingTable : list Binding
}.

(** [Node::copySimpleDescriptor] finds the descriptor of an endpoint. *)
Definition copySimpleDescriptor (n : Node) (ep : Z) : option SimpleDescriptor :=
  find (fun sd => sd_endpoint sd =? ep) (simpleDescriptors n).

(** [const deCONZ::Node *]. *)
Definition NodePtr := Z.

(** An item of a sub-device; [ri_lastSet] is [None] while [lastSet()] is not
    valid, else the time of the last update in seconds. *)
Record ResourceItem := mkResourceItem {
  ri_suffix : What;
  ri_lastSet : option Z;
  ri_refreshInterval : Z;
  ri_value : string
}.

Definition StateChange := Z.

(** A sub-device [Resource] as the resource store holds it; [r_parent] is
    its parent resource, the device [setParentResource] was called with. *)
Record Resource := mkResource {
  r_ref : ResourceRef;
  r_items : list ResourceItem;
  r_stateChanges : list StateChange;
  r_parent : option DeviceKey
}.

Definition r_prefix (r : Resource) : string := fst (r_ref r).

(** [Resource::setParentResource]. *)
Definition Resource_setParentResource (parent : DeviceKey) (r : Resource) : Resource :=
  mkResource (r_ref r) (r_items r) (r_stateChanges r) (Some parent).

(** [Resource::item(suffix)], null when there is no such item. *)
Definition Resource_item (r : Resource) (suffix : What) : option ResourceItem :=
  find (fun i => What_eqb (ri_suffix i) suffix) (r_items r).

Record ZCL_Param := mkZCL_Param {
  zcl_valid : bool;
  zcl_endpoint : Z;
  zcl_clusterId : Z;
  zcl_attributes : list Z
}.

(** The result of [DA_GetReadFunction]: which read function to call. *)
Definition ReadFunction := string.

Record Env := mkEnv {
  now : Z;                         (* monotonic clock, ms *)
  currentDateTime : Z;             (* wall clock, s *)
  DEV_GetCoreNode : DeviceKey -> option NodePtr;
  node_at : NodePtr -> Node;
  DEV_GetResource : string -> string -> option Resource;
  DDF_GetItem : ResourceRef -> ResourceItem -> QVariant;   (* .readParameters *)
  ZDP_NodeDescriptorReq : Z -> ZDP_Result;
  ZDP_ActiveEndpointsReq : Z -> ZDP_Result;
  ZDP_SimpleDescriptorReq : Z -> Z -> ZDP_Result;
  ZCL_ReadAttributes : ZCL_Param -> Z -> Z -> DA_ReadResult;
  callReadFunction : ReadFunction -> PollItem -> DA_ReadResult;
  ResourceItem_setValue : What -> string -> bool
}.

(** What a handler does to the outside, in the order it does it. *)
Inductive Effect :=
| EventNotify (e : Event)
| ZdpNodeDescriptorReq (nwk : Z)
| ZdpActiveEndpointsReq (nwk : Z)
| ZdpSimpleDescriptorReq (nwk ep : Z)
| ZclReadAttributes (param : ZCL_Param) (ext nwk : Z)
| ReadFunctionCall (fn : ReadFunction) (p : PollItem)
| VerifyItemChange (sub : ResourceRef) (change : StateChange) (suffix : What)
| Tick (sub : ResourceRef) (change : StateChange)
| CleanupStateChanges (sub : ResourceRef).

Definition is_zdp_request (x : Effect) : bool :=
  match x with
  | ZdpNodeDescriptorReq _ | ZdpActiveEndpointsReq _
  | ZdpSimpleDescriptorReq _ _ => true
  | _ => false
  end.

(** ** The device *)

(** The items a [Device] owns.  The two strings are [None] while their
    [lastSet()] is not valid. *)
Record DeviceItems := mkDeviceItems {
  stateReachable : bool;
  attrSleeper : bool;
  attrExtAddress : Z;
  attrNwkAddress : Z;
  attrManufacturerName : option string;
  attrModelId : option string
}.

(** [DevicePrivate], the items of the [Device] and the trace of its effects. *)
Record Device := mkDevice {
  subDevices_ids : list (string * string);   (* {uniqueid, prefix} *)
  node : option NodePtr;
  deviceKey : DeviceKey;
  state : PerLevel (option Handler);
  timer : PerLevel (option Z);
  awake : QElapsedTimer;
  binding : BindingContext;
  pollItems : list PollItem;
  managed : bool;
  zdpResult : ZDP_Result;
  readResult : DA_ReadResult;
  items : DeviceItems;
  trace : list Effect
}.

Definition set_subDevices_ids v d := mkDevice v (node d) (deviceKey d) (state d) (timer d) (awake d) (binding d) (pollItems d) (managed d) (zdpResult d) (readResult d) (items d) (trace d).
Definition set_node v d := mkDevice (subDevices_ids d) v (deviceKey d) (state d) (timer d) (awake d) (binding d) (pollItems d) (managed d) (zdpResult d) (readResult d) (items d) (trace d).
Definition set_state v d := mkDevice (subDevices_ids d) (node d) (deviceKey d) v (timer d) (awake d) (binding d) (pollItems d) (managed d) (zdpResult d) (readResult d) (items d) (trace d).
Definition set_timer v d := mkDevice (subDevices_ids d) (node d) (deviceKey d) (state d) v (awake d) (binding d) (pollItems d) (managed d) (zdpResult d) (readResult d) (items d) (trace d).
Definition set_awake v d := mkDevice (subDevices_ids d) (node d) (deviceKey d) (state d) (timer d) v (binding d) (pollItems d) (managed d) (zdpResult d) (readResult d) (items d) (trace d).
Definition set_binding v d := mkDevice (subDevices_ids d) (node d) (deviceKey d) (state d) (timer d) (awake d) v (pollItems d) (managed d) (zdpResult d) (readResult d) (items d) (trace d).
Definition set_pollItems v d := mkDevice (subDevices_ids d) (node d) (deviceKey d) (state d) (timer d) (awake d) (binding d) v (managed d) (zdpResult d) (readResult d) (items d) (trace d).
Definition set_zdpResult v d := mkDevice (subDevices_ids d) (node d) (deviceKey d) (state d) (timer d) (awake d) (binding d) (pollItems d) (managed d) v (readResult d) (items d) (trace d).
Definition set_readResult v d := mkDevice (subDevices_ids d) (node d) (deviceKey d) (state d) (timer d) (awake d) (binding d) (pollItems d) (managed d) (zdpResult d) v (items d) (trace d).
Definition set_items v d := mkDevice (subDevices_ids d) (node d) (deviceKey d) (state d) (timer d) (awake d) (binding d) (pollItems d) (managed d) (zdpResult d) (readResult d) v (trace d).
Definition set_trace v d := mkDevice (subDevices_ids d) (node d) (deviceKey d) (state d) (timer d) (awake d) (binding d) (pollItems d) (managed d) (zdpResult d) (readResult d) (items d) v.

Definition emit (x : Effect) (d : Device) : Device := set_trace (trace d ++ [x]) d.

(** [Resource::prefix()] of a device. *)
Definition RDevices : string := "/devices"%string.

(** ** Commands

    A handler is a command on the device: it reads the outside world, updates
    the device and either returns or runs into one of the faults below, which
    stand for undefined behaviour of the C++ code (and for a call depth the
    embedding does not unfold). *)

Inductive Fault :=
| NullHandler       (* call through a null handler slot *)
| NullNode          (* node() dereferenced while null *)
| NullItem          (* item(...) dereferenced while null *)
| LevelOutOfRange   (* event.num() outside of the handler array *)
| EmptyVector       (* back() or pop_back() of an empty vector *)
| DepthExceeded.

Inductive res (A : Type) := Ok (a : A) | Crash (u : Fault).
Arguments Ok {A}.
Arguments Crash {A}.

Definition Cmd := Env -> Device -> res Device.

Definition skip : Cmd := fun _ d => Ok d.
Definition fault (u : Fault) : Cmd := fun _ _ => Crash u.
Definition upd (f : Device -> Device) : Cmd := fun _ d => Ok (f d).
Definition seq (a b : Cmd) : Cmd :=
  fun env d => match a env d with Ok d' => b env d' | Crash u => Crash u end.
Definition rd {A} (q : Env -> Device -> A) (k : A -> Cmd) : Cmd :=
  fun env d => k (q env d) env d.
Definition rd_opt {A} (u : Fault) (q : Env -> Device -> option A) (k : A -> Cmd) : Cmd :=
  fun env d => match q env d with Some a => k a env d | None => Crash u end.

Declare Scope cmd_scope.
Delimit Scope cmd_scope with cmd.
Bind Scope cmd_scope with Cmd.
Notation "a ;; b" := (seq a b) (at level 61, right associativity) : cmd_scope.
Notation "'let!' x ':=' q 'in' k" := (rd q (fun x => k))
  (at level 61, x name, q at level 200, k at level 61, right associativity) : cmd_scope.
Notation "'let?' x ':=' q 'else' u 'in' k" := (rd_opt u q (fun x => k))
  (at level 61, x name, q at level 200, u at level 200, k at level 61,
   right associativity) : cmd_scope.
Open Scope cmd_scope.

Arguments skip _ _ /.
Arguments fault _ _ _ /.
Arguments upd _ _ _ /.
Arguments seq _ _ _ _ /.
Arguments rd {A} _ _ _ _ /.
Arguments rd_opt {A} _ _ _ _ _ /.

Definition updE (f : Env -> Device -> Device) : Cmd := fun env d => Ok (f env d).

Arguments updE _ _ _ /.

(** ** Queries and helpers of the device *)

(** [event.what() == w]. *)
Definition is_what (e : Event) (w : What) : bool := What_eqb (ev_what e) w.

(** [Device::node()] dereferenced. *)
Definition deref_node (env : Env) (d : Device) : option Node :=
  match node d with Some p => Some (node_at env p) | None => None end.

Definition Device_lastAwakeMs (env : Env) (d : Device) : Z :=
  match awake d with
  | Some t => now env - t
  | None => 8640000
  end.

Definition Device_reachable (env : Env) (d : Device) : bool :=
  if Device_lastAwakeMs env d <? MinMacPollRxOn then true
  else if match deref_node env d with
          | Some n => match nodeDescriptor n with
                      | Some nd => receiverOnWhenIdle nd
                      | None => false
                      end
          | None => false
          end
  then stateReachable (items d)
  else if negb (attrSleeper (items d)) then stateReachable (items d)
  else false.

(** [Device::subDevices()]: the stored ids resolved through the resource
    store, the ones that no longer resolve left out. *)
Definition Device_subDevices (env : Env) (d : Device) : list Resource :=
  flat_map (fun sub => match DEV_GetResource env (snd sub) (fst sub) with
                       | Some r => [r]
                       | None => []
                       end) (subDevices_ids d).

Definition startStateTimer (IntervalMs : Z) (level : DEV_StateLevel) : Cmd :=
  upd (fun d => set_timer (set_slot level (Some IntervalMs) (timer d)) d).

Definition stopStateTimer (level : DEV_StateLevel) : Cmd :=
  upd (fun d => match slot (timer d) level with
                | Some _ => set_timer (set_slot level None (timer d)) d
                | None => d
                end).

Definition DEV_EnqueueEvent (event : What) : Cmd :=
  upd (fun d => emit (EventNotify (mkEvent (Some RDevices) event EmptyString 0 (deviceKey d))) d).

Arguments startStateTimer _ _ _ _ /.
Arguments stopStateTimer _ _ _ /.
Arguments DEV_EnqueueEvent _ _ _ /.

(** [None] when an item of a sub-device that is looked at does not exist
    (a null pointer is dereferenced), else the result. *)
Fixpoint DEV_GetSubDevice (subs : list Resource) (prefix : option string)
    (identifier : string) : option (option Resource) :=
  match subs with
  | [] => Some None
  | sub :: rest =>
    if match prefix with
       | Some p => negb (String.eqb (r_prefix sub) p)
       | None => false
       end
    then DEV_GetSubDevice rest prefix identifier
    else
      match Resource_item sub RAttrUniqueId with
      | None => None
      | Some u =>
        if String.eqb (ri_value u) identifier then Some (Some sub)
        else match Resource_item sub RAttrId with
             | None => None
             | Some i =>
               if String.eqb (ri_value i) identifier then Some (Some sub)
               else DEV_GetSubDevice rest prefix identifier
             end
      end
  end.

(** The calls [DEV_CheckItemChanges] makes on one sub-device. *)
Definition check_sub (event : Event) (sub : Resource) : list Effect :=
  match r_stateChanges sub with
  | [] => []
  | changes =>
    flat_map (fun change =>
                match Resource_item sub (ev_what event) with
                | Some _ => [VerifyItemChange (r_ref sub) change (ev_what event)]
                | None => []
                end ++ [Tick (r_ref sub) change]) changes
    ++ [CleanupStateChanges (r_ref sub)]
  end.

Definition DEV_CheckItemChanges (event : Event) : Cmd :=
  fun env d =>
    match (if is_what event REventAwake || is_what event REventPoll
           then Some (Device_subDevices env d)
           else match DEV_GetSubDevice (Device_subDevices env d)
                        (ev_resource event) (ev_id event) with
                | Some (Some sub) => Some [sub]
                | Some None => Some []
                | None => None
                end) with
    | Some subDevices =>
      Ok (set_trace (trace d ++ flat_map (check_sub event) subDevices) d)
    | None => Crash NullItem
    end.

(** Returns the first Simple Descriptor for a given server [clusterId]. *)
Definition DEV_GetSimpleDescriptorForServerCluster (n : Node) (clusterId : Z)
    : option SimpleDescriptor :=
  find (fun sd => existsb (fun cl => cl =? clusterId) (sd_inClusters sd))
       (simpleDescriptors n).

(** The two string items of the device that [item(suffix)] is asked for. *)
Definition Device_item_lastSet (suffix : What) (i : DeviceItems) : option (option string) :=
  match suffix with
  | RAttrManufacturerName => Some (attrManufacturerName i)
  | RAttrModelId => Some (attrModelId i)
  | _ => None
  end.

Definition Device_item_setValue (suffix : What) (v : string) (i : DeviceItems) : DeviceItems :=
  match suffix with
  | RAttrManufacturerName =>
    mkDeviceItems (stateReachable i) (attrSleeper i) (attrExtAddress i)
                  (attrNwkAddress i) (Some v) (attrModelId i)
  | RAttrModelId =>
    mkDeviceItems (stateReachable i) (attrSleeper i) (attrExtAddress i)
                  (attrNwkAddress i) (attrManufacturerName i) (Some v)
  | _ => i
  end.

Definition set_addresses (ext nwk : Z) (i : DeviceItems) : DeviceItems :=
  mkDeviceItems (stateReachable i) (attrSleeper i) ext nwk
                (attrManufacturerName i) (attrModelId i).

(** The loop of [DEV_FillItemFromSubdevices]: the first sub-device that has
    the item set and whose value the device item accepts. *)
Fixpoint fill_from (env : Env) (itemSuffix : What) (subDevices : list Resource)
    : option string :=
  match subDevices with
  | [] => None
  | rsub :: rest =>
    match Resource_item rsub itemSuffix with
    | Some sitem =>
      match ri_lastSet sitem with
      | Some _ =>
        if ResourceItem_setValue env itemSuffix (ri_value sitem)
        then Some (ri_value sitem)
        else fill_from env itemSuffix rest
      | None => fill_from env itemSuffix rest
      end
    | None => fill_from env itemSuffix rest
    end
  end.

(** Try to fill the item from the sub-devices if not already set; [k] gets
    the returned flag. *)
Definition DEV_FillItemFromSubdevices (itemSuffix : What)
    (subDevices : list Resource) (k : bool -> Cmd) : Cmd :=
  fun env d =>
    match Device_item_lastSet itemSuffix (items d) with
    | None => Crash NullItem
    | Some (Some _) => k true env d
    | Some None =>
      match fill_from env itemSuffix subDevices with
      | Some v => k true env (set_items (Device_item_setValue itemSuffix v (items d)) d)
      | None => k false env d
      end
    end.

(** Sends a ZCL Read Attributes request; [k] gets the returned flag. *)
Definition DEV_ZclRead (clusterId attrId : Z) (k : bool -> Cmd) : Cmd :=
  fun env d =>
    if negb (Device_reachable env d) then k false env d
    else
      match deref_node env d with
      | None => Crash NullNode
      | Some n =>
        match DEV_GetSimpleDescriptorForServerCluster n clusterId with
        | None => k false env d
        | Some sd =>
          let param := mkZCL_Param true (sd_endpoint sd) clusterId [attrId] in
          let ext := attrExtAddress (items d) in
          let nwk := attrNwkAddress (items d) in
          let zclResult := ZCL_ReadAttributes env param ext nwk in
          k (isEnqueued zclResult) env
            (set_readResult zclResult (emit (ZclReadAttributes param ext nwk) d))
        end
      end.

Arguments DEV_FillItemFromSubdevices _ _ _ _ _ /.
Arguments DEV_ZclRead _ _ _ _ _ /.

(** Returns all items which are ready for polling, reversed. *)
Definition DEV_GetPollItems (env : Env) (d : Device) : list PollItem :=
  rev (flat_map
         (fun r =>
            flat_map
              (fun i =>
                 if match ri_lastSet i with
                    | Some t => currentDateTime env - t <? ri_refreshInterval i
                    | None => false
                    end
                 then []
                 else
                   let p := DDF_GetItem env (r_ref r) i in
                   if QVariant_isNull p then []
                   else match QVariant_toMap p with
                        | [] => []
                        | _ => [PollItem_new (r_ref r) (ri_suffix i) p]
                        end)
              (r_items r))
         (Device_subDevices env d)).

(** [pollItems.pop_back()]. *)
Definition pop_back : Cmd :=
  fun _ d =>
    match rev (pollItems d) with
    | [] => Crash EmptyVector
    | _ :: front => Ok (set_pollItems (rev front) d)
    end.

(** [pollItems.back().retry = n]. *)
Definition set_back_retry (n : Z) : Cmd :=
  fun _ d =>
    match rev (pollItems d) with
    | [] => Crash EmptyVector
    | p :: front => Ok (set_pollItems (rev front ++ [set_retry n p]) d)
    end.

Arguments pop_back _ _ /.
Arguments set_back_retry _ _ _ /.

(** ** The state handlers *)

Section Handlers.

(** [DA_GetReadFunction] of device_access_fn: the read function for the
    [readParameters] of an item, or null. *)
Variable DA_GetReadFunction : QVariant -> option ReadFunction.

(** A call through a handler pointer, [state[level](device, event)]. *)
Variable call : Handler -> Event -> Cmd.

Definition setState (newState : option Handler) (level : DEV_StateLevel) : Cmd :=
  let! cur := (fun _ d => slot (state d) level) in
  if negb (slot_eqb cur newState) then
    match cur with
    | Some h =>
      let! key := (fun _ d => deviceKey d) in
      call h (mkEvent (Some RDevices) REventStateLeave EmptyString (level_num level) key)
    | None => skip
    end ;;
    upd (fun d => set_state (set_slot level newState (state d)) d) ;;
    match newState with
    | Some _ =>
      upd (fun d => emit (EventNotify (mkEvent (Some RDevices) REventStateEnter EmptyString
                                               (level_num level) (deviceKey d))) d)
    | None => skip
    end
  else skip.

Definition Device_handleEvent (event : Event) (level : DEV_StateLevel) : Cmd :=
  if is_what event REventStateEnter || is_what event REventStateLeave then
    match level_of_num (ev_num event) with
    | Some l =>
      let? h := (fun _ d => slot (state d) l) else NullHandler in
      call h event
    | None => fault LevelOutOfRange
    end
  else
    let! cur := (fun _ d => slot (state d) level) in
    match cur with
    | Some h =>
      (if is_what event REventAwake && DEV_StateLevel_eqb level StateLevel0
       then updE (fun env d => set_awake (Some (now env)) d)
       else skip) ;;
      call h event
    | None => skip
    end.

Definition Device_timerEvent (i : DEV_StateLevel) : Cmd :=
  let! t := (fun _ d => slot (timer d) i) in
  match t with
  | Some _ =>
    upd (fun d => set_timer (set_slot i None (timer d)) d) ;;
    let? h := (fun _ d => slot (state d) i) else NullHandler in
    let! key := (fun _ d => deviceKey d) in
    call h (mkEvent (Some RDevices) REventStateTimeout EmptyString (level_num i) key)
  | None => skip
  end.

Definition DEV_InitStateHandler (event : Event) : Cmd :=
  let rest : Cmd :=
    if is_what event REventPoll ||
       is_what event REventAwake ||
       is_what event RConfigReachable ||
       is_what event RStateReachable ||
       is_what event REventStateTimeout ||
       is_what event RStateLastUpdated
    then
      (* lazy reference to deCONZ::Node *)
      updE (fun env d => match node d with
                         | None => set_node (DEV_GetCoreNode env (deviceKey d)) d
                         | Some _ => d
                         end) ;;
      let! n := deref_node in
      match n with
      | Some n =>
        upd (fun d => set_items (set_addresses (address_ext n) (address_nwk n) (items d)) d) ;;
        (* got a node, jump to verification *)
        let! r := Device_reachable in
        if match nodeDescriptor n with Some _ => true | None => false end || r
        then setState (Some H_NodeDescriptor) StateLevel0
        else skip
      | None =>
        let! key := (fun _ d => deviceKey d) in
        if Z.land key 0xffffffff00000000 =? 0
        then setState (Some H_Dead) StateLevel0  (* ignore ZGP for now *)
        else skip
      end
    else skip in
  if is_what event REventStateEnter then
    upd (set_zdpResult ZDP_Result_default) ;;
    if Z.land (ev_deviceKey event) 0x00212E0000000000 =? 0x00212E0000000000 then
      updE (fun env d => set_node (DEV_GetCoreNode env (deviceKey d)) d) ;;
      let! n := deref_node in
      if match n with Some n => address_nwk n =? 0x0000 | None => false end
      then setState (Some H_Dead) StateLevel0  (* ignore coordinator for now *)
      else rest
    else rest
  else rest.

(** The three ZDP verification states differ in the datum they look for, the
    request they send and the event that answers it. *)
Definition zdp_confirm_failed (event : Event) : Cmd :=
  let! z := (fun _ d => zdpResult d) in
  if (zdp_apsReqId z =? EventApsConfirmId event) &&
     negb (EventApsConfirmStatus event =? ApsSuccessStatus)
  then setState (Some H_Init) StateLevel0
  else skip.

Definition zdp_enqueued_or_init : Cmd :=
  let! z := (fun _ d => zdpResult d) in
  if zdp_isEnqueued z
  then startStateTimer MinMacPollRxOn StateLevel0
  else setState (Some H_Init) StateLevel0.

(** #2 This state checks that a valid NodeDescriptor is available. *)
Definition DEV_NodeDescriptorStateHandler (event : Event) : Cmd :=
  if is_what event REventStateEnter then
    let? n := deref_node else NullNode in
    let! r := Device_reachable in
    match nodeDescriptor n with
    | Some _ => setState (Some H_ActiveEndpoints) StateLevel0
    | None =>
      if negb r then setState (Some H_Init) StateLevel0
      else
        updE (fun env d =>
                let nwk := attrNwkAddress (items d) in
                set_zdpResult (ZDP_NodeDescriptorReq env nwk)
                              (emit (ZdpNodeDescriptorReq nwk) d)) ;;
        zdp_enqueued_or_init
    end
  else if is_what event REventApsConfirm then zdp_confirm_failed event
  else if is_what event REventNodeDescriptor then
    stopStateTimer StateLevel0 ;;
    setState (Some H_Init) StateLevel0 ;;
    DEV_EnqueueEvent REventAwake
  else if is_what event REventStateTimeout then
    setState (Some H_Init) StateLevel0
  else skip.

(** #3 This state checks that active endpoints are known. *)
Definition DEV_ActiveEndpointsStateHandler (event : Event) : Cmd :=
  if is_what event REventStateEnter then
    let? n := deref_node else NullNode in
    let! r := Device_reachable in
    match endpoints n with
    | _ :: _ => setState (Some H_SimpleDescriptor) StateLevel0
    | [] =>
      if negb r then setState (Some H_Init) StateLevel0
      else
        updE (fun env d =>
                let nwk := attrNwkAddress (items d) in
                set_zdpResult (ZDP_ActiveEndpointsReq env nwk)
                              (emit (ZdpActiveEndpointsReq nwk) d)) ;;
        zdp_enqueued_or_init
    end
  else if is_what event REventApsConfirm then zdp_confirm_failed event
  else if is_what event REventActiveEndpoints then
    stopStateTimer StateLevel0 ;;
    setState (Some H_Init) StateLevel0 ;;
    DEV_EnqueueEvent REventAwake
  else if is_what event REventStateTimeout then
    setState (Some H_Init) StateLevel0
  else skip.

(** The first endpoint whose simple descriptor is missing or has the device
    id 0xffff; 0x00 when there is none. *)
Definition needFetchEp (n : Node) : Z :=
  match find (fun ep => match copySimpleDescriptor n ep with
                        | Some sd => sd_deviceId sd =? 0xffff
                        | None => true
                        end) (endpoints n) with
  | Some ep => ep
  | None => 0x00
  end.

(** #4 This state checks that for all active endpoints simple descriptors
    are known. *)
Definition DEV_SimpleDescriptorStateHandler (event : Event) : Cmd :=
  if is_what event REventStateEnter then
    let? n := deref_node else NullNode in
    let! r := Device_reachable in
    if needFetchEp n =? 0x00 then setState (Some H_BasicCluster) StateLevel0
    else if negb r then setState (Some H_Init) StateLevel0
    else
      updE (fun env d =>
              let nwk := attrNwkAddress (items d) in
              set_zdpResult (ZDP_SimpleDescriptorReq env nwk (needFetchEp n))
                            (emit (ZdpSimpleDescriptorReq nwk (needFetchEp n)) d)) ;;
      zdp_enqueued_or_init
  else if is_what event REventApsConfirm then zdp_confirm_failed event
  else if is_what event REventSimpleDescriptor then
    stopStateTimer StateLevel0 ;;
    setState (Some H_Init) StateLevel0 ;;
    DEV_EnqueueEvent REventAwake
  else if is_what event REventStateTimeout then
    setState (Some H_Init) StateLevel0
  else skip.

(** An entry of the [items] array of the basic cluster state. *)
Record _item := mk_item { it_suffix : What; it_clusterId : Z; it_attrId : Z }.

Definition basic_cluster_items : list _item :=
  [ mk_item RAttrManufacturerName 0x0000 0x0004;
    mk_item RAttrModelId 0x0000 0x0005 ].

(** The loop over [items]: [after] is the code behind the loop, reached with
    the count of filled items when the loop ends or breaks; a read that was
    enqueued returns from the handler. *)
Fixpoint basic_cluster_loop (its : list _item) (subDevices : list Resource)
    (okCount : Z) (after : Z -> Cmd) : Cmd :=
  match its with
  | [] => after okCount
  | it :: rest =>
    DEV_FillItemFromSubdevices (it_suffix it) subDevices (fun filled =>
      if filled then basic_cluster_loop rest subDevices (okCount + 1) after
      else
        DEV_ZclRead (it_clusterId it) (it_attrId it) (fun enqueued =>
          if enqueued
          then startStateTimer MinMacPollRxOn StateLevel0  (* keep state and wait *)
          else after okCount))
  end.

(** #5 This state reads all common basic cluster attributes needed to match
    a DDF. *)
Definition DEV_BasicClusterStateHandler (event : Event) : Cmd :=
  if is_what event REventStateEnter then
    let! subDevices := Device_subDevices in
    basic_cluster_loop basic_cluster_items subDevices 0 (fun okCount =>
      if negb (okCount =? Z.of_nat (List.length basic_cluster_items))
      then setState (Some H_Init) StateLevel0
      else setState (Some H_GetDeviceDescription) StateLevel0)
  else if is_what event REventApsConfirm then
    let! rr := (fun _ d => readResult d) in
    if (apsReqId rr =? EventApsConfirmId event) &&
       negb (EventApsConfirmStatus event =? ApsSuccessStatus)
    then setState (Some H_Init) StateLevel0
    else skip
  else if is_what event RAttrManufacturerName || is_what event RAttrModelId then
    stopStateTimer StateLevel0 ;;
    setState (Some H_Init) StateLevel0 ;;  (* ok re-evaluate *)
    DEV_EnqueueEvent REventAwake
  else if is_what event REventStateTimeout then
    setState (Some H_Init) StateLevel0
  else skip.

(** #6 This state checks if for the device a device description file (DDF)
    is available. *)
Definition DEV_GetDeviceDescriptionHandler (event : Event) : Cmd :=
  if is_what event REventStateEnter then
    DEV_EnqueueEvent REventDDFInitRequest
  else if is_what event REventDDFInitResponse then
    if ev_num event =? 1
    then setState (Some H_Idle) StateLevel0
    else setState (Some H_Dead) StateLevel0
  else skip.

(** #7 In this state the device is operational and runs sub states in
    parallel. *)
Definition DEV_IdleStateHandler (event : Event) : Cmd :=
  if is_what event REventStateEnter then
    setState (Some H_Binding) STATE_LEVEL_BINDING ;;
    setState (Some H_PollIdle) STATE_LEVEL_POLL
  else if is_what event REventStateLeave then
    setState None STATE_LEVEL_BINDING ;;
    setState None STATE_LEVEL_POLL
  else
    (if is_what event REventDDFReload
     then setState (Some H_Init) StateLevel0
     else skip) ;;
    DEV_CheckItemChanges event ;;
    (* process parallel states *)
    Device_handleEvent event StateLevel1 ;;
    Device_handleEvent event StateLevel2.

Definition DEV_BindingHandler (event : Event) : Cmd :=
  let verify : Cmd :=
    upd (fun d => set_binding (mkBindingContext (bindingVerify (binding d)) 0
                                                (mgmtBindSupported (binding d))) d) ;;
    setState (Some H_BindingTableVerify) STATE_LEVEL_BINDING ;;
    DEV_EnqueueEvent REventBindingTick in
  if is_what event REventPoll || is_what event REventAwake then
    let! due := (fun env d => match bindingVerify (binding d) with
                              | None => true
                              | Some t => now env - t >? 1000 * 60 * 5
                              end) in
    if due then verify else skip
  else if is_what event REventBindingTable then
    (if ev_num event =? ZdpSuccess then
       upd (fun d => set_binding (mkBindingContext (bindingVerify (binding d))
                                                   (bindingIter (binding d)) true) d)
     else if ev_num event =? ZdpNotSupported then
       upd (fun d => set_binding (mkBindingContext (bindingVerify (binding d))
                                                   (bindingIter (binding d)) false) d)
     else skip) ;;
    verify
  else skip.

Definition DEV_BindingTableVerifyHandler (event : Event) : Cmd :=
  if negb (is_what event REventBindingTick) then skip
  else
    let? n := deref_node else NullNode in
    let! iter := (fun _ d => bindingIter (binding d)) in
    if iter >=? Z.of_nat (List.length (bindingTable n)) then
      updE (fun env d => set_binding (mkBindingContext (Some (now env))
                                        (bindingIter (binding d))
                                        (mgmtBindSupported (binding d))) d) ;;
      setState (Some H_Binding) STATE_LEVEL_BINDING
    else
      upd (fun d => set_binding (mkBindingContext (bindingVerify (binding d))
                                   (size_t_incr (bindingIter (binding d)))
                                   (mgmtBindSupported (binding d))) d) ;;
      DEV_EnqueueEvent REventBindingTick.

(** This state waits for REventPoll.  It collects all poll worthy items in a
    queue and moves to the PollNext state. *)
Definition DEV_PollIdleStateHandler (event : Event) : Cmd :=
  if is_what event REventStateEnter then skip
  else if is_what event REventPoll then
    updE (fun env d => set_pollItems (DEV_GetPollItems env d) d) ;;
    let! q := (fun _ d => pollItems d) in
    match q with
    | _ :: _ => setState (Some H_PollNext) STATE_LEVEL_POLL
    | [] => skip
    end
  else skip.

(** This state processes the next PollItem and moves to the PollBusy state.
    If no more items are in the queue it moves back to PollIdle state.

    [poll] is a reference to the last element of the vector.  Where no read
    function exists the element is popped while [poll] is still in use: the
    vector keeps its storage, so [poll.retry++] then counts in the slot of
    the popped element and changes no element of the queue. *)
Definition DEV_PollNextStateHandler (event : Event) : Cmd :=
  if is_what event REventStateEnter || is_what event REventStateTimeout then
    let! r := Device_reachable in
    (if negb r then upd (set_pollItems []) else skip) ;;
    let! q := (fun _ d => pollItems d) in
    match rev q with
    | [] => setState (Some H_PollIdle) STATE_LEVEL_POLL
    | poll :: _ =>
      let fn := DA_GetReadFunction (readParameters poll) in
      upd (set_readResult DA_ReadResult_default) ;;
      match fn with
      | Some f =>
        updE (fun env d => set_readResult (callReadFunction env f poll)
                                          (emit (ReadFunctionCall f poll) d))
      | None => pop_back
      end ;;
      let! rr := (fun _ d => readResult d) in
      if isEnqueued rr then
        setState (Some H_PollBusy) STATE_LEVEL_POLL
      else
        let retry' := size_t_incr (retry poll) in
        match fn with
        | Some _ => set_back_retry retry'
        | None => skip   (* the slot of the popped element *)
        end ;;
        (if retry' >=? MaxPollItemRetries then pop_back else skip) ;;
        startStateTimer MinMacPollRxOn STATE_LEVEL_POLL  (* try again *)
    end
  else if is_what event REventStateLeave then
    stopStateTimer STATE_LEVEL_POLL
  else skip.

(** This state waits for APS confirm or timeout for an ongoing poll request.
    In any case it moves back to PollNext state. *)
Definition DEV_PollBusyStateHandler (event : Event) : Cmd :=
  let! rr := (fun _ d => readResult d) in
  if is_what event REventStateEnter then
    startStateTimer MinMacPollRxOn STATE_LEVEL_POLL
  else if is_what event REventStateLeave then
    stopStateTimer STATE_LEVEL_POLL
  else if is_what event REventApsConfirm &&
          (EventApsConfirmId event =? apsReqId rr) then
    (if EventApsConfirmStatus event =? 0x00 then pop_back  (* success *)
     else
       let! q := (fun _ d => pollItems d) in
       match rev q with
       | [] => fault EmptyVector
       | pollItem :: _ =>
         let retry' := size_t_incr (retry pollItem) in
         set_back_retry retry' ;;
         if retry' >=? MaxPollItemRetries then pop_back else skip
       end) ;;
    setState (Some H_PollNext) STATE_LEVEL_POLL
  else if is_what event REventStateTimeout then
    setState (Some H_PollNext) STATE_LEVEL_POLL
  else skip.

(** Empty handler to stop processing of the device. *)
Definition DEV_DeadStateHandler (event : Event) : Cmd := skip.

(** The function a handler pointer points to. *)
Definition handler_fn (h : Handler) : Event -> Cmd :=
  match h with
  | H_Init => DEV_InitStateHandler
  | H_NodeDescriptor => DEV_NodeDescriptorStateHandler
  | H_ActiveEndpoints => DEV_ActiveEndpointsStateHandler
  | H_SimpleDescriptor => DEV_SimpleDescriptorStateHandler
  | H_BasicCluster => DEV_BasicClusterStateHandler
  | H_GetDeviceDescription => DEV_GetDeviceDescriptionHandler
  | H_Idle => DEV_IdleStateHandler
  | H_Dead => DEV_DeadStateHandler
  | H_Binding => DEV_BindingHandler
  | H_BindingTableVerify => DEV_BindingTableVerifyHandler
  | H_PollIdle => DEV_PollIdleStateHandler
  | H_PollNext => DEV_PollNextStateHandler
  | H_PollBusy => DEV_PollBusyStateHandler
  end.

End Handlers.

Arguments zdp_confirm_failed _ _ _ _ /.
Arguments zdp_enqueued_or_init _ _ _ /.

(** Handlers call handlers through [setState] and [Device_handleEvent].  The
    calls nest three deep at most (Idle, on leaving, makes the handlers of
    the two sub state machines leave): [invoke F n] unfolds [n] levels of
    calls, with [F] for [DA_GetReadFunction]. *)
Fixpoint invoke (F : QVariant -> option ReadFunction) (n : nat) (h : Handler)
    (event : Event) : Cmd :=
  match n with
  | O => fault DepthExceeded
  | S n' => handler_fn F (invoke F n') h event
  end.

Definition call_depth : nat := 3.

(** The entry points of the device: [Device::handleEvent],
    [Device::timerEvent], the constructor and [Device::addSubDevice]. *)
Definition handleEvent (F : QVariant -> option ReadFunction) (event : Event)
    (level : DEV_StateLevel) : Cmd :=
  Device_handleEvent (invoke F call_depth) event level.

Definition timerEvent (F : QVariant -> option ReadFunction) (i : DEV_StateLevel) : Cmd :=
  Device_timerEvent (invoke F call_depth) i.

Definition Device_blank (key : DeviceKey) (managed : bool) : Device :=
  mkDevice [] None key (mkPerLevel None None None) (mkPerLevel None None None)
           None (mkBindingContext None 0 false) [] managed
           ZDP_Result_default DA_ReadResult_default
           (mkDeviceItems false false 0 0 None None) [].

(** The constructor installs the Init handler; no handler is called, the
    slot being null before. *)
Definition Device_new (env : Env) (key : DeviceKey) (managed : bool) : res Device :=
  setState (fun _ _ => fault NullHandler) (Some H_Init) StateLevel0 env
           (Device_blank key managed).

(** [Device::addSubDevice] writes to the device and to the sub-device it is
    given: the result is the device and the sub-device after the call. *)
Definition Device_addSubDevice (sub : Resource) (env : Env) (d : Device)
    : res (Device * Resource) :=
  match Resource_item sub RAttrUniqueId with
  | None => Crash NullItem
  | Some u =>
    let uniqueId := ri_value u in
    let sub' := Resource_setParentResource (deviceKey d) sub in
    if existsb (fun s => String.eqb (fst s) uniqueId) (subDevices_ids d)
    then Ok (d, sub')  (* already registered *)
    else Ok (set_subDevices_ids (subDevices_ids d ++ [(uniqueId, r_prefix sub')]) d,
             sub')
  end.

(** ** The device registry *)

(** [DeviceContainer], a vector of owned devices. *)
Definition DeviceContainer := list Device.

Definition DEV_GetDevice (devices : DeviceContainer) (key : DeviceKey) : option Device :=
  find (fun device => deviceKey device =? key) devices.

Definition DEV_GetOrCreateDevice (env : Env) (managed : bool)
    (devices : DeviceContainer) (key : DeviceKey) : res (DeviceContainer * Device) :=
  match find (fun device => deviceKey device =? key) devices with
  | None =>
    match Device_new env key managed with
    | Ok d => Ok ((devices ++ [d])%list, d)
    | Crash u => Crash u
    end
  | Some d => Ok (devices, d)
  end.

(** [devices.erase(i)] for the first device with the key. *)
Fixpoint erase_first (key : DeviceKey) (devices : DeviceContainer) : DeviceContainer :=
  match devices with
  | [] => []
  | device :: rest =>
    if deviceKey device =? key then rest else device :: erase_first key rest
  end.

(** The container after the call, and the returned flag. *)
Definition DEV_RemoveDevice (devices : DeviceContainer) (key : DeviceKey)
    : DeviceContainer * bool :=
  (match find (fun device => deviceKey device =? key) devices with
   | Some _ => erase_first key devices
   | None => devices
   end, false).

(** ** Runs of a device *)

(** What reaches a device from outside: events and timer events, sub-devices
    being added, and writes to the items of the device (Reachable, Sleeper,
    the addresses and names are also written by other parts of the plugin). *)
Inductive Input :=
| In_handleEvent (event : Event) (level : DEV_StateLevel)
| In_timerEvent (i : DEV_StateLevel)
| In_addSubDevice (sub : Resource)
| In_setItems (i : DeviceItems).

Definition step (F : QVariant -> option ReadFunction) (x : Input) : Cmd :=
  match x with
  | In_handleEvent event level => handleEvent F event level
  | In_timerEvent i => timerEvent F i
  | In_addSubDevice sub =>
    (* the sub-device stays with the resource store *)
    fun env d => match Device_addSubDevice sub env d with
                 | Ok (d', _) => Ok d'
                 | Crash u => Crash u
                 end
  | In_setItems i => upd (set_items i)
  end.

(** A run: each input is handled in the world as it is at that time. *)
Fixpoint run (F : QVariant -> option ReadFunction) (xs : list (Env * Input))
    (d : Device) : res Device :=
  match xs with
  | [] => Ok d
  | (env, x) :: rest =>
    match step F x env d with
    | Ok d' => run F rest d'
    | Crash u => Crash u
    end
  end.

(** The states a device can be in: a newly constructed device, and what a
    step that returns makes of a reachable state. *)
Inductive Reach (F : QVariant -> option ReadFunction) : Device -> Prop :=
| Reach_new env key managed d :
    Device_new env key managed = Ok d -> Reach F d
| Reach_step env x d d' :
    Reach F d -> step F x env d = Ok d' -> Reach F d'.

(** [post Q r]: [Q] holds of the device when the call returned.  A call that
    ran into undefined behaviour promises nothing, but the calls never nest
    deeper than the embedding unfolds them. *)
Definition post (Q : Device -> Prop) (r : res Device) : Prop :=
  match r with
  | Ok d' => Q d'
  | Crash DepthExceeded => False
  | Crash _ => True
  end.

(** ** Invariants *)

Definition level0_handler (h : Handler) : bool :=
  match h with
  | H_Init | H_NodeDescriptor | H_ActiveEndpoints | H_SimpleDescriptor
  | H_BasicCluster | H_GetDeviceDescription | H_Idle | H_Dead => true
  | _ => false
  end.

Definition level1_handler (h : Handler) : bool :=
  match h with H_Binding | H_BindingTableVerify => true | _ => false end.

Definition level2_handler (h : Handler) : bool :=
  match h with H_PollIdle | H_PollNext | H_PollBusy => true | _ => false end.

(** Each slot holds a handler of its level, level 0 is never empty, and the
    two sub state machines are installed under Idle only. *)
Definition slots_ok (s : PerLevel (option Handler)) : bool :=
  match at0 s with
  | Some h0 =>
    level0_handler h0
    && match at1 s with
       | Some h1 => level1_handler h1 && Handler_eqb h0 H_Idle
       | None => true
       end
    && match at2 s with
       | Some h2 => level2_handler h2 && Handler_eqb h0 H_Idle
       | None => true
       end
  | None => false
  end.

(** A queued item was retried less often than the cap allows, and not at all
    when there is no read function for it. *)
Definition item_ok (F : QVariant -> option ReadFunction) (p : PollItem) : Prop :=
  0 <= retry p < MaxPollItemRetries /\
  (F (readParameters p) = None -> retry p = 0).

(** While a read is under way its item is the last one of the queue. *)
Definition busy_ok (F : QVariant -> option ReadFunction) (d : Device) : Prop :=
  slot (state d) STATE_LEVEL_POLL = Some H_PollBusy ->
  exists front p, pollItems d = (front ++ [p])%list /\ F (readParameters p) <> None.

Definition Inv (F : QVariant -> option ReadFunction) (d : Device) : Prop :=
  slots_ok (state d) = true /\ Forall (item_ok F) (pollItems d) /\ busy_ok F d.

(** The invariant, read from the end of the queue. *)
Definition Inv_rev (F : QVariant -> option ReadFunction) (d : Device) : Prop :=
  slots_ok (state d) = true /\
  Forall (item_ok F) (rev (pollItems d)) /\
  (at2 (state d) = Some H_PollBusy ->
   match rev (pollItems d) with
   | p :: _ => F (readParameters p) <> None
   | [] => False
   end).

(** ** Vocabulary of the properties *)

(** The node of the device has a node descriptor with receiverOnWhenIdle. *)
Definition rx_on_when_idle (env : Env) (d : Device) : bool :=
  match deref_node env d with
  | Some n => match nodeDescriptor n with
              | Some nd => receiverOnWhenIdle nd
              | None => false
              end
  | None => false
  end.

(** The verification of the binding table is due. *)
Definition binding_due (env : Env) (d : Device) : bool :=
  match bindingVerify (binding d) with
  | None => true
  | Some t => now env - t >? 1000 * 60 * 5
  end.

(** The events on which Init looks for the node of the device. *)
Definition init_progress_event (event : Event) : bool :=
  is_what event REventPoll || is_what event REventAwake ||
  is_what event RConfigReachable || is_what event RStateReachable ||
  is_what event REventStateTimeout || is_what event RStateLastUpdated.

(** The ZDP requests a device has sent. *)
Definition zdp_requests (d : Device) : list Effect :=
  filter is_zdp_request (trace d).

(** The same queued item, retried at least as often. *)
Definition item_le (p p' : PollItem) : Prop :=
  resource p = resource p' /\ item p = item p' /\
  readParameters p = readParameters p' /\ retry p <= retry p'.

(** The items of [q] that are still queued in [q'], in place. *)
Definition kept_items (q q' : list PollItem) : Prop :=
  exists kept gone, q = (kept ++ gone)%list /\ Forall2 item_le kept q'.

(** The event confirms the read request that is under way. *)
Definition confirm_for_read (d : Device) (event : Event) : bool :=
  is_what event REventApsConfirm && (EventApsConfirmId event =? apsReqId (readResult d)).

(** Why the handler [h] of the poll sub state machine took items off the
    queue, [q'] being the queue it left: PollNext found the device not
    reachable and dropped the queue; or the last item was removed, because
    PollNext found no read function for it, or PollBusy got the confirm of
    its read with status 0x00, or its retry count reached the cap. *)
Definition removal_cause (F : QVariant -> option ReadFunction) (env : Env)
    (d : Device) (event : Event) (h : Handler) (q' : list PollItem) : Prop :=
  (h = H_PollNext /\ Device_reachable env d = false /\ q' = [])
  \/ exists front p,
      pollItems d = (front ++ [p])%list /\ q' = front /\
      ((h = H_PollNext /\ F (readParameters p) = None)
       \/ (h = H_PollBusy /\ confirm_for_read d event = true /\
           EventApsConfirmStatus event = 0x00)
       \/ MaxPollItemRetries <= retry p + 1).

(** The queue after a failed attempt to read its last item [p]. *)
Definition retry_or_drop (front : list PollItem) (p : PollItem) : list PollItem :=
  if size_t_incr (retry p) >=? MaxPollItemRetries then front
  else (front ++ [set_retry (size_t_incr (retry p)) p])%list.

(** The queue PollNext leaves. *)
Definition PollNext_queue (F : QVariant -> option ReadFunction) (env : Env)
    (event : Event) (d : Device) : list PollItem :=
  if is_what event REventStateEnter || is_what event REventStateTimeout then
    if negb (Device_reachable env d) then []
    else match rev (pollItems d) with
         | [] => []
         | p :: front =>
           match F (readParameters p) with
           | None => rev front
           | Some f =>
             if isEnqueued (callReadFunction env f p) then pollItems d
             else retry_or_drop (rev front) p
           end
         end
  else pollItems d.

(** The queue PollBusy leaves. *)
Definition PollBusy_queue (event : Event) (d : Device) : list PollItem :=
  if is_what event REventStateEnter || is_what event REventStateLeave then pollItems d
  else if confirm_for_read d event then
    match rev (pollItems d) with
    | [] => pollItems d
    | p :: front =>
      if EventApsConfirmStatus event =? 0x00 then rev front
      else retry_or_drop (rev front) p
    end
  else pollItems d.

(** ** Sample worlds and devices

    The scenarios of the specification, as inputs the properties below are
    checked on. *)

(** A read function exists for the read parameters that name "zcl". *)
Definition sample_read_function (p : QVariant) : option ReadFunction :=
  match p with
  | VMap ((k, v) :: _) =>
    if String.eqb k "fn" && String.eqb v "zcl" then Some "zcl"%string else None
  | _ => None
  end.

Definition key_s1 : DeviceKey := 0x00212E0000000001.
Definition key_coordinator : DeviceKey := 0x00212E0000000002.
Definition key_other_coordinator : DeviceKey := 0x00124B0000000001.
Definition key_green_power : DeviceKey := 0x0000000012345678.

(** The node of scenario S1, everything known. *)
Definition node_s1 : Node :=
  mkNode 0x1234 key_s1 (Some (mkNodeDescriptor true)) [0x01]
         [mkSimpleDescriptor 0x01 0x0101 [0x0000]] [].

(** The coordinator of scenario S3, and one with another vendor prefix whose
    node descriptor is not known yet. *)
Definition node_coordinator : Node :=
  mkNode 0x0000 key_coordinator (Some (mkNodeDescriptor true)) [0x01] [] [].
Definition node_other_coordinator : Node :=
  mkNode 0x0000 key_other_coordinator None [] [] [].

Definition light_s1 : Resource :=
  mkResource ("/lights", "00:21:2e:00:00:00:00:01-01")%string
    [ mkResourceItem RAttrUniqueId (Some 5) 0 "00:21:2e:00:00:00:00:01-01";
      mkResourceItem RAttrManufacturerName (Some 5) 10 "Acme";
      mkResourceItem RAttrModelId (Some 5) 10 "X";
      mkResourceItem (ROther "state/on") None 10 EmptyString ]
    [] None.

(** The DDF has read parameters with a read function for state/on and the
    model id, read parameters without one for the manufacturer name, and
    none for the unique id. *)
Definition sample_ddf (i : ResourceItem) : QVariant :=
  match ri_suffix i with
  | RAttrUniqueId => VNull
  | RAttrManufacturerName => VMap [("fn", "custom")%string]
  | _ => VMap [("fn", "zcl")%string]
  end.

Definition sample_env_with (t : Z) (read : DA_ReadResult) : Env :=
  mkEnv t 1000
        (fun key => if key =? key_s1 then Some 1
                    else if key =? key_coordinator then Some 2
                    else if key =? key_other_coordinator then Some 3
                    else None)
        (fun p => if p =? 2 then node_coordinator
                  else if p =? 3 then node_other_coordinator
                  else node_s1)
        (fun prefix uniqueId =>
           if String.eqb prefix "/lights" then Some light_s1 else None)
        (fun _ i => sample_ddf i)
        (fun _ => mkZDP_Result true 1 1)
        (fun _ => mkZDP_Result true 2 2)
        (fun _ _ => mkZDP_Result true 3 3)
        (fun _ _ _ => mkReadResult true 41 4)
        (fun _ _ => read)
        (fun _ _ => true).

(** The APS controller takes the reads, and one minute later; and a
    controller that refuses them. *)
Definition sample_env : Env := sample_env_with 100000 (mkReadResult true 42 5).
Definition sample_env_later : Env := sample_env_with 160000 (mkReadResult true 42 5).
Definition sample_env_refusing : Env := sample_env_with 100000 (mkReadResult false 0 0).

Definition sample_event (what : What) (num : Z) (key : DeviceKey) : Event :=
  mkEvent (Some RDevices) what EmptyString num key.

Definition input_s1 (what : What) (num : Z) : Env * Input :=
  (sample_env, In_handleEvent (sample_event what num key_s1) StateLevel0).

Definition device_or_blank (r : res Device) : Device :=
  match r with Ok d => d | Crash _ => Device_blank 0 false end.

Definition run_sample (xs : list (Env * Input)) (d : Device) : Device :=
  device_or_blank (run sample_read_function xs d).

(** The devices of the scenarios when constructed. *)
Definition dev_s1_new : Device :=
  Eval vm_compute in device_or_blank (Device_new sample_env key_s1 true).
Definition dev_coordinator_new : Device :=
  Eval vm_compute in device_or_blank (Device_new sample_env key_coordinator true).
Definition dev_other_coordinator_new : Device :=
  Eval vm_compute in device_or_blank (Device_new sample_env key_other_coordinator true).
Definition dev_green_power_new : Device :=
  Eval vm_compute in device_or_blank (Device_new sample_env key_green_power true).

(** Scenario S1 up to the basic cluster state having found both names. *)
Definition inputs_to_description : list (Env * Input) :=
  [ (sample_env, In_addSubDevice light_s1);
    (sample_env, In_setItems (mkDeviceItems true false 0 0 None None));
    input_s1 REventPoll 0;
    input_s1 REventStateEnter 0;    (* NodeDescriptor *)
    input_s1 REventStateEnter 0;    (* ActiveEndpoints *)
    input_s1 REventStateEnter 0;    (* SimpleDescriptor *)
    input_s1 REventStateEnter 0 ].  (* BasicCluster *)

Definition dev_description : Device :=
  Eval vm_compute in run_sample inputs_to_description dev_s1_new.

(** The DDF matched: Idle is installed, its StateEnter is still queued. *)
Definition inputs_to_idle : list (Env * Input) :=
  [ input_s1 REventStateEnter 0;    (* GetDeviceDescription *)
    input_s1 REventDDFInitResponse 1 ].

Definition dev_idle_pending : Device :=
  Eval vm_compute in run_sample inputs_to_idle dev_description.

(** Idle has entered and got a Poll: the binding table is being verified and
    three items are queued for polling. *)
Definition inputs_to_polling : list (Env * Input) :=
  [ input_s1 REventStateEnter 0; input_s1 REventPoll 0 ].

Definition dev_polling : Device :=
  Eval vm_compute in run_sample inputs_to_polling dev_idle_pending.

(** PollNext has dropped the manufacturer name and sent the read of the
    model id; the binding table has been verified. *)
Definition inputs_to_busy : list (Env * Input) :=
  [ input_s1 REventStateEnter 2;
    (sample_env, In_timerEvent StateLevel2);
    input_s1 REventBindingTick 0 ].

Definition dev_busy : Device :=
  Eval vm_compute in run_sample inputs_to_busy dev_polling.

Definition dev_confirmed : Device :=
  Eval vm_compute in
    device_or_blank (invoke sample_read_function call_depth H_PollBusy
                            (sample_event REventApsConfirm (42 * 256) key_s1)
                            sample_env dev_busy).

Definition dev_after_discard : Device :=
  Eval vm_compute in
    device_or_blank (invoke sample_read_function call_depth H_PollNext
                            (sample_event REventStateEnter 2 key_s1)
                            sample_env dev_polling).

(** The item PollNext finds last in the queue of [dev_polling], and the items
    in front of it. *)
Definition item_manufacturer : PollItem :=
  PollItem_new (r_ref light_s1) RAttrManufacturerName (VMap [("fn", "custom")%string]).

Definition items_in_front : list PollItem :=
  Eval vm_compute in removelast (pollItems dev_polling).

(** A BindingTable event one minute after the binding table was verified. *)
Definition dev_reverify : Device :=
  Eval vm_compute in
    device_or_blank (invoke sample_read_function call_depth H_Binding
                            (sample_event REventBindingTable ZdpSuccess key_s1)
                            sample_env_later dev_busy).

(** A coordinator whose key does not have the prefix 0x00212E: it gets
    StateEnter, then Awake, and enters the NodeDescriptor state. *)
Definition inputs_other_coordinator : list (Env * Input) :=
  [ (sample_env, In_handleEvent (sample_event REventStateEnter 0 key_other_coordinator)
                                StateLevel0);
    (sample_env, In_handleEvent (sample_event REventAwake 0 key_other_coordinator)
                                StateLevel0);
    (sample_env, In_handleEvent (sample_event REventStateEnter 0 key_other_coordinator)
                                StateLevel0) ].

Definition dev_other_coordinator_asked : Device :=
  Eval vm_compute in run_sample inputs_other_coordinator dev_other_coordinator_new.

(** Scenario S4: a single item in the queue and a controller that refuses
    every read. *)
Definition dev_single_item : Device :=
  Eval vm_compute in
    set_pollItems [PollItem_new (r_ref light_s1) RAttrModelId
                                (VMap [("fn", "zcl")%string])] dev_polling.

Definition inputs_three_attempts : list (Env * Input) :=
  [ (sample_env_refusing,
     In_handleEvent (sample_event REventStateEnter 2 key_s1) StateLevel0);
    (sample_env_refusing, In_timerEvent StateLevel2);
    (sample_env_refusing, In_timerEvent StateLevel2) ].

(** Scenario S5: the read of the next item is sent, PollBusy enters and its
    timer expires. *)
Definition inputs_read_times_out : list (Env * Input) :=
  [ input_s1 REventStateEnter 2;     (* PollNext sends the read of state/on *)
    input_s1 REventStateEnter 2;     (* PollBusy arms the timer *)
    (sample_env, In_timerEvent StateLevel2) ].

(** ** Vocabulary of the further properties *)

(** An item is due for polling: never set, or last set at least its refresh
    interval ago. *)
Definition item_stale (env : Env) (i : ResourceItem) : bool :=
  match ri_lastSet i with
  | Some t => negb (currentDateTime env - t <? ri_refreshInterval i)
  | None => true
  end.

(** Read parameters that are neither null nor an empty map. *)
Definition has_read_parameters (p : QVariant) : bool :=
  negb (QVariant_isNull p) &&
  match QVariant_toMap p with [] => false | _ :: _ => true end.

(** The simple descriptor of an endpoint is known and has a device id. *)
Definition endpoint_verified (n : Node) (ep : Z) : bool :=
  match copySimpleDescriptor n ep with
  | Some sd => negb (sd_deviceId sd =? 0xffff)
  | None => false
  end.

(** The keys of the devices of a container, in order. *)
Definition keys_of (devices : DeviceContainer) : list DeviceKey :=
  map deviceKey devices.

(** [safe Q r]: the call returned and [Q] holds, or it dereferenced a null
    item of a sub-device; it did not call a null handler, dereference a null
    node, take the last item of an empty queue, or nest calls deeper than the
    embedding unfolds. *)
Definition safe (Q : Device -> Prop) (r : res Device) : Prop :=
  match r with
  | Ok d' => Q d'
  | Crash NullItem => True
  | Crash _ => False
  end.

(** [safe_entry Q r]: as [safe], for [Device::handleEvent]: a StateEnter or
    StateLeave event may name a level outside of the handler array or a level
    whose slot is empty. *)
Definition safe_entry (Q : Device -> Prop) (r : res Device) : Prop :=
  match r with
  | Ok d' => Q d'
  | Crash NullItem | Crash NullHandler | Crash LevelOutOfRange => True
  | Crash _ => False
  end.

(** The event is delivered at level 0 to an installed handler and is Awake:
    [Device::handleEvent] restarts the awake timer. *)
Definition restarts_awake (event : Event) (level : DEV_StateLevel) (d : Device) : bool :=
  negb (is_what event REventStateEnter || is_what event REventStateLeave) &&
  is_what event REventAwake && DEV_StateLevel_eqb level StateLevel0 &&
  match slot (state d) level with Some _ => true | None => false end.

(** The part of the device no input but [Device::addSubDevice] changes. *)
Definition same_identity (d d' : Device) : Prop :=
  deviceKey d' = deviceKey d /\ managed d' = managed d /\
  subDevices_ids d' = subDevices_ids d.

(** Outside of Init and Dead the device has its node. *)
Definition node_ok (d : Device) : Prop :=
  match at0 (state d) with
  | Some H_Init | Some H_Dead | None => True
  | Some _ => node d <> None
  end.

(** No timer is armed for the binding sub state machine, and the timer of the
    poll sub state machine only in PollNext and PollBusy. *)
Definition timers_ok (d : Device) : Prop :=
  at1 (timer d) = None /\
  (at2 (timer d) <> None ->
   at2 (state d) = Some H_PollNext \/ at2 (state d) = Some H_PollBusy).

Definition Inv2 (F : QVariant -> option ReadFunction) (d : Device) : Prop :=
  Inv_rev F d /\ node_ok d /\ timers_ok d.

(** What no handler changes. *)
Definition kept (d d' : Device) : Prop :=
  deviceKey d' = deviceKey d /\ managed d' = managed d /\
  subDevices_ids d' = subDevices_ids d /\ awake d' = awake d.

(** A step of a sub state machine or of Idle sends no ZDP request; a step of
    another top level state sends at most one, and only to a device that is
    reachable. *)
Definition zdp_quiet (d d' : Device) : Prop :=
  zdp_requests d' = zdp_requests d.

Definition zdp_polite (env : Env) (d d' : Device) : Prop :=
  zdp_requests d' = zdp_requests d \/
  (Device_reachable env d = true /\
   exists req, zdp_requests d' = (zdp_requests d ++ [req])%list).

(** The states that verify what is known of the node and of the basic
    cluster. *)
Definition is_verification_state (h : Handler) : bool :=
  match h with
  | H_NodeDescriptor | H_ActiveEndpoints | H_SimpleDescriptor | H_BasicCluster => true
  | _ => false
  end.

(** The event brings what the verification state waits for. *)
Definition answers (h : Handler) (event : Event) : bool :=
  match h with
  | H_NodeDescriptor => is_what event REventNodeDescriptor
  | H_ActiveEndpoints => is_what event REventActiveEndpoints
  | H_SimpleDescriptor => is_what event REventSimpleDescriptor
  | H_BasicCluster =>
    is_what event RAttrManufacturerName || is_what event RAttrModelId
  | _ => false
  end.

(** The APS request id the verification state waits the confirm of. *)
Definition pending_request (h : Handler) (d : Device) : Z :=
  match h with
  | H_BasicCluster => apsReqId (readResult d)
  | _ => zdp_apsReqId (zdpResult d)
  end.

(** The event confirms the pending request with a status other than
    success. *)
Definition confirm_failed (h : Handler) (d : Device) (event : Event) : bool :=
  is_what event REventApsConfirm &&
  (pending_request h d =? EventApsConfirmId event) &&
  negb (EventApsConfirmStatus event =? ApsSuccessStatus).

(** [emit q->eventNotify(Event(prefix, what, num, key))]. *)
Definition notified (what : What) (num : Z) (d : Device) : Effect :=
  EventNotify (mkEvent (Some RDevices) what EmptyString num (deviceKey d)).

(** What a ZDP verification state looks for on the node, the state that
    follows it, and the request it sends with its result. *)
Definition zdp_verified (h : Handler) (n : Node) : bool :=
  match h with
  | H_NodeDescriptor => match nodeDescriptor n with Some _ => true | None => false end
  | H_ActiveEndpoints => match endpoints n with [] => false | _ :: _ => true end
  | H_SimpleDescriptor => needFetchEp n =? 0x00
  | _ => false
  end.

Definition zdp_next (h : Handler) : Handler :=
  match h with
  | H_NodeDescriptor => H_ActiveEndpoints
  | H_ActiveEndpoints => H_SimpleDescriptor
  | _ => H_BasicCluster
  end.

Definition zdp_request (h : Handler) (env : Env) (d : Device) (n : Node)
    : Effect * ZDP_Result :=
  let nwk := attrNwkAddress (items d) in
  match h with
  | H_NodeDescriptor => (ZdpNodeDescriptorReq nwk, ZDP_NodeDescriptorReq env nwk)
  | H_ActiveEndpoints => (ZdpActiveEndpointsReq nwk, ZDP_ActiveEndpointsReq env nwk)
  | _ => (ZdpSimpleDescriptorReq nwk (needFetchEp n),
          ZDP_SimpleDescriptorReq env nwk (needFetchEp n))
  end.

(** The same event delivered [times] times to the handler [h]. *)
Fixpoint deliver (F : QVariant -> option ReadFunction) (h : Handler) (event : Event)
    (env : Env) (times : nat) (d : Device) : res Device :=
  match times with
  | O => Ok d
  | S k =>
    match invoke F call_depth h event env d with
    | Ok d' => deliver F h event env k d'
    | Crash u => Crash u
    end
  end.

Definition is_zdp_state (h : Handler) : bool :=
  match h with
  | H_NodeDescriptor | H_ActiveEndpoints | H_SimpleDescriptor => true
  | _ => false
  end.

(** The event makes the Binding handler start a verification of the binding
    table: Poll or Awake when one is due, and every BindingTable event. *)
Definition starts_verification (env : Env) (d : Device) (event : Event) : bool :=
  if is_what event REventPoll || is_what event REventAwake
  then binding_due env d
  else is_what event REventBindingTable.

(** The device of scenario S1 on its way through the verification states:
    in NodeDescriptor and in BasicCluster, the StateEnter still queued. *)
Definition inputs_to_node_descriptor : list (Env * Input) :=
  [ (sample_env, In_addSubDevice light_s1);
    (sample_env, In_setItems (mkDeviceItems true false 0 0 None None));
    input_s1 REventPoll 0 ].

Definition dev_node_descriptor : Device :=
  Eval vm_compute in run_sample inputs_to_node_descriptor dev_s1_new.

Definition inputs_to_basic_cluster : list (Env * Input) :=
  [ input_s1 REventStateEnter 0;    (* NodeDescriptor *)
    input_s1 REventStateEnter 0;    (* ActiveEndpoints *)
    input_s1 REventStateEnter 0 ].  (* SimpleDescriptor *)

Definition dev_basic_cluster : Device :=
  Eval vm_compute in run_sample inputs_to_basic_cluster dev_node_descriptor.

(** Idle has entered: Binding and PollIdle are installed. *)
Definition dev_poll_idle : Device :=
  Eval vm_compute in run_sample [input_s1 REventStateEnter 0] dev_idle_pending.

(** PollNext with nothing left in the queue. *)
Definition dev_queue_empty : Device :=
  Eval vm_compute in set_pollItems [] dev_polling.

(** The device of scenario S1 after an Awake event while it is busy. *)
Definition dev_awake : Device :=
  Eval vm_compute in run_sample [input_s1 REventAwake 0] dev_busy.

(** Five seconds after [sample_env]. *)
Definition sample_env_soon : Env := sample_env_with 105000 (mkReadResult true 42 5).

(** The coordinator with the other vendor prefix, awake and in
    NodeDescriptor, the StateEnter still queued. *)
Definition inputs_other_coordinator_awake : list (Env * Input) :=
  [ (sample_env, In_handleEvent (sample_event REventStateEnter 0 key_other_coordinator)
                                StateLevel0);
    (sample_env, In_handleEvent (sample_event REventAwake 0 key_other_coordinator)
                                StateLevel0) ].

Definition dev_other_coordinator_awake : Device :=
  Eval vm_compute in run_sample inputs_other_coordinator_awake dev_other_coordinator_new.

Definition input_other_coordinator_enter : Input :=
  In_handleEvent (sample_event REventStateEnter 0 key_other_coordinator) StateLevel0.

(** Scenario S3: the coordinator is Dead, and gets an Awake event. *)
Definition inputs_coordinator_dead : list (Env * Input) :=
  [ (sample_env, In_handleEvent (sample_event REventStateEnter 0 key_coordinator)
                                StateLevel0) ].

Definition dev_coordinator_dead : Device :=
  Eval vm_compute in run_sample inputs_coordinator_dead dev_coordinator_new.

Definition inputs_dead_awake : list (Env * Input) :=
  [ (sample_env, In_handleEvent (sample_event REventAwake 0 key_coordinator)
                                StateLevel0);
    (sample_env, In_timerEvent StateLevel0) ].

Definition dev_dead_awake : Device :=
  Eval vm_compute in run_sample inputs_dead_awake dev_coordinator_dead.

(** A world in which the node of scenario S1 has two bindings. *)
Definition node_bound : Node :=
  mkNode 0x1234 key_s1 (Some (mkNodeDescriptor true)) [0x01]
         [mkSimpleDescriptor 0x01 0x0101 [0x0000]]
         [mkBinding key_s1 0x0006 3 0; mkBinding key_s1 0x0008 3 0].

Definition sample_env_bound : Env :=
  mkEnv (now sample_env) (currentDateTime sample_env) (DEV_GetCoreNode sample_env)
        (fun _ => node_bound)
        (DEV_GetResource sample_env) (DDF_GetItem sample_env)
        (ZDP_NodeDescriptorReq sample_env) (ZDP_ActiveEndpointsReq sample_env)
        (ZDP_SimpleDescriptorReq sample_env) (ZCL_ReadAttributes sample_env)
        (callReadFunction sample_env) (ResourceItem_setValue sample_env).

(** A registry with two devices. *)
Definition devices_sample : DeviceContainer := [dev_s1_new; dev_coordinator_new].

Definition uniqueid_s1 : ResourceItem :=
  mkResourceItem RAttrUniqueId (Some 5) 0 "00:21:2e:00:00:00:00:01-01".

(** The binding table of two entries has been verified: bindingIter is 2. *)
Definition dev_bound_verified : Device :=
  Eval vm_compute in
    device_or_blank (deliver sample_read_function H_BindingTableVerify
                             (sample_event REventBindingTick 0 key_s1)
                             sample_env_bound 3 dev_polling).

(** A DDFReload event that names the lights, with an id no light has. *)
Definition event_lights_reload : Event :=
  mkEvent (Some "/lights"%string) REventDDFReload EmptyString 0 key_s1.

(** ** Properties *)

Section Properties.

Variable DA_GetReadFunction : QVariant -> option ReadFunction.

Lemma What_eqb_refl w : What_eqb w w = true.
Proof. destruct w; simpl; auto using String.eqb_refl. Qed.

Lemma Handler_eqb_eq a b : Handler_eqb a b = true <-> a = b.
Proof. split; [destruct a, b; simpl; congruence | intros ->; destruct b; reflexivity]. Qed.

Lemma slot_eqb_eq a b : slot_eqb a b = true <-> a = b.
Proof.
  destruct a as [x|], b as [y|]; simpl; try (split; congruence).
  rewrite Handler_eqb_eq. split; congruence.
Qed.

Lemma slot_eqb_refl a : slot_eqb a a = true.
Proof. now apply slot_eqb_eq. Qed.

(** C8. [setState(h, level)] when the handler installed at [level] already
    is [h] is a no-op: the device, its timers and the trace of emitted events
    included, is unchanged, whatever the handlers would do when called. *)
Theorem setState_same_handler_noop :
  forall (call : Handler -> Event -> Cmd) (h : option Handler)
         (level : DEV_StateLevel) (env : Env) (d : Device),
    slot (state d) level = h ->
    setState call h level env d = Ok d.
Proof.
  intros call h level env d Hcur.
  unfold setState, rd. rewrite Hcur, slot_eqb_refl. reflexivity.
Qed.

Lemma lastAwakeMs_recent env d :
  (Device_lastAwakeMs env d <? MinMacPollRxOn) = true <->
  exists t, awake d = Some t /\ now env - t < MinMacPollRxOn.
Proof.
  unfold Device_lastAwakeMs. destruct (awake d) as [t|].
  - rewrite Z.ltb_lt. split; [eauto | intros (t' & [= <-] & Hlt); exact Hlt].
  - split; [discriminate | intros (t' & Hn & _); discriminate Hn].
Qed.

Lemma rx_on_when_idle_true env d :
  rx_on_when_idle env d = true <->
  exists p nd, node d = Some p /\ nodeDescriptor (node_at env p) = Some nd /\
               receiverOnWhenIdle nd = true.
Proof.
  unfold rx_on_when_idle, deref_node. destruct (node d) as [p|].
  - destruct (nodeDescriptor (node_at env p)) as [nd|] eqn:Hnd.
    + split; [eauto | intros (p' & nd' & [= <-] & Hnd' & Hrx); congruence].
    + split; [discriminate | intros (p' & nd' & [= <-] & Hnd' & _); congruence].
  - split; [discriminate | intros (p' & nd' & Hn & _); discriminate Hn].
Qed.

(** C3. [reachable()] is true exactly when the last Awake is less than
    [MinMacPollRxOn] ms ago, or the node has a node descriptor with
    receiverOnWhenIdle and the Reachable item is true, or the Sleeper item is
    false and the Reachable item is true.  A device that never was awake has
    no valid [awake] timer, so the first alternative fails for it. *)
Theorem reachable_iff :
  forall (env : Env) (d : Device),
    Device_reachable env d = true <->
    ((exists t, awake d = Some t /\ now env - t < MinMacPollRxOn)
     \/ (exists p nd, node d = Some p /\
                      nodeDescriptor (node_at env p) = Some nd /\
                      receiverOnWhenIdle nd = true /\
                      stateReachable (items d) = true)
     \/ (attrSleeper (items d) = false /\ stateReachable (items d) = true)).
Proof.
  intros env d.
  assert (Hrx : (exists p nd, node d = Some p /\
                   nodeDescriptor (node_at env p) = Some nd /\
                   receiverOnWhenIdle nd = true /\
                   stateReachable (items d) = true) <->
                rx_on_when_idle env d = true /\ stateReachable (items d) = true).
  { rewrite rx_on_when_idle_true. split.
    - intros (p & nd & H1 & H2 & H3 & H4). split; [exists p, nd|]; auto.
    - intros [(p & nd & H1 & H2 & H3) H4]. exists p, nd; auto. }
  rewrite Hrx, <- lastAwakeMs_recent.
  unfold Device_reachable. fold (rx_on_when_idle env d).
  destruct (Device_lastAwakeMs env d <? MinMacPollRxOn),
    (rx_on_when_idle env d), (attrSleeper (items d)),
    (stateReachable (items d)); simpl; intuition congruence.
Qed.

(** C10. [DEV_RemoveDevice] returns false for every container and key, also
    when a device with the key was found and erased. *)
Theorem DEV_RemoveDevice_returns_false :
  forall (devices : DeviceContainer) (key : DeviceKey),
    snd (DEV_RemoveDevice devices key) = false /\
    List.length (fst (DEV_RemoveDevice devices key)) =
    (if existsb (fun device => deviceKey device =? key) devices
     then pred (List.length devices) else List.length devices).
Proof.
  intros devices key. split; [reflexivity|]. unfold DEV_RemoveDevice. simpl.
  induction devices as [|device rest IH]; simpl; [reflexivity|].
  destruct (deviceKey device =? key) eqn:Hk; simpl; [reflexivity|].
  destruct (find _ rest) eqn:Hf, (existsb _ rest) eqn:He; simpl in *.
  - rewrite IH. destruct rest; [discriminate | reflexivity].
  - apply find_some in Hf. destruct Hf as [Hin Hkey].
    assert (existsb (fun device0 => deviceKey device0 =? key) rest = true)
      by (apply existsb_exists; eauto). congruence.
  - apply existsb_exists in He. destruct He as (x & Hin & Hx).
    eapply find_none in Hf; eauto. simpl in Hf. congruence.
  - reflexivity.
Qed.

Ltac has_match x :=
  match x with context [match _ with _ => _ end] => idtac end.

(** Case analysis on an innermost scrutinee the goal is stuck on. *)
Ltac break_goal :=
  match goal with
  | |- context [match ?x with _ => _ end] =>
    tryif has_match x then fail
    else first [is_var x; destruct x | destruct x eqn:?]
  end.

Ltac run_cmd :=
  unfold DA_ReadResult_default, ZDP_Result_default;
  cbn -[Z.mul Z.gtb Z.geb Z.ltb Z.eqb Z.sub Z.add Z.land Z.shiftr size_t_incr
        rev app Device_reachable Device_subDevices DEV_GetPollItems
        DEV_CheckItemChanges EventApsConfirmId EventApsConfirmStatus].

Ltac crunch := repeat (run_cmd; try break_goal).

Ltac destruct_device d :=
  let st := fresh "st" in
  destruct d as [? ? ? st ? ? ? ? ? ? ? ? ?];
  destruct st as [? ? ?]; simpl in *.

(** C9. In the GetDeviceDescription state a DDFInitResponse with
    [num == 1] makes Idle the top level state, a DDFInitResponse with any
    other number makes it Dead, and every other event leaves the top level
    state as it is. *)
Theorem GetDeviceDescription_transitions :
  forall (env : Env) (d : Device) (event : Event),
    slot (state d) StateLevel0 = Some H_GetDeviceDescription ->
    exists d',
      invoke DA_GetReadFunction call_depth H_GetDeviceDescription event env d = Ok d' /\
      slot (state d') StateLevel0 =
      Some (if is_what event REventDDFInitResponse
            then if ev_num event =? 1 then H_Idle else H_Dead
            else H_GetDeviceDescription).
Proof.
  intros env d [res what id num key] Hst.
  destruct_device d. subst.
  unfold is_what; destruct what; crunch; eauto.
Qed.

(** C4, as the code has it.  The Binding handler on Poll or Awake moves to
    BindingTableVerify exactly when the binding table was never verified or
    the last verification is more than 5 minutes ago; on a BindingTable event
    it records whether Mgmt_Bind is supported (for the status ZdpSuccess or
    ZdpNotSupported) and always moves to BindingTableVerify; any other event
    changes nothing.  Whenever it moves to BindingTableVerify it resets
    bindingIter to 0 and queues, behind the StateEnter of the new state, a
    BindingTick event; otherwise bindingIter stays and nothing is queued.
    The time of the last verification is never touched. *)
Theorem BindingHandler_transitions :
  forall (env : Env) (d : Device) (event : Event),
    slot (state d) STATE_LEVEL_BINDING = Some H_Binding ->
    exists d',
      invoke DA_GetReadFunction call_depth H_Binding event env d = Ok d' /\
      slot (state d') STATE_LEVEL_BINDING =
      Some (if is_what event REventPoll || is_what event REventAwake
            then if binding_due env d then H_BindingTableVerify else H_Binding
            else if is_what event REventBindingTable then H_BindingTableVerify
                 else H_Binding) /\
      mgmtBindSupported (binding d') =
      (if is_what event REventBindingTable
       then if ev_num event =? ZdpSuccess then true
            else if ev_num event =? ZdpNotSupported then false
                 else mgmtBindSupported (binding d)
       else mgmtBindSupported (binding d)) /\
      (is_what event REventPoll || is_what event REventAwake ||
       is_what event REventBindingTable = false -> d' = d) /\
      bindingIter (binding d') =
      (if starts_verification env d event then 0 else bindingIter (binding d)) /\
      bindingVerify (binding d') = bindingVerify (binding d) /\
      trace d' =
      (trace d ++
       (if starts_verification env d event
        then [notified REventStateEnter 1 d; notified REventBindingTick 0 d]
        else []))%list.
Proof.
  intros env d [res what id num key] Hst.
  destruct_device d. subst.
  unfold starts_verification, notified, is_what, binding_due; destruct what; crunch;
    (eexists; split; [reflexivity|]; cbn -[Z.mul];
     rewrite ?app_nil_r, <- ?app_assoc; repeat split; intros; congruence).
Qed.

(** C6, as the code has it.  For a device in Init without a backing node
    whose key has its upper 32 bits zero, Poll, Awake, a change of Reachable,
    LastUpdated and StateTimeout make Dead the top level state; StateEnter
    leaves the device in Init. *)
Theorem Init_green_power_dead :
  forall (env : Env) (d : Device) (event : Event),
    slot (state d) StateLevel0 = Some H_Init ->
    node d = None ->
    DEV_GetCoreNode env (deviceKey d) = None ->
    Z.land (deviceKey d) 0xffffffff00000000 = 0 ->
    ev_deviceKey event = deviceKey d ->
    exists d',
      invoke DA_GetReadFunction call_depth H_Init event env d = Ok d' /\
      (init_progress_event event = true ->
       slot (state d') StateLevel0 = Some H_Dead) /\
      (is_what event REventStateEnter = true ->
       slot (state d') StateLevel0 = Some H_Init).
Proof.
  intros env d [res what id num key] Hst Hnode Hcore Hzgp Hkey.
  destruct_device d. subst.
  assert (Hmask : (Z.land deviceKey0 0x00212E0000000000 =? 0x00212E0000000000) = false).
  { apply Z.eqb_neq. intros Heq.
    assert (Hbit : Z.testbit (Z.land deviceKey0 0x00212E0000000000) 41 = true)
      by (rewrite Heq; reflexivity).
    rewrite Z.land_spec in Hbit. apply andb_prop in Hbit. destruct Hbit as [Hb _].
    assert (Hz : Z.testbit (Z.land deviceKey0 0xffffffff00000000) 41 = false)
      by (rewrite Hzgp; apply Z.testbit_0_l).
    rewrite Z.land_spec, Hb in Hz. discriminate Hz. }
  unfold init_progress_event, is_what; destruct what; cbn -[Z.land];
    rewrite ?Hmask, ?Hcore; cbn -[Z.land]; rewrite ?Hcore, ?Hzgp; cbn;
    eexists; (split; [reflexivity|]); split; intros; try discriminate; reflexivity.
Qed.

(** *** The invariant of the slots and of the poll queue *)

Lemma post_seq Q (a b : Cmd) env d :
  post (fun dm => post Q (b env dm)) (a env d) -> post Q (seq a b env d).
Proof. simpl. destruct (a env d) as [dm|[]]; simpl; auto. Qed.

Lemma post_ok Q (r : res Device) d' : post Q r -> r = Ok d' -> Q d'.
Proof. intros H ->. exact H. Qed.

Lemma post_weaken (P Q : Device -> Prop) (r : res Device) :
  (forall d', P d' -> Q d') -> post P r -> post Q r.
Proof. destruct r as [d'|[]]; simpl; auto. Qed.

Lemma size_t_incr_small x : 0 <= x < MaxPollItemRetries -> size_t_incr x = x + 1.
Proof. unfold size_t_incr, MaxPollItemRetries. intros H. apply Z.mod_small. lia. Qed.

Lemma item_ok_retry p :
  item_ok DA_GetReadFunction p ->
  DA_GetReadFunction (readParameters p) <> None ->
  (size_t_incr (retry p) >=? MaxPollItemRetries) = false ->
  item_ok DA_GetReadFunction (set_retry (size_t_incr (retry p)) p).
Proof.
  intros [Hr Hf] Hfn Hlt. rewrite (size_t_incr_small _ Hr) in *.
  unfold item_ok, MaxPollItemRetries in *. simpl.
  rewrite Z.geb_leb in Hlt. apply Z.leb_gt in Hlt. split; [lia | intros; contradiction].
Qed.

Lemma Inv_rev_iff d : Inv DA_GetReadFunction d <-> Inv_rev DA_GetReadFunction d.
Proof.
  unfold Inv, Inv_rev, busy_ok. simpl.
  split; intros (Hs & Hq & Hb); (split; [exact Hs|]); split.
  - apply Forall_rev, Hq.
  - intros Hst. destruct (Hb Hst) as (front & p & -> & Hp).
    rewrite rev_unit. exact Hp.
  - rewrite <- (rev_involutive (pollItems d)). apply Forall_rev, Hq.
  - intros Hst. specialize (Hb Hst).
    destruct (rev (pollItems d)) as [|p front] eqn:Hr; [contradiction|].
    exists (rev front), p. split; [|exact Hb].
    rewrite <- (rev_involutive (pollItems d)), Hr. reflexivity.
Qed.

Lemma slots_ok_level1 s h :
  slots_ok s = true -> at1 s = Some h ->
  at0 s = Some H_Idle /\ (h = H_Binding \/ h = H_BindingTableVerify) /\
  (at2 s = None \/ at2 s = Some H_PollIdle \/ at2 s = Some H_PollNext \/
   at2 s = Some H_PollBusy).
Proof.
  destruct s as [[h0|] s1 [h2|]]; simpl; intros Hs ->; try discriminate Hs;
    destruct h0; try discriminate Hs; destruct h; try discriminate Hs;
    try (destruct h2; try discriminate Hs); auto 10.
Qed.

Lemma slots_ok_level2 s h :
  slots_ok s = true -> at2 s = Some h ->
  at0 s = Some H_Idle /\ (h = H_PollIdle \/ h = H_PollNext \/ h = H_PollBusy) /\
  (at1 s = None \/ at1 s = Some H_Binding \/ at1 s = Some H_BindingTableVerify).
Proof.
  destruct s as [[h0|] [h1|] s2]; simpl; intros Hs ->; try discriminate Hs;
    destruct h0; try discriminate Hs; destruct h; try discriminate Hs;
    try (destruct h1; try discriminate Hs); auto 10.
Qed.

Lemma no_fn_no_cap p :
  item_ok DA_GetReadFunction p ->
  DA_GetReadFunction (readParameters p) = None ->
  (size_t_incr (retry p) >=? MaxPollItemRetries) = true -> False.
Proof.
  intros [Hr Hf] Hnone Hcap. rewrite (size_t_incr_small _ Hr), (Hf Hnone) in Hcap.
  discriminate Hcap.
Qed.

Lemma GetPollItems_ok env d :
  Forall (item_ok DA_GetReadFunction) (DEV_GetPollItems env d).
Proof.
  unfold DEV_GetPollItems. apply Forall_rev, Forall_flat_map, Forall_forall.
  intros r _. apply Forall_flat_map, Forall_forall. intros i _.
  destruct (match ri_lastSet i with Some t => _ | None => false end);
    [constructor|].
  destruct (QVariant_isNull _); [constructor|].
  destruct (QVariant_toMap _); constructor; [|constructor].
  unfold item_ok, MaxPollItemRetries. simpl. split; [lia | reflexivity].
Qed.

Ltac rev_queue q r :=
  rewrite <- (rev_involutive q) in *; generalize dependent (rev q); intros r; intros;
  rewrite ?rev_involutive in *.

Lemma rev_empty : rev (@nil PollItem) = [].
Proof. reflexivity. Qed.

Ltac norm_queue :=
  run_cmd;
  repeat (progress (rewrite ?rev_unit, ?rev_involutive, ?rev_empty); run_cmd).

Ltac run_queue := norm_queue; repeat (break_goal; norm_queue).

Ltac inv_goal :=
  unfold Inv_rev; cbn -[Z.mul Z.gtb Z.geb Z.ltb Z.eqb Z.sub Z.add size_t_incr rev app
                        DEV_GetPollItems];
  rewrite ?rev_unit, ?rev_involutive, ?rev_empty;
  repeat match goal with
         | H : Forall _ (_ :: _) |- _ => inversion H; clear H; subst
         end.

Ltac solve_inv Hb :=
  inv_goal;
  first
    [ exfalso; eapply no_fn_no_cap; eassumption
    | split; [reflexivity|]; split;
      [ first [ assumption
              | constructor; assumption
              | constructor;
                [ apply item_ok_retry;
                  [assumption | first [apply Hb; reflexivity | congruence] | assumption]
                | assumption ]
              | match goal with
                | H : DEV_GetPollItems _ _ = _ |- _ =>
                  rewrite <- H; apply Forall_rev, GetPollItems_ok
                end
              | constructor ]
      | let Hbusy := fresh "Hbusy" in
        intros Hbusy;
        first [discriminate Hbusy | congruence | apply Hb; reflexivity] ] ].

Lemma leaf2_inv n h event env d :
  Inv_rev DA_GetReadFunction d -> at2 (state d) = Some h ->
  post (Inv_rev DA_GetReadFunction) (invoke DA_GetReadFunction (S (S n)) h event env d).
Proof.
  intros (Hs & Hq & Hb) Hst.
  destruct (slots_ok_level2 _ _ Hs Hst) as (H0 & Hh & H1).
  destruct event as [res what id num key].
  destruct_device d. subst. clear Hs.
  rev_queue pollItems0 r.
  destruct Hh as [-> | [-> | ->]];
    destruct what; unfold is_what;
    destruct H1 as [-> | [-> | ->]];
    run_queue; try exact I; solve_inv Hb.
Qed.

Lemma leaf1_inv n h event env d :
  Inv_rev DA_GetReadFunction d -> at1 (state d) = Some h ->
  post (Inv_rev DA_GetReadFunction) (invoke DA_GetReadFunction (S (S n)) h event env d).
Proof.
  intros (Hs & Hq & Hb) Hst.
  destruct (slots_ok_level1 _ _ Hs Hst) as (H0 & Hh & H2).
  destruct event as [res what id num key].
  destruct_device d. subst. clear Hs.
  rev_queue pollItems0 r.
  destruct Hh as [-> | ->];
    destruct what; unfold is_what;
    destruct H2 as [-> | [-> | [-> | ->]]];
    run_queue; try exact I; solve_inv Hb.
Qed.

Lemma slots_ok_level0 s h :
  slots_ok s = true -> at0 s = Some h -> h <> H_Idle ->
  level0_handler h = true /\ at1 s = None /\ at2 s = None.
Proof.
  destruct s as [[h0|] [h1|] [h2|]]; simpl; intros Hs [= ->] Hne;
    destruct h; try discriminate Hs; try contradiction;
    try (destruct h1; try discriminate Hs);
    try (destruct h2; try discriminate Hs); auto.
Qed.

Lemma level0_inv n h event env d :
  Inv_rev DA_GetReadFunction d -> at0 (state d) = Some h -> h <> H_Idle ->
  post (Inv_rev DA_GetReadFunction) (invoke DA_GetReadFunction (S (S n)) h event env d).
Proof.
  intros (Hs & Hq & Hb) Hst Hne.
  destruct (slots_ok_level0 _ _ Hs Hst Hne) as (Hh & H1 & H2).
  destruct event as [res what id num key].
  destruct_device d. subst. clear Hs.
  rev_queue pollItems0 r.
  destruct h; try discriminate Hh; try contradiction;
    destruct what; unfold is_what;
    run_queue; try exact I; solve_inv Hb.
Qed.

Lemma Inv_rev_frame d d' :
  state d' = state d -> pollItems d' = pollItems d -> Inv_rev DA_GetReadFunction d -> Inv_rev DA_GetReadFunction d'.
Proof. unfold Inv_rev. intros -> ->. auto. Qed.

Lemma check_frame event env d :
  post (fun d' => state d' = state d /\ pollItems d' = pollItems d)
       (DEV_CheckItemChanges event env d).
Proof.
  unfold DEV_CheckItemChanges.
  destruct (is_what event REventAwake || is_what event REventPoll); simpl; auto.
  destruct (DEV_GetSubDevice _ _ _) as [[sub|]|]; simpl; auto.
Qed.

Lemma slots_ok_idle s :
  slots_ok s = true -> at0 s = Some H_Idle ->
  (at1 s = None \/ at1 s = Some H_Binding \/ at1 s = Some H_BindingTableVerify) /\
  (at2 s = None \/ at2 s = Some H_PollIdle \/ at2 s = Some H_PollNext \/
   at2 s = Some H_PollBusy).
Proof.
  destruct s as [s0 [h1|] [h2|]]; simpl; intros Hs ->; simpl in Hs;
    try (destruct h1; try discriminate Hs);
    try (destruct h2; try discriminate Hs); auto 10.
Qed.

(** Leaving Idle for Init clears both sub state machines. *)
Lemma idle_leave_inv n env d :
  Inv_rev DA_GetReadFunction d -> at0 (state d) = Some H_Idle ->
  post (Inv_rev DA_GetReadFunction) (setState (invoke DA_GetReadFunction (S (S n))) (Some H_Init)
                         StateLevel0 env d).
Proof.
  intros (Hs & Hq & Hb) Hst.
  destruct (slots_ok_idle _ Hs Hst) as (H1 & H2).
  destruct_device d. subst. clear Hs.
  rev_queue pollItems0 r.
  destruct H1 as [-> | [-> | ->]]; destruct H2 as [-> | [-> | [-> | ->]]];
    run_queue; try exact I; solve_inv Hb.
Qed.

Lemma forward_inv n event l env d :
  Inv_rev DA_GetReadFunction d ->
  is_what event REventStateEnter || is_what event REventStateLeave = false ->
  l <> StateLevel0 ->
  post (Inv_rev DA_GetReadFunction) (Device_handleEvent (invoke DA_GetReadFunction (S (S n))) event l env d).
Proof.
  intros Hinv Hev Hl. unfold Device_handleEvent. rewrite Hev. unfold rd, seq.
  destruct (slot (state d) l) as [h|] eqn:Hslot; [|exact Hinv].
  destruct l; [contradiction| |];
    simpl DEV_StateLevel_eqb; rewrite andb_false_r; simpl skip;
    [apply leaf1_inv | apply leaf2_inv]; assumption.
Qed.

Lemma Idle_unfold n event :
  is_what event REventStateEnter = false ->
  is_what event REventStateLeave = false ->
  invoke DA_GetReadFunction (S (S (S n))) H_Idle event =
  ((if is_what event REventDDFReload
    then setState (invoke DA_GetReadFunction (S (S n))) (Some H_Init) StateLevel0
    else skip) ;;
   DEV_CheckItemChanges event ;;
   Device_handleEvent (invoke DA_GetReadFunction (S (S n))) event StateLevel1 ;;
   Device_handleEvent (invoke DA_GetReadFunction (S (S n))) event StateLevel2).
Proof.
  intros H1 H2.
  change (invoke DA_GetReadFunction (S (S (S n))) H_Idle event)
    with (DEV_IdleStateHandler (invoke DA_GetReadFunction (S (S n))) event).
  unfold DEV_IdleStateHandler. rewrite H1, H2. reflexivity.
Qed.

Lemma idle_inv n event env d :
  Inv_rev DA_GetReadFunction d -> at0 (state d) = Some H_Idle ->
  post (Inv_rev DA_GetReadFunction) (invoke DA_GetReadFunction (S (S (S n))) H_Idle event env d).
Proof.
  intros Hinv Hst.
  destruct (is_what event REventStateEnter || is_what event REventStateLeave) eqn:Hev.
  - destruct Hinv as (Hs & Hq & Hb).
    destruct (slots_ok_idle _ Hs Hst) as (H1 & H2).
    destruct event as [res what id num key].
    destruct_device d. subst. clear Hs.
    rev_queue pollItems0 r.
    destruct what; try discriminate Hev;
      destruct H1 as [-> | [-> | ->]]; destruct H2 as [-> | [-> | [-> | ->]]];
      run_queue; try exact I; solve_inv Hb.
  - destruct (orb_false_elim _ _ Hev) as [He Hl].
    rewrite (Idle_unfold n event He Hl).
    apply post_seq. apply post_weaken with (P := Inv_rev DA_GetReadFunction).
    + intros d0 H0. apply post_seq.
      eapply post_weaken; [|apply check_frame].
      intros d1 [Hs1 Hp1]. simpl.
      assert (H1 : Inv_rev DA_GetReadFunction d1) by (eapply Inv_rev_frame; eauto).
      apply post_seq. eapply post_weaken; [|apply forward_inv; auto; discriminate].
      intros d2 H2. apply forward_inv; auto; discriminate.
    + destruct (is_what event REventDDFReload); [|exact Hinv].
      apply idle_leave_inv; assumption.
Qed.

Lemma invoke_inv l h event env d :
  Inv_rev DA_GetReadFunction d -> slot (state d) l = Some h ->
  post (Inv_rev DA_GetReadFunction) (invoke DA_GetReadFunction call_depth h event env d).
Proof.
  intros Hinv Hslot. unfold call_depth. destruct l; simpl in Hslot.
  - destruct (Handler_eqb h H_Idle) eqn:Hh.
    + apply Handler_eqb_eq in Hh. subst h. apply idle_inv; assumption.
    + apply level0_inv; [assumption..|].
      intros ->. discriminate Hh.
  - apply leaf1_inv; assumption.
  - apply leaf2_inv; assumption.
Qed.

Lemma handleEvent_inv event level env d :
  Inv_rev DA_GetReadFunction d -> post (Inv_rev DA_GetReadFunction) (handleEvent DA_GetReadFunction event level env d).
Proof.
  intros Hinv. unfold handleEvent, Device_handleEvent.
  destruct (is_what event REventStateEnter || is_what event REventStateLeave).
  - destruct (level_of_num (ev_num event)) as [l|]; [|exact I].
    unfold rd_opt. destruct (slot (state d) l) as [h|] eqn:Hslot; [|exact I].
    eapply invoke_inv; eauto.
  - unfold rd. destruct (slot (state d) level) as [h|] eqn:Hslot; [|exact Hinv].
    apply post_seq.
    destruct (is_what event REventAwake && DEV_StateLevel_eqb level StateLevel0);
      simpl; eapply invoke_inv; eauto.
Qed.

Lemma timerEvent_inv i env d :
  Inv_rev DA_GetReadFunction d -> post (Inv_rev DA_GetReadFunction) (timerEvent DA_GetReadFunction i env d).
Proof.
  intros Hinv. unfold timerEvent, Device_timerEvent, rd.
  destruct (slot (timer d) i); [|exact Hinv].
  apply post_seq. simpl. unfold rd_opt. simpl.
  destruct (slot (state d) i) as [h|] eqn:Hslot; [|exact I].
  unfold rd. eapply invoke_inv with (l := i); eauto.
Qed.

Lemma step_inv x env d :
  Inv_rev DA_GetReadFunction d -> post (Inv_rev DA_GetReadFunction) (step DA_GetReadFunction x env d).
Proof.
  intros Hinv. destruct x as [event level|i|sub|its]; simpl step.
  - apply handleEvent_inv, Hinv.
  - apply timerEvent_inv, Hinv.
  - unfold Device_addSubDevice. destruct (Resource_item sub RAttrUniqueId); [|exact I].
    destruct (existsb _ _); simpl; [exact Hinv|].
    eapply Inv_rev_frame; eauto; reflexivity.
  - simpl. eapply Inv_rev_frame; eauto; reflexivity.
Qed.

(** A call never nests deeper than [call_depth], and a step that returns
    keeps the invariant. *)
Lemma step_Inv x env d :
  Inv DA_GetReadFunction d ->
  post (Inv DA_GetReadFunction) (step DA_GetReadFunction x env d).
Proof.
  intros Hinv. apply Inv_rev_iff in Hinv.
  eapply post_weaken; [|apply step_inv, Hinv].
  intros d'. apply Inv_rev_iff.
Qed.

Lemma Reach_Inv d : Reach DA_GetReadFunction d -> Inv DA_GetReadFunction d.
Proof.
  induction 1 as [env key mgd d Hnew | env x d d' Hreach IH Hstep].
  - unfold Device_new in Hnew. cbn in Hnew. injection Hnew as <-.
    unfold Inv, busy_ok. cbn. split; [reflexivity|]. split; [constructor|].
    discriminate.
  - exact (post_ok _ _ _ (step_Inv x env d IH) Hstep).
Qed.

(** In the states a device can reach no step nests calls deeper than
    [call_depth]. *)
Lemma step_within_call_depth x env d :
  Reach DA_GetReadFunction d ->
  step DA_GetReadFunction x env d <> Crash DepthExceeded.
Proof.
  intros Hreach Hstep. apply Reach_Inv in Hreach.
  pose proof (step_Inv x env d Hreach) as Hpost.
  rewrite Hstep in Hpost. exact Hpost.
Qed.

(** Rewrite with the outcomes of the case analyses made so far. *)
Ltac use_eqns :=
  repeat match goal with
         | H : ?x = _ |- context [?x] => rewrite H
         end.

(** C5. When PollNext processes (on StateEnter or StateTimeout, the device
    being reachable) a queue whose last item has no read function, that item
    is removed, the other items are left as they are, and the poll sub state
    machine stays in PollNext.  This holds in every state a device can reach:
    an item without read function is never retried, so counting the failed
    attempt in the slot of the removed item does not reach the cap. *)
Theorem PollNext_discards_item_without_read_function :
  forall (env : Env) (d : Device) (event : Event) (front : list PollItem) (p : PollItem),
    Reach DA_GetReadFunction d ->
    slot (state d) STATE_LEVEL_POLL = Some H_PollNext ->
    is_what event REventStateEnter || is_what event REventStateTimeout = true ->
    Device_reachable env d = true ->
    pollItems d = (front ++ [p])%list ->
    DA_GetReadFunction (readParameters p) = None ->
    exists d',
      invoke DA_GetReadFunction call_depth H_PollNext event env d = Ok d' /\
      pollItems d' = front /\
      slot (state d') STATE_LEVEL_POLL = Some H_PollNext.
Proof.
  intros env d [res what id num key] front p Hreach Hst Hev Hr Hq Hfn.
  apply Reach_Inv in Hreach. destruct Hreach as (_ & Hitems & _).
  rewrite Hq in Hitems. apply Forall_app in Hitems. destruct Hitems as [_ Hp].
  inversion Hp as [|? ? [Hbound Hzero] _]; subst.
  specialize (Hzero Hfn).
  destruct_device d. subst.
  unfold is_what in Hev; destruct what; try discriminate Hev;
    unfold call_depth, is_what; norm_queue; rewrite Hr; norm_queue;
    rewrite Hfn; norm_queue; rewrite Hzero; norm_queue;
    eexists; (split; [reflexivity|]); split; reflexivity.
Qed.

(** *** What the poll handlers do to the queue *)

Lemma PollNext_outcome n event env d :
  Inv_rev DA_GetReadFunction d -> at2 (state d) = Some H_PollNext ->
  post (fun d' => pollItems d' = PollNext_queue DA_GetReadFunction env event d)
       (invoke DA_GetReadFunction (S (S n)) H_PollNext event env d).
Proof.
  intros (Hs & Hq & Hb) Hst.
  destruct (slots_ok_level2 _ _ Hs Hst) as (H0 & _ & H1).
  destruct event as [res what id num key].
  destruct_device d. subst. clear Hs Hb.
  rev_queue pollItems0 r.
  destruct what; unfold is_what, PollNext_queue, retry_or_drop;
    destruct H1 as [-> | [-> | ->]];
    run_queue; try exact I; unfold is_what; norm_queue; use_eqns;
    rewrite ?rev_unit, ?rev_involutive, ?rev_empty; use_eqns; try reflexivity.
  all: inversion Hq; subst; exfalso; eapply no_fn_no_cap; eassumption.
Qed.

Lemma PollBusy_outcome n event env d :
  Inv_rev DA_GetReadFunction d -> at2 (state d) = Some H_PollBusy ->
  post (fun d' => pollItems d' = PollBusy_queue event d)
       (invoke DA_GetReadFunction (S (S n)) H_PollBusy event env d).
Proof.
  intros (Hs & Hq & Hb) Hst.
  destruct (slots_ok_level2 _ _ Hs Hst) as (H0 & _ & H1).
  destruct event as [res what id num key].
  destruct_device d. subst. clear Hs.
  rev_queue pollItems0 r.
  destruct what; unfold is_what, PollBusy_queue, confirm_for_read, retry_or_drop;
    destruct H1 as [-> | [-> | ->]];
    run_queue; try exact I; unfold is_what; norm_queue; use_eqns;
    rewrite ?rev_unit, ?rev_involutive, ?rev_empty; use_eqns; try reflexivity.
Qed.

Lemma item_le_refl p : item_le p p.
Proof. unfold item_le. repeat split; lia. Qed.

Lemma Forall2_item_le_refl q : Forall2 item_le q q.
Proof. induction q; constructor; auto using item_le_refl. Qed.

Lemma kept_same q : kept_items q q.
Proof. exists q, []. rewrite app_nil_r. auto using Forall2_item_le_refl. Qed.

Lemma kept_clear q : kept_items q [].
Proof. exists [], q. split; [reflexivity | constructor]. Qed.

Lemma kept_pop front p : kept_items (front ++ [p]) front.
Proof. exists front, [p]. auto using Forall2_item_le_refl. Qed.

Lemma kept_retry front p :
  0 <= retry p < MaxPollItemRetries ->
  kept_items (front ++ [p]) (front ++ [set_retry (size_t_incr (retry p)) p]).
Proof.
  intros Hr. exists (front ++ [p])%list, []. rewrite app_nil_r. split; [reflexivity|].
  apply Forall2_app; [apply Forall2_item_le_refl|].
  constructor; [|constructor]. unfold item_le. simpl.
  rewrite (size_t_incr_small _ Hr). repeat split; lia.
Qed.

Lemma rev_cons_eq (q : list PollItem) p front :
  rev q = p :: front -> q = (rev front ++ [p])%list.
Proof. intros H. rewrite <- (rev_involutive q), H. reflexivity. Qed.

Lemma rev_nil_eq (q : list PollItem) : rev q = [] -> q = [].
Proof. intros H. rewrite <- (rev_involutive q), H. reflexivity. Qed.

(** What a failed attempt to read the last item does to the queue. *)
Lemma retry_or_drop_spec env d event h front p :
  item_ok DA_GetReadFunction p ->
  pollItems d = (front ++ [p])%list ->
  kept_items (front ++ [p]) (retry_or_drop front p) /\
  ((List.length (retry_or_drop front p) < List.length (front ++ [p]))%nat ->
   removal_cause DA_GetReadFunction env d event h (retry_or_drop front p)).
Proof.
  intros [Hr _] Hq. unfold retry_or_drop.
  destruct (size_t_incr (retry p) >=? MaxPollItemRetries) eqn:Hcap.
  - split; [apply kept_pop|]. intros _. right. exists front, p.
    split; [exact Hq|]. split; [reflexivity|]. right. right.
    rewrite (size_t_incr_small _ Hr), Z.geb_leb in Hcap. apply Z.leb_le, Hcap.
  - split; [apply kept_retry, Hr|]. rewrite !length_app. simpl. lia.
Qed.

(** C2, as the code has it.  While the poll sub state machine is in PollNext
    or PollBusy, every queued item has [0 <= retry < MaxPollItemRetries] (an
    item whose count reaches the cap is taken off the queue), the items that
    stay keep their place and identity and their count does not decrease, the
    confirm of the read under way with status 0x00 takes the last item off the
    queue, and items are taken off the queue only for one of these reasons:
    the confirm with status 0x00, the count reaching the cap, PollNext finding
    no read function for the item, or PollNext finding the device not
    reachable, which drops the whole queue. *)
Theorem poll_queue_retry_and_removal :
  forall (env : Env) (d : Device) (event : Event) (h : Handler) (d' : Device),
    Reach DA_GetReadFunction d ->
    slot (state d) STATE_LEVEL_POLL = Some h ->
    h = H_PollNext \/ h = H_PollBusy ->
    invoke DA_GetReadFunction call_depth h event env d = Ok d' ->
    Forall (fun p => 0 <= retry p < MaxPollItemRetries) (pollItems d') /\
    kept_items (pollItems d) (pollItems d') /\
    (h = H_PollBusy -> confirm_for_read d event = true ->
     EventApsConfirmStatus event = 0x00 ->
     exists p, pollItems d = (pollItems d' ++ [p])%list) /\
    ((List.length (pollItems d') < List.length (pollItems d))%nat ->
     removal_cause DA_GetReadFunction env d event h (pollItems d')).
Proof.
  intros env d event h d' Hreach Hst Hh Hrun.
  apply Reach_Inv, Inv_rev_iff in Hreach.
  assert (Hinv' : Inv_rev DA_GetReadFunction d')
    by exact (post_ok _ _ _ (leaf2_inv 1 h event env d Hreach Hst) Hrun).
  split.
  { destruct Hinv' as (_ & Hq' & _). apply Forall_rev in Hq'.
    rewrite rev_involutive in Hq'. revert Hq'. apply Forall_impl.
    intros p [Hr _]. exact Hr. }
  destruct Hreach as (Hs & Hq & Hb).
  destruct Hh as [-> | ->].
  - pose proof (post_ok _ _ _ (PollNext_outcome 1 event env d (conj Hs (conj Hq Hb)) Hst) Hrun)
      as Hout.
    rewrite Hout. unfold PollNext_queue. clear Hout Hrun Hinv'.
    split; [|split; [discriminate|]].
    + destruct (is_what event REventStateEnter || is_what event REventStateTimeout);
        [|apply kept_same].
      destruct (negb (Device_reachable env d)); [apply kept_clear|].
      destruct (rev (pollItems d)) as [|p front] eqn:Hr; [apply kept_clear|].
      apply rev_cons_eq in Hr. inversion Hq as [|? ? Hp _]; subst.
      rewrite Hr.
      destruct (DA_GetReadFunction (readParameters p)); [|apply kept_pop].
      destruct (isEnqueued _); [apply kept_same|].
      eapply (retry_or_drop_spec env d event H_PollNext); eauto.
    + destruct (is_what event REventStateEnter || is_what event REventStateTimeout);
        [|lia].
      destruct (negb (Device_reachable env d)) eqn:Hre.
      { intros _. left. apply negb_true_iff in Hre. auto. }
      destruct (rev (pollItems d)) as [|p front] eqn:Hr;
        [apply rev_nil_eq in Hr; rewrite Hr; simpl; lia|].
      apply rev_cons_eq in Hr. inversion Hq as [|? ? Hp _]; subst.
      destruct (DA_GetReadFunction (readParameters p)) eqn:Hfn.
      * destruct (isEnqueued _); [lia|].
        rewrite Hr at 1. eapply (retry_or_drop_spec env d event H_PollNext); eauto.
      * intros _. right. exists (rev front), p. auto.
  - pose proof (post_ok _ _ _ (PollBusy_outcome 1 event env d (conj Hs (conj Hq Hb)) Hst) Hrun)
      as Hout.
    rewrite Hout. unfold PollBusy_queue. clear Hout Hrun Hinv'.
    specialize (Hb Hst).
    destruct (rev (pollItems d)) as [|p front] eqn:Hr; [contradiction|].
    apply rev_cons_eq in Hr. inversion Hq as [|? ? Hp _]; subst.
    split; [|split].
    + destruct (is_what event REventStateEnter || is_what event REventStateLeave);
        [apply kept_same|].
      destruct (confirm_for_read d event); [|apply kept_same].
      rewrite Hr.
      destruct (EventApsConfirmStatus event =? 0); [apply kept_pop|].
      eapply (retry_or_drop_spec env d event H_PollBusy); eauto.
    + intros _ Hc Hstatus. rewrite Hc, Hstatus. simpl.
      destruct (is_what event REventStateEnter || is_what event REventStateLeave) eqn:Hev.
      * unfold confirm_for_read, is_what in *.
        destruct (ev_what event); simpl in *; discriminate.
      * exists p. exact Hr.
    + destruct (is_what event REventStateEnter || is_what event REventStateLeave);
        [lia|].
      destruct (confirm_for_read d event) eqn:Hc; [|lia].
      destruct (EventApsConfirmStatus event =? 0) eqn:Hstatus.
      * intros _. right. exists (rev front), p. apply Z.eqb_eq in Hstatus. auto 10.
      * rewrite Hr at 1. eapply (retry_or_drop_spec env d event H_PollBusy); eauto.
Qed.

(** C1, as the code has it.  In every state a device can reach exactly one
    handler, a top level one, is installed at level 0, and a handler is
    installed at level 1 or 2 only if the level 0 handler is Idle.  The
    converse holds once Idle has handled its StateEnter, which [setState]
    emits to the event queue and does not deliver itself: handling it installs
    the Binding handler at level 1 and the PollIdle handler at level 2. *)
Theorem slots_invariant :
  forall (d : Device),
    Reach DA_GetReadFunction d ->
    (exists h0, slot (state d) StateLevel0 = Some h0 /\ level0_handler h0 = true) /\
    (slot (state d) StateLevel1 <> None \/ slot (state d) StateLevel2 <> None ->
     slot (state d) StateLevel0 = Some H_Idle) /\
    (forall (env : Env) (event : Event),
        slot (state d) StateLevel0 = Some H_Idle ->
        is_what event REventStateEnter = true ->
        exists d',
          invoke DA_GetReadFunction call_depth H_Idle event env d = Ok d' /\
          state d' = mkPerLevel (Some H_Idle) (Some H_Binding) (Some H_PollIdle)).
Proof.
  intros d Hreach. apply Reach_Inv in Hreach. destruct Hreach as (Hs & _ & _).
  split; [|split].
  - destruct (state d) as [[h0|] s1 s2]; simpl in *; [|discriminate Hs].
    exists h0. split; [reflexivity|].
    destruct h0; try reflexivity; discriminate Hs.
  - destruct (state d) as [[h0|] [h1|] [h2|]]; simpl in *; try discriminate Hs;
      intros [Hne | Hne]; try contradiction;
      destruct h0; try reflexivity; simpl in Hs;
      try (destruct h1; simpl in Hs); try (destruct h2; simpl in Hs);
      discriminate Hs.
  - intros env [res what id num key] Hst Hev.
    destruct (slots_ok_idle _ Hs Hst) as (H1 & H2).
    destruct_device d. subst. clear Hs.
    unfold is_what in Hev. destruct what; try discriminate Hev.
    destruct H1 as [-> | [-> | ->]]; destruct H2 as [-> | [-> | [-> | ->]]];
      crunch; eexists; split; reflexivity.
Qed.

(** *** Dead is terminal *)

Lemma slots_ok_dead s :
  slots_ok s = true -> at0 s = Some H_Dead -> s = mkPerLevel (Some H_Dead) None None.
Proof.
  destruct s as [s0 [h1|] [h2|]]; simpl; intros Hs ->; simpl in Hs;
    try (destruct h1; simpl in Hs); try (destruct h2; simpl in Hs);
    try discriminate Hs; reflexivity.
Qed.

Lemma dead_step x env d :
  state d = mkPerLevel (Some H_Dead) None None ->
  post (fun d' => state d' = state d /\ trace d' = trace d)
       (step DA_GetReadFunction x env d).
Proof.
  intros Hst. destruct_device d. injection Hst as -> -> ->.
  destruct x as [[res what id num key] level|i|sub|its].
  - unfold step, handleEvent, Device_handleEvent, call_depth, is_what.
    destruct what; destruct level; crunch; try exact I; try (split; reflexivity);
      match goal with
      | l : DEV_StateLevel, H : slot _ ?l = Some _ |- _ =>
        destruct l; simpl in H; try discriminate H; injection H as <-
      end; crunch; split; reflexivity.
  - unfold step, timerEvent, Device_timerEvent, call_depth.
    destruct i; crunch; try exact I; split; reflexivity.
  - unfold step, Device_addSubDevice. crunch; try exact I; split; reflexivity.
  - simpl. auto.
Qed.

Lemma dead_forever xs :
  forall d d',
    state d = mkPerLevel (Some H_Dead) None None ->
    run DA_GetReadFunction xs d = Ok d' ->
    state d' = state d /\ trace d' = trace d.
Proof.
  induction xs as [|[env x] rest IH]; intros d d' Hst Hrun; simpl in Hrun.
  - injection Hrun as <-. auto.
  - pose proof (dead_step x env d Hst) as Hstep.
    destruct (step DA_GetReadFunction x env d) as [d1|u]; [|discriminate Hrun].
    simpl in Hstep. destruct Hstep as [Hs1 Ht1].
    destruct (IH d1 d') as [Hs2 Ht2]; [congruence | exact Hrun |].
    split; congruence.
Qed.

Lemma Reach_run xs :
  forall d d',
    Reach DA_GetReadFunction d -> run DA_GetReadFunction xs d = Ok d' ->
    Reach DA_GetReadFunction d'.
Proof.
  induction xs as [|[env x] rest IH]; intros d d' Hreach Hrun; simpl in Hrun.
  - injection Hrun as <-. exact Hreach.
  - destruct (step DA_GetReadFunction x env d) as [d1|u] eqn:Hstep;
      [|discriminate Hrun].
    eapply IH; [|exact Hrun]. eapply Reach_step; eauto.
Qed.

(** C7, as the code has it.  For a device in Init whose key has all bits of
    0x00212E0000000000 set and whose core node has the network address
    0x0000, StateEnter makes Dead the top level state; the handler sends no
    ZDP request, and none is sent in any run of the device from there on. *)
Theorem Init_coordinator_dead :
  forall (env : Env) (d : Device) (event : Event) (p : NodePtr),
    Reach DA_GetReadFunction d ->
    slot (state d) StateLevel0 = Some H_Init ->
    is_what event REventStateEnter = true ->
    ev_deviceKey event = deviceKey d ->
    Z.land (deviceKey d) 0x00212E0000000000 = 0x00212E0000000000 ->
    DEV_GetCoreNode env (deviceKey d) = Some p ->
    address_nwk (node_at env p) = 0x0000 ->
    exists d',
      invoke DA_GetReadFunction call_depth H_Init event env d = Ok d' /\
      slot (state d') StateLevel0 = Some H_Dead /\
      zdp_requests d' = zdp_requests d /\
      forall (xs : list (Env * Input)) (d'' : Device),
        run DA_GetReadFunction xs d' = Ok d'' ->
        slot (state d'') StateLevel0 = Some H_Dead /\
        zdp_requests d'' = zdp_requests d.
Proof.
  intros env d [res what id num key] p Hreach Hst Hev Hkey Hmask Hcore Hnwk.
  apply Reach_Inv in Hreach. destruct Hreach as (Hs & _ & _).
  assert (Hne : H_Init <> H_Idle) by discriminate.
  destruct (slots_ok_level0 _ _ Hs Hst Hne) as (_ & H1 & H2).
  destruct_device d. subst. clear Hs Hne.
  unfold is_what in Hev. destruct what; try discriminate Hev.
  unfold call_depth, is_what. run_cmd.
  rewrite Hmask, Z.eqb_refl. run_cmd. rewrite Hcore. run_cmd.
  rewrite Hnwk. run_cmd.
  eexists. split; [reflexivity|]. split; [reflexivity|].
  assert (Hz : forall t : list Effect,
             filter is_zdp_request
               (t ++ [EventNotify (mkEvent (Some RDevices) REventStateEnter
                                           EmptyString 0 deviceKey0)]) =
             filter is_zdp_request t)
    by (intros t; rewrite filter_app; simpl; apply app_nil_r).
  split; [apply Hz|].
  intros xs d'' Hrun. apply dead_forever in Hrun; [|reflexivity].
  destruct Hrun as [Hs'' Ht'']. unfold zdp_requests.
  rewrite Hs'', Ht''. split; [reflexivity | apply Hz].
Qed.

(** *** The device registry *)

Lemma GetDevice_app devices more key :
  DEV_GetDevice (devices ++ more) key =
  match DEV_GetDevice devices key with
  | Some d => Some d
  | None => DEV_GetDevice more key
  end.
Proof.
  unfold DEV_GetDevice. induction devices as [|d rest IH]; simpl; [reflexivity|].
  destruct (deviceKey d =? key); [reflexivity | exact IH].
Qed.

Lemma GetDevice_key devices key d :
  DEV_GetDevice devices key = Some d -> In d devices /\ deviceKey d = key.
Proof.
  unfold DEV_GetDevice. intros H. apply find_some in H.
  destruct H as [Hin Hk]. split; [exact Hin | apply Z.eqb_eq, Hk].
Qed.

Lemma GetDevice_none devices key :
  DEV_GetDevice devices key = None <-> ~ In key (keys_of devices).
Proof.
  unfold DEV_GetDevice, keys_of. induction devices as [|d rest IH]; simpl.
  - split; auto.
  - destruct (Z.eqb_spec (deviceKey d) key) as [Heq|Hne].
    + split; [discriminate | intros H; exfalso; apply H; left; exact Heq].
    + rewrite IH. split; [intros H [Hk|Hk]; auto | intros H Hk; apply H; right; exact Hk].
Qed.

Lemma Device_new_ok env key managed :
  Device_new env key managed =
  Ok (emit (EventNotify (mkEvent (Some RDevices) REventStateEnter EmptyString 0 key))
           (set_state (mkPerLevel (Some H_Init) None None) (Device_blank key managed))).
Proof. reflexivity. Qed.

(** [DEV_GetOrCreateDevice] always returns a device with the key that
    [DEV_GetDevice] then finds; lookups of other keys are not affected; a
    device that exists is returned as it is and the container is unchanged,
    and a device that does not exist is constructed in the Init state and
    appended. *)
Theorem GetOrCreateDevice_then_get :
  forall (env : Env) (managed : bool) (devices : DeviceContainer) (key : DeviceKey),
  exists devices' d,
    DEV_GetOrCreateDevice env managed devices key = Ok (devices', d) /\
    deviceKey d = key /\
    DEV_GetDevice devices' key = Some d /\
    (forall key', key' <> key ->
                  DEV_GetDevice devices' key' = DEV_GetDevice devices key') /\
    match DEV_GetDevice devices key with
    | Some d0 => d = d0 /\ devices' = devices
    | None => devices' = (devices ++ [d])%list /\
              state d = mkPerLevel (Some H_Init) None None /\
              pollItems d = [] /\ subDevices_ids d = []
    end.
Proof.
  intros env managed devices key. unfold DEV_GetOrCreateDevice.
  fold (DEV_GetDevice devices key).
  destruct (DEV_GetDevice devices key) as [d0|] eqn:Hget.
  - exists devices, d0. destruct (GetDevice_key _ _ _ Hget) as [_ Hk].
    repeat split; auto.
  - rewrite Device_new_ok. do 2 eexists. split; [reflexivity|].
    split; [reflexivity|]. split; [|split].
    + rewrite GetDevice_app, Hget. unfold DEV_GetDevice. simpl.
      rewrite Z.eqb_refl. reflexivity.
    + intros key' Hne. rewrite GetDevice_app.
      destruct (DEV_GetDevice devices key'); [reflexivity|].
      unfold DEV_GetDevice. simpl.
      destruct (Z.eqb_spec key key'); [congruence | reflexivity].
    + repeat split.
Qed.

Lemma erase_first_In key key' devices :
  In key' (keys_of (erase_first key devices)) -> In key' (keys_of devices).
Proof.
  unfold keys_of. induction devices as [|d rest IH]; simpl; [auto|].
  destruct (deviceKey d =? key); simpl; [auto|].
  intros [H|H]; auto.
Qed.

Lemma erase_first_NoDup key devices :
  NoDup (keys_of devices) -> NoDup (keys_of (erase_first key devices)).
Proof.
  unfold keys_of. induction devices as [|d rest IH]; simpl; intros Hnd; [exact Hnd|].
  inversion Hnd as [|? ? Hnot Hrest]; subst.
  destruct (deviceKey d =? key); simpl; [exact Hrest|].
  constructor; [|apply IH, Hrest].
  intros Hin. apply Hnot. eapply erase_first_In, Hin.
Qed.

Lemma erase_first_absent key devices :
  NoDup (keys_of devices) -> ~ In key (keys_of (erase_first key devices)).
Proof.
  unfold keys_of. induction devices as [|d rest IH]; simpl; intros Hnd; [auto|].
  inversion Hnd as [|? ? Hnot Hrest]; subst.
  destruct (Z.eqb_spec (deviceKey d) key) as [Heq|Hne]; simpl.
  - rewrite <- Heq. exact Hnot.
  - intros [H|H]; [contradiction | exact (IH Hrest H)].
Qed.

Lemma erase_first_other key key' devices :
  key' <> key ->
  DEV_GetDevice (erase_first key devices) key' = DEV_GetDevice devices key'.
Proof.
  intros Hne. unfold DEV_GetDevice.
  induction devices as [|d rest IH]; simpl; [reflexivity|].
  destruct (Z.eqb_spec (deviceKey d) key) as [Heq|Hk]; simpl.
  - destruct (Z.eqb_spec (deviceKey d) key'); [congruence | reflexivity].
  - destruct (deviceKey d =? key'); [reflexivity | exact IH].
Qed.

Lemma RemoveDevice_fst devices key :
  fst (DEV_RemoveDevice devices key) = erase_first key devices.
Proof.
  unfold DEV_RemoveDevice. simpl.
  destruct (find _ devices) eqn:Hf; [reflexivity|].
  induction devices as [|d rest IH]; simpl in *; [reflexivity|].
  destruct (deviceKey d =? key); [discriminate Hf|].
  rewrite <- IH; auto.
Qed.

(** The registry holds at most one device per key: when the keys of a
    container are pairwise different they still are after
    [DEV_GetOrCreateDevice] and after [DEV_RemoveDevice]. *)
Theorem registry_keys_unique :
  forall (env : Env) (managed : bool) (devices : DeviceContainer) (key : DeviceKey),
    NoDup (keys_of devices) ->
    (forall devices' d,
        DEV_GetOrCreateDevice env managed devices key = Ok (devices', d) ->
        NoDup (keys_of devices')) /\
    NoDup (keys_of (fst (DEV_RemoveDevice devices key))).
Proof.
  intros env managed devices key Hnd. split.
  - intros devices' d. unfold DEV_GetOrCreateDevice.
    fold (DEV_GetDevice devices key).
    destruct (DEV_GetDevice devices key) as [d0|] eqn:Hget.
    + intros [= <- _]. exact Hnd.
    + rewrite Device_new_ok. intros [= <- _].
      unfold keys_of in *. rewrite map_app. simpl.
      apply NoDup_app; [exact Hnd | repeat constructor; auto |].
      intros k Hin [<-|[]]. apply GetDevice_none in Hget. exact (Hget Hin).
  - rewrite RemoveDevice_fst. apply erase_first_NoDup, Hnd.
Qed.

(** After [DEV_RemoveDevice] no device with the key is found, provided the
    keys of the container were pairwise different (only the first device with
    the key is erased); devices with other keys are found as before. *)
Theorem RemoveDevice_then_get :
  forall (devices : DeviceContainer) (key : DeviceKey),
    NoDup (keys_of devices) ->
    DEV_GetDevice (fst (DEV_RemoveDevice devices key)) key = None /\
    (forall key', key' <> key ->
        DEV_GetDevice (fst (DEV_RemoveDevice devices key)) key' =
        DEV_GetDevice devices key').
Proof.
  intros devices key Hnd. rewrite RemoveDevice_fst. split.
  - apply GetDevice_none, erase_first_absent, Hnd.
  - intros key' Hne. apply erase_first_other, Hne.
Qed.

(** *** Sub-devices and what is polled *)

Lemma Resource_item_setParent (parent : DeviceKey) (r : Resource) (suffix : What) :
  Resource_item (Resource_setParentResource parent r) suffix = Resource_item r suffix.
Proof. reflexivity. Qed.

(** [Device::addSubDevice], for a sub-device that has its uniqueid item:
    every call makes the device the parent resource of the sub-device, also
    when the sub-device is registered already, and changes nothing else of
    the sub-device.  The unique id is registered once: the registered ids
    stay pairwise different, the id is registered afterwards, adding the same
    sub-device again leaves the device as it is and sets the same parent
    again, and of the device nothing but the list of sub-devices is
    touched. *)
Theorem addSubDevice_registers_once :
  forall (sub : Resource) (u : ResourceItem) (env : Env) (d : Device),
    Resource_item sub RAttrUniqueId = Some u ->
    NoDup (map fst (subDevices_ids d)) ->
    exists d' sub',
      Device_addSubDevice sub env d = Ok (d', sub') /\
      r_parent sub' = Some (deviceKey d) /\
      r_ref sub' = r_ref sub /\ r_items sub' = r_items sub /\
      r_stateChanges sub' = r_stateChanges sub /\
      NoDup (map fst (subDevices_ids d')) /\
      In (ri_value u) (map fst (subDevices_ids d')) /\
      Device_addSubDevice sub env d' = Ok (d', sub') /\
      Device_addSubDevice sub' env d' = Ok (d', sub') /\
      set_subDevices_ids (subDevices_ids d) d' = d.
Proof.
  intros sub u env d Hu Hnd. unfold Device_addSubDevice. rewrite Hu. simpl.
  destruct (existsb _ (subDevices_ids d)) eqn:Hex.
  - exists d, (Resource_setParentResource (deviceKey d) sub).
    rewrite Resource_item_setParent, Hu. simpl. rewrite Hex.
    repeat split; auto.
    + apply existsb_exists in Hex. destruct Hex as ([uid prefix] & Hin & Heq).
      simpl in Heq. apply String.eqb_eq in Heq. subst uid.
      apply in_map_iff. exists (ri_value u, prefix). auto.
    + destruct d; reflexivity.
  - eexists. eexists. split; [reflexivity|].
    rewrite Resource_item_setParent, Hu. simpl. rewrite map_app. simpl.
    repeat (split; [reflexivity|]).
    split; [|split; [|split; [|split]]].
    + apply NoDup_app; [exact Hnd | repeat constructor; auto |].
      intros uid Hin [<-|[]].
      apply in_map_iff in Hin. destruct Hin as ([uid prefix] & Heq & Hin).
      simpl in Heq. subst uid.
      assert (Ht : existsb (fun s => String.eqb (fst s) (ri_value u))
                           (subDevices_ids d) = true).
      { apply existsb_exists. exists (ri_value u, prefix).
        split; [exact Hin | apply String.eqb_refl]. }
      congruence.
    + apply in_or_app. right. left. reflexivity.
    + rewrite existsb_app. simpl. rewrite String.eqb_refl, orb_true_r.
      destruct d; reflexivity.
    + rewrite existsb_app. simpl. rewrite String.eqb_refl, orb_true_r.
      destruct d; reflexivity.
    + destruct d; reflexivity.
Qed.

(** [DEV_GetPollItems] collects exactly the items of the sub-devices that
    are due and for which the DDF has read parameters that are neither null
    nor an empty map, each with a retry count of 0. *)
Theorem GetPollItems_collects :
  forall (env : Env) (d : Device) (p : PollItem),
    In p (DEV_GetPollItems env d) <->
    exists r i,
      In r (Device_subDevices env d) /\ In i (r_items r) /\
      item_stale env i = true /\
      has_read_parameters (DDF_GetItem env (r_ref r) i) = true /\
      p = mkPollItem 0 (r_ref r) (ri_suffix i) (DDF_GetItem env (r_ref r) i).
Proof.
  intros env d p. unfold DEV_GetPollItems. rewrite <- in_rev, in_flat_map.
  split.
  - intros (r & Hr & Hp). apply in_flat_map in Hp. destruct Hp as (i & Hi & Hp).
    exists r, i. unfold item_stale, has_read_parameters.
    destruct (ri_lastSet i) as [t|];
      [destruct (currentDateTime env - t <? ri_refreshInterval i); [destruct Hp|]|];
      simpl;
      (destruct (QVariant_isNull (DDF_GetItem env (r_ref r) i)); [destruct Hp|];
       destruct (QVariant_toMap (DDF_GetItem env (r_ref r) i)); [destruct Hp|];
       destruct Hp as [<-|[]]; auto 10).
  - intros (r & i & Hr & Hi & Hstale & Hparams & ->).
    exists r. split; [exact Hr|]. apply in_flat_map. exists i. split; [exact Hi|].
    unfold item_stale, has_read_parameters in *.
    destruct (ri_lastSet i) as [t|];
      [destruct (currentDateTime env - t <? ri_refreshInterval i);
       [discriminate Hstale|]|];
      (destruct (QVariant_isNull (DDF_GetItem env (r_ref r) i));
       [discriminate Hparams|];
       destruct (QVariant_toMap (DDF_GetItem env (r_ref r) i));
       [discriminate Hparams|]; left; reflexivity).
Qed.


(** A sub-device [DEV_GetSubDevice] returns is one of the given ones, has
    the prefix asked for (when one is given), and its unique id or its id is
    the identifier. *)
Theorem GetSubDevice_sound :
  forall (subs : list Resource) (prefix : option string) (identifier : string)
         (sub : Resource),
    DEV_GetSubDevice subs prefix identifier = Some (Some sub) ->
    In sub subs /\
    (forall p, prefix = Some p -> r_prefix sub = p) /\
    ((exists u, Resource_item sub RAttrUniqueId = Some u /\ ri_value u = identifier)
     \/ (exists i, Resource_item sub RAttrId = Some i /\ ri_value i = identifier)).
Proof.
  intros subs prefix identifier sub.
  induction subs as [|s rest IH]; simpl; [discriminate|].
  destruct (match prefix with Some p => negb (String.eqb (r_prefix s) p) | None => false end)
    eqn:Hp.
  - intros H. destruct (IH H) as (Hin & Hpre & Hid). auto.
  - assert (Hprefix : forall p, prefix = Some p -> r_prefix s = p).
    { intros p ->. apply negb_false_iff, String.eqb_eq in Hp. exact Hp. }
    destruct (Resource_item s RAttrUniqueId) as [u|] eqn:Hu; [|discriminate].
    destruct (String.eqb (ri_value u) identifier) eqn:Heq.
    + intros [= <-]. apply String.eqb_eq in Heq. eauto 10.
    + destruct (Resource_item s RAttrId) as [i|] eqn:Hi; [|discriminate].
      destruct (String.eqb (ri_value i) identifier) eqn:Heqi.
      * intros [= <-]. apply String.eqb_eq in Heqi. eauto 10.
      * intros H. destruct (IH H) as (Hin & Hpre & Hid). auto.
Qed.

(** The endpoint the SimpleDescriptor state asks for: when it is not 0x00,
    it is the first endpoint of the node without a verified simple
    descriptor; it is 0x00 when every endpoint is verified. *)
Theorem needFetchEp_first_unverified :
  forall (n : Node),
    (needFetchEp n <> 0x00 ->
     exists before after,
       endpoints n = (before ++ needFetchEp n :: after)%list /\
       endpoint_verified n (needFetchEp n) = false /\
       forallb (endpoint_verified n) before = true) /\
    (forallb (endpoint_verified n) (endpoints n) = true -> needFetchEp n = 0x00).
Proof.
  intros n. unfold needFetchEp.
  assert (Hpred : forall ep,
             match copySimpleDescriptor n ep with
             | Some sd => sd_deviceId sd =? 65535
             | None => true
             end = negb (endpoint_verified n ep)).
  { intros ep. unfold endpoint_verified.
    destruct (copySimpleDescriptor n ep); [rewrite negb_involutive|]; reflexivity. }
  generalize (endpoints n). intros eps.
  induction eps as [|ep rest [IH1 IH2]]; simpl.
  - split; [intros H; contradiction H; reflexivity | reflexivity].
  - rewrite Hpred. destruct (endpoint_verified n ep) eqn:Hv; simpl.
    + split.
      * intros Hne. destruct (IH1 Hne) as (before & after & Heq & Hbad & Hok).
        exists (ep :: before), after. simpl. rewrite Hv, Hok.
        split; [f_equal; exact Heq | auto].
      * exact IH2.
    + split; [|discriminate].
      intros _. exists [], rest. auto.
Qed.

(** *** The node, the timers and the queue are used safely *)

Lemma safe_seq Q (a b : Cmd) env d :
  safe (fun dm => safe Q (b env dm)) (a env d) -> safe Q (seq a b env d).
Proof. simpl. destruct (a env d) as [dm|[]]; simpl; auto. Qed.

Lemma safe_ok Q (r : res Device) d' : safe Q r -> r = Ok d' -> Q d'.
Proof. intros H ->. exact H. Qed.

Lemma safe_weaken (P Q : Device -> Prop) (r : res Device) :
  (forall d', P d' -> Q d') -> safe P r -> safe Q r.
Proof. destruct r as [d'|[]]; simpl; auto. Qed.

Lemma zdp_filter_event (t : list Effect) e :
  filter is_zdp_request (t ++ [EventNotify e]) = filter is_zdp_request t.
Proof. rewrite filter_app. simpl. apply app_nil_r. Qed.

Lemma zdp_filter_read (t : list Effect) f p :
  filter is_zdp_request (t ++ [ReadFunctionCall f p]) = filter is_zdp_request t.
Proof. rewrite filter_app. simpl. apply app_nil_r. Qed.

Lemma zdp_filter_zcl (t : list Effect) param ext nwk :
  filter is_zdp_request (t ++ [ZclReadAttributes param ext nwk]) =
  filter is_zdp_request t.
Proof. rewrite filter_app. simpl. apply app_nil_r. Qed.

Ltac zdp_norm :=
  unfold zdp_quiet, zdp_polite, zdp_requests; cbn -[Device_reachable];
  rewrite ?zdp_filter_event, ?zdp_filter_read, ?zdp_filter_zcl.

Ltac safe_goal Hb :=
  unfold Inv2, Inv_rev, node_ok, timers_ok, kept;
  cbn -[Z.mul Z.gtb Z.geb Z.ltb Z.eqb Z.sub Z.add size_t_incr rev app
        DEV_GetPollItems Device_reachable zdp_quiet zdp_polite];
  rewrite ?rev_unit, ?rev_involutive, ?rev_empty;
  repeat match goal with
         | H : Forall _ (_ :: _) |- _ => inversion H; clear H; subst
         end.

Ltac solve_queue Hb :=
  first [ assumption
        | constructor; assumption
        | constructor;
          [ apply item_ok_retry;
            [assumption | first [apply Hb; reflexivity | congruence] | assumption]
          | assumption ]
        | match goal with
          | H : DEV_GetPollItems _ _ = _ |- _ =>
            rewrite <- H; apply Forall_rev, GetPollItems_ok
          end
        | constructor ].

Ltac solve_busy Hb :=
  let Hbusy := fresh "Hbusy" in
  intros Hbusy;
  first [discriminate Hbusy | congruence | apply Hb; reflexivity].

Ltac solve_timers Ht :=
  split; [reflexivity|];
  let Harmed := fresh "Harmed" in
  intros Harmed;
  first [ left; reflexivity | right; reflexivity
        | exfalso; apply Harmed; reflexivity
        | exfalso; congruence
        | apply Ht in Harmed; destruct Harmed; discriminate ].

Ltac solve_node :=
  first
    [ exact I
    | discriminate
    | match goal with
      | H : deref_node _ _ = Some _ |- _ <> None =>
        let Hnone := fresh "Hnone" in
        intros Hnone; unfold deref_node in H; cbn in H; rewrite Hnone in H;
        discriminate H
      end ].

Ltac solve_safe Hb Ht :=
  safe_goal Hb;
  first
    [ exact I
    | exfalso; eapply no_fn_no_cap; eassumption
    | exfalso; apply Hb; reflexivity
    | split;
      [ split; [reflexivity|]; split; [solve_queue Hb | solve_busy Hb]
      | split; [solve_node | solve_timers Ht] ] ].

Ltac solve_step Hb Ht :=
  first
    [ solve_safe Hb Ht
    | split; [solve_safe Hb Ht | split; [repeat split | zdp_norm; reflexivity]] ].

Lemma leaf2_safe n h event env d :
  Inv2 DA_GetReadFunction d -> at2 (state d) = Some h ->
  safe (fun d' => Inv2 DA_GetReadFunction d' /\ kept d d' /\ zdp_quiet d d')
       (invoke DA_GetReadFunction (S (S n)) h event env d).
Proof.
  intros ((Hs & Hq & Hb) & Hn & (Ht1 & Ht)) Hst.
  destruct (slots_ok_level2 _ _ Hs Hst) as (H0 & Hh & H1).
  destruct event as [res what id num key].
  destruct_device d. destruct timer0 as [t0 t1 t2]. simpl in *. subst. clear Hs.
  destruct node0 as [p|]; [clear Hn | contradiction Hn; reflexivity].
  rev_queue pollItems0 r.
  destruct Hh as [-> | [-> | ->]];
    destruct what; unfold is_what;
    destruct H1 as [-> | [-> | ->]];
    run_queue; solve_step Hb Ht.
Qed.

Lemma leaf1_safe n h event env d :
  Inv2 DA_GetReadFunction d -> at1 (state d) = Some h ->
  safe (fun d' => Inv2 DA_GetReadFunction d' /\ kept d d' /\ zdp_quiet d d')
       (invoke DA_GetReadFunction (S (S n)) h event env d).
Proof.
  intros ((Hs & Hq & Hb) & Hn & (Ht1 & Ht)) Hst.
  destruct (slots_ok_level1 _ _ Hs Hst) as (H0 & Hh & H2).
  destruct event as [res what id num key].
  destruct_device d. destruct timer0 as [t0 t1 t2]. simpl in *. subst. clear Hs.
  destruct node0 as [p|]; [clear Hn | contradiction Hn; reflexivity].
  rev_queue pollItems0 r.
  destruct Hh as [-> | ->];
    destruct what; unfold is_what;
    destruct H2 as [-> | [-> | [-> | ->]]];
    run_queue; solve_step Hb Ht.
Qed.

Ltac solve_polite :=
  zdp_norm; rewrite ?filter_app; cbn -[Device_reachable]; rewrite ?app_nil_r;
  first [ left; reflexivity
        | right; split; [apply negb_false_iff; assumption | eexists; reflexivity] ].

Ltac solve_quiet_unless_enter :=
  let Hx := fresh "Hx" in
  intros Hx; first [discriminate Hx | zdp_norm; reflexivity].

Ltac solve_step0 Hb Ht :=
  first
    [ solve_safe Hb Ht
    | split; [solve_safe Hb Ht
             | split; [repeat split | split; [solve_polite | solve_quiet_unless_enter]]] ].

Lemma level0_safe n h event env d :
  Inv2 DA_GetReadFunction d -> at0 (state d) = Some h -> h <> H_Idle ->
  safe (fun d' => Inv2 DA_GetReadFunction d' /\ kept d d' /\ zdp_polite env d d' /\
                  (is_what event REventStateEnter = false -> zdp_quiet d d'))
       (invoke DA_GetReadFunction (S (S n)) h event env d).
Proof.
  intros ((Hs & Hq & Hb) & Hn & (Ht1 & Ht)) Hst Hne.
  destruct (slots_ok_level0 _ _ Hs Hst Hne) as (Hh & H1 & H2).
  destruct event as [res what id num key].
  destruct_device d. destruct timer0 as [t0 t1 t2]. simpl in *. subst. clear Hs.
  rev_queue pollItems0 r.
  destruct h; try discriminate Hh; try contradiction; simpl in Hn;
    try (destruct node0 as [p|]; [|exfalso; apply Hn; reflexivity]);
    destruct what; unfold is_what;
    run_queue; solve_step0 Hb Ht.
Qed.

Lemma kept_refl d : kept d d.
Proof. repeat split. Qed.

Lemma kept_trans d1 d2 d3 : kept d1 d2 -> kept d2 d3 -> kept d1 d3.
Proof. unfold kept. intuition congruence. Qed.

Lemma Inv2_frame d d' :
  state d' = state d -> pollItems d' = pollItems d -> node d' = node d ->
  timer d' = timer d ->
  Inv2 DA_GetReadFunction d -> Inv2 DA_GetReadFunction d'.
Proof.
  unfold Inv2, Inv_rev, node_ok, timers_ok. intros -> -> -> ->. auto.
Qed.

Lemma check_sub_quiet event subs :
  filter is_zdp_request (flat_map (check_sub event) subs) = [].
Proof.
  induction subs as [|sub rest IH]; simpl; [reflexivity|].
  rewrite filter_app, IH, app_nil_r. unfold check_sub.
  destruct (r_stateChanges sub) as [|c cs]; [reflexivity|].
  generalize (c :: cs). intros changes.
  rewrite filter_app. simpl filter at 2. rewrite app_nil_r.
  induction changes as [|ch more IHc]; simpl; [reflexivity|].
  rewrite !filter_app, IHc.
  destruct (Resource_item sub (ev_what event)); reflexivity.
Qed.

Lemma check_safe event env d :
  safe (fun d' => state d' = state d /\ pollItems d' = pollItems d /\
                  node d' = node d /\ timer d' = timer d /\
                  kept d d' /\ zdp_quiet d d')
       (DEV_CheckItemChanges event env d).
Proof.
  unfold DEV_CheckItemChanges.
  assert (Hq : forall subs,
             zdp_quiet d (set_trace (trace d ++ flat_map (check_sub event) subs) d)).
  { intros subs. unfold zdp_quiet, zdp_requests. simpl.
    rewrite filter_app, check_sub_quiet. apply app_nil_r. }
  destruct (is_what event REventAwake || is_what event REventPoll).
  - repeat split. apply Hq.
  - destruct (DEV_GetSubDevice _ _ _) as [[sub|]|]; [| |exact I];
      repeat split; apply Hq.
Qed.

Lemma idle_leave_safe n env d :
  Inv2 DA_GetReadFunction d -> at0 (state d) = Some H_Idle ->
  safe (fun d' => Inv2 DA_GetReadFunction d' /\ kept d d' /\ zdp_quiet d d')
       (setState (invoke DA_GetReadFunction (S (S n))) (Some H_Init)
                 StateLevel0 env d).
Proof.
  intros ((Hs & Hq & Hb) & Hn & (Ht1 & Ht)) Hst.
  destruct (slots_ok_idle _ Hs Hst) as (H1 & H2).
  destruct_device d. destruct timer0 as [t0 t1 t2]. simpl in *. subst. clear Hs.
  rev_queue pollItems0 r.
  destruct H1 as [-> | [-> | ->]]; destruct H2 as [-> | [-> | [-> | ->]]];
    run_queue; solve_step Hb Ht.
Qed.

Lemma forward_safe n event l env d :
  Inv2 DA_GetReadFunction d ->
  is_what event REventStateEnter || is_what event REventStateLeave = false ->
  l <> StateLevel0 ->
  safe (fun d' => Inv2 DA_GetReadFunction d' /\ kept d d' /\ zdp_quiet d d')
       (Device_handleEvent (invoke DA_GetReadFunction (S (S n))) event l env d).
Proof.
  intros Hinv Hev Hl. unfold Device_handleEvent. rewrite Hev. unfold rd, seq.
  destruct (slot (state d) l) as [h|] eqn:Hslot;
    [|simpl; split; [exact Hinv | split; [apply kept_refl | reflexivity]]].
  destruct l; [contradiction| |];
    simpl DEV_StateLevel_eqb; rewrite andb_false_r; simpl skip;
    [apply leaf1_safe | apply leaf2_safe]; assumption.
Qed.

Lemma idle_safe n event env d :
  Inv2 DA_GetReadFunction d -> at0 (state d) = Some H_Idle ->
  safe (fun d' => Inv2 DA_GetReadFunction d' /\ kept d d' /\ zdp_quiet d d')
       (invoke DA_GetReadFunction (S (S (S n))) H_Idle event env d).
Proof.
  intros Hinv Hst.
  destruct (is_what event REventStateEnter || is_what event REventStateLeave) eqn:Hev.
  - destruct Hinv as ((Hs & Hq & Hb) & Hn & (Ht1 & Ht)).
    destruct (slots_ok_idle _ Hs Hst) as (H1 & H2).
    destruct event as [res what id num key].
    destruct_device d. destruct timer0 as [t0 t1 t2]. simpl in *. subst. clear Hs.
    destruct node0 as [p|]; [clear Hn | contradiction Hn; reflexivity].
    rev_queue pollItems0 r.
    destruct what; try discriminate Hev;
      destruct H1 as [-> | [-> | ->]]; destruct H2 as [-> | [-> | [-> | ->]]];
      run_queue; solve_step Hb Ht.
  - destruct (orb_false_elim _ _ Hev) as [He Hl].
    rewrite (Idle_unfold n event He Hl).
    apply safe_seq.
    apply safe_weaken with
      (P := fun d0 => Inv2 DA_GetReadFunction d0 /\ kept d d0 /\ zdp_quiet d d0).
    + intros d0 (H0 & Hk0 & Hz0). apply safe_seq.
      eapply safe_weaken; [|apply check_safe].
      intros d1 (Hs1 & Hp1 & Hn1 & Ht1 & Hk1 & Hz1). simpl.
      assert (H1 : Inv2 DA_GetReadFunction d1) by (eapply Inv2_frame; eauto).
      apply safe_seq.
      eapply safe_weaken; [|apply forward_safe; auto; discriminate].
      intros d2 (H2 & Hk2 & Hz2).
      eapply safe_weaken; [|apply forward_safe; auto; discriminate].
      intros d3 (H3 & Hk3 & Hz3). split; [exact H3|].
      split; [eauto using kept_trans|].
      unfold zdp_quiet in *. congruence.
    + destruct (is_what event REventDDFReload);
        [apply idle_leave_safe; assumption|].
      simpl. split; [exact Hinv | split; [apply kept_refl | reflexivity]].
Qed.

Lemma invoke_safe l h event env d :
  Inv2 DA_GetReadFunction d -> slot (state d) l = Some h ->
  safe (fun d' => Inv2 DA_GetReadFunction d' /\ kept d d' /\ zdp_polite env d d' /\
                  (is_what event REventStateEnter = false -> zdp_quiet d d'))
       (invoke DA_GetReadFunction call_depth h event env d).
Proof.
  intros Hinv Hslot. unfold call_depth.
  assert (Hq : forall r,
             safe (fun d' => Inv2 DA_GetReadFunction d' /\ kept d d' /\ zdp_quiet d d') r ->
             safe (fun d' => Inv2 DA_GetReadFunction d' /\ kept d d' /\
                             zdp_polite env d d' /\
                             (is_what event REventStateEnter = false -> zdp_quiet d d')) r).
  { intros r. apply safe_weaken. intros d' (H1 & H2 & H3).
    unfold zdp_polite. auto. }
  destruct l; simpl in Hslot.
  - destruct (Handler_eqb h H_Idle) eqn:Hh.
    + apply Handler_eqb_eq in Hh. subst h. apply Hq, idle_safe; assumption.
    + apply level0_safe; [assumption..|].
      intros ->. discriminate Hh.
  - apply Hq, leaf1_safe; assumption.
  - apply Hq, leaf2_safe; assumption.
Qed.

Lemma safe_to_entry (Q : Device -> Prop) r : safe Q r -> safe_entry Q r.
Proof. destruct r as [d'|[]]; simpl; auto. Qed.

Lemma handleEvent_safe event level env d :
  Inv2 DA_GetReadFunction d ->
  safe_entry (fun d' => Inv2 DA_GetReadFunction d' /\ same_identity d d' /\
                        awake d' = (if restarts_awake event level d
                                    then Some (now env) else awake d) /\
                        zdp_polite env d d' /\
                        (is_what event REventStateEnter = false -> zdp_quiet d d'))
             (handleEvent DA_GetReadFunction event level env d).
Proof.
  intros Hinv. unfold handleEvent, Device_handleEvent, restarts_awake.
  destruct (is_what event REventStateEnter || is_what event REventStateLeave) eqn:Hev.
  - destruct (level_of_num (ev_num event)) as [l|]; [|exact I].
    unfold rd_opt. destruct (slot (state d) l) as [h|] eqn:Hslot; [|exact I].
    apply safe_to_entry. eapply safe_weaken; [|eapply invoke_safe; eauto].
    intros d' (H1 & (Hk & Hm & Hsub & Haw) & Hz & Hq). unfold same_identity. auto 10.
  - unfold rd. simpl negb. rewrite andb_true_l.
    destruct (slot (state d) level) as [h|] eqn:Hslot.
    + apply safe_to_entry, safe_seq. rewrite andb_true_r.
      assert (Hse : is_what event REventStateEnter = false)
        by (destruct (orb_false_elim _ _ Hev); assumption).
      destruct (is_what event REventAwake && DEV_StateLevel_eqb level StateLevel0); simpl.
      * eapply safe_weaken;
          [|eapply (invoke_safe level h event env (set_awake (Some (now env)) d));
            eauto; eapply Inv2_frame; eauto; reflexivity].
        intros d' (H1 & (Hk & Hm & Hsub & Haw) & Hz & Hq). simpl in *.
        specialize (Hq Hse). unfold same_identity, zdp_polite, zdp_quiet in *.
        simpl in *. auto 10.
      * eapply safe_weaken; [|eapply invoke_safe; eauto].
        intros d' (H1 & (Hk & Hm & Hsub & Haw) & Hz & Hq).
        unfold same_identity. auto 10.
    + rewrite andb_false_r. simpl. unfold same_identity, zdp_polite, zdp_quiet.
      auto 10.
Qed.

Lemma timerEvent_safe i env d :
  Inv2 DA_GetReadFunction d ->
  safe (fun d' => Inv2 DA_GetReadFunction d' /\ same_identity d d' /\
                  awake d' = awake d /\ zdp_quiet d d')
       (timerEvent DA_GetReadFunction i env d).
Proof.
  intros Hinv. unfold timerEvent, Device_timerEvent, rd.
  destruct (slot (timer d) i) as [t|] eqn:Htimer;
    [|simpl; unfold same_identity, zdp_quiet; auto 10].
  apply safe_seq. simpl. unfold rd_opt. simpl.
  assert (Hinv' : Inv2 DA_GetReadFunction (set_timer (set_slot i None (timer d)) d)).
  { destruct Hinv as (Hi & Hn & Ht1 & Ht2). split; [exact Hi|]. split; [exact Hn|].
    unfold timers_ok. destruct i; simpl; auto;
      try (split; [exact Ht1|]; intros H; contradiction H; reflexivity). }
  destruct (slot (state d) i) as [h|] eqn:Hslot.
  - unfold rd. eapply safe_weaken;
      [|eapply (invoke_safe i h _ env (set_timer (set_slot i None (timer d)) d)); eauto].
    intros d' (H1 & (Hk & Hm & Hsub & Haw) & Hz & Hq). simpl in *.
    specialize (Hq eq_refl). unfold same_identity, zdp_quiet in *. simpl in *. auto 10.
  - exfalso. destruct Hinv as ((Hs & _) & _ & Ht1 & Ht2).
    destruct i; simpl in *.
    + destruct (state d) as [[h0|] s1 s2]; simpl in *; discriminate.
    + congruence.
    + rewrite Htimer in Ht2. destruct Ht2 as [H|H]; [discriminate| |]; congruence.
Qed.

Lemma safe_entry_weaken (P Q : Device -> Prop) (r : res Device) :
  (forall d', P d' -> Q d') -> safe_entry P r -> safe_entry Q r.
Proof. destruct r as [d'|[]]; simpl; auto. Qed.

Lemma step_safe x env d :
  Inv2 DA_GetReadFunction d ->
  safe_entry (fun d' => Inv2 DA_GetReadFunction d' /\ zdp_polite env d d')
             (step DA_GetReadFunction x env d).
Proof.
  intros Hinv. destruct x as [event level|i|sub|its]; simpl step.
  - eapply safe_entry_weaken; [|apply handleEvent_safe, Hinv].
    intros d' (H1 & _ & _ & Hz & _). auto.
  - apply safe_to_entry. eapply safe_weaken; [|apply timerEvent_safe, Hinv].
    intros d' (H1 & _ & _ & Hz). unfold zdp_polite. auto.
  - unfold Device_addSubDevice. destruct (Resource_item sub RAttrUniqueId); [|exact I].
    destruct (existsb _ _); simpl; (split; [|left; reflexivity]);
      [exact Hinv | eapply Inv2_frame; eauto; reflexivity].
  - simpl. split; [eapply Inv2_frame; eauto; reflexivity | left; reflexivity].
Qed.

Lemma Reach_Inv2 d : Reach DA_GetReadFunction d -> Inv2 DA_GetReadFunction d.
Proof.
  induction 1 as [env key mgd d Hnew | env x d d' Hreach IH Hstep].
  - unfold Device_new in Hnew. cbn in Hnew. injection Hnew as <-.
    unfold Inv2, Inv_rev, node_ok, timers_ok. cbn.
    split; [split; [reflexivity|]; split; [constructor | discriminate]|].
    split; [exact I|]. split; [reflexivity|].
    intros Harmed. contradiction Harmed. reflexivity.
  - pose proof (step_safe x env d IH) as Hsafe. rewrite Hstep in Hsafe.
    exact (proj1 Hsafe).
Qed.

(** In every state a device can reach no timer is armed for the binding sub
    state machine, and the timer of the poll sub state machine is armed only
    while PollNext or PollBusy is installed; so the handler [Device::timerEvent]
    calls for an expired timer is never null. *)
Theorem timers_match_handlers :
  forall (d : Device),
    Reach DA_GetReadFunction d ->
    slot (timer d) STATE_LEVEL_BINDING = None /\
    (slot (timer d) STATE_LEVEL_POLL <> None ->
     slot (state d) STATE_LEVEL_POLL = Some H_PollNext \/
     slot (state d) STATE_LEVEL_POLL = Some H_PollBusy) /\
    (forall (i : DEV_StateLevel) (env : Env),
        timerEvent DA_GetReadFunction i env d <> Crash NullHandler).
Proof.
  intros d Hreach. apply Reach_Inv2 in Hreach.
  destruct Hreach as (Hi & Hn & Ht1 & Ht2). split; [exact Ht1|]. split; [exact Ht2|].
  intros i env Hcrash.
  pose proof (timerEvent_safe i env d (conj Hi (conj Hn (conj Ht1 Ht2)))) as Hsafe.
  rewrite Hcrash in Hsafe. exact Hsafe.
Qed.

(** In every state a device can reach outside of Init and Dead the device
    has its node, and no step dereferences the node while it is null. *)
Theorem node_known_after_Init :
  forall (d : Device),
    Reach DA_GetReadFunction d ->
    (slot (state d) StateLevel0 <> Some H_Init ->
     slot (state d) StateLevel0 <> Some H_Dead -> node d <> None) /\
    (forall (x : Input) (env : Env),
        step DA_GetReadFunction x env d <> Crash NullNode).
Proof.
  intros d Hreach. apply Reach_Inv2 in Hreach. split.
  - destruct Hreach as ((Hs & _) & Hn & _). unfold node_ok in Hn. simpl.
    intros H1 H2. unfold slots_ok in Hs.
    destruct (state d) as [[h|] s1 s2]; simpl in *; [|discriminate Hs].
    destruct h; try exact Hn; try (contradiction H1; reflexivity);
      try (contradiction H2; reflexivity).
  - intros x env Hcrash. pose proof (step_safe x env d Hreach) as Hsafe.
    rewrite Hcrash in Hsafe. exact Hsafe.
Qed.

(** In every state a device can reach the queue is not empty while PollBusy
    is installed, and no step takes the last item of an empty queue. *)
Theorem queue_not_empty_when_popped :
  forall (d : Device),
    Reach DA_GetReadFunction d ->
    (slot (state d) STATE_LEVEL_POLL = Some H_PollBusy -> pollItems d <> []) /\
    (forall (x : Input) (env : Env),
        step DA_GetReadFunction x env d <> Crash EmptyVector).
Proof.
  intros d Hreach. apply Reach_Inv2 in Hreach. split.
  - destruct Hreach as ((_ & _ & Hb) & _). simpl. intros Hst Hnil.
    specialize (Hb Hst). rewrite Hnil in Hb. exact Hb.
  - intros x env Hcrash. pose proof (step_safe x env d Hreach) as Hsafe.
    rewrite Hcrash in Hsafe. exact Hsafe.
Qed.

(** No event and no timer changes the key, the managed flag or the list of
    sub-devices of a device. *)
Theorem identity_kept :
  forall (d d' : Device) (x : Input) (env : Env),
    Reach DA_GetReadFunction d ->
    (forall sub, x <> In_addSubDevice sub) ->
    step DA_GetReadFunction x env d = Ok d' ->
    same_identity d d'.
Proof.
  intros d d' x env Hreach Hx Hstep. apply Reach_Inv2 in Hreach.
  destruct x as [event level|i|sub|its]; simpl in Hstep.
  - pose proof (handleEvent_safe event level env d Hreach) as Hsafe.
    rewrite Hstep in Hsafe. apply Hsafe.
  - pose proof (timerEvent_safe i env d Hreach) as Hsafe.
    rewrite Hstep in Hsafe. apply Hsafe.
  - contradiction (Hx sub). reflexivity.
  - injection Hstep as <-. repeat split.
Qed.

(** The awake timer is restarted by an Awake event delivered at level 0, and
    by nothing else: every other event, and every timer event, leaves it as it
    is. *)
Theorem awake_restarted_by_Awake_only :
  forall (d d' : Device) (env : Env),
    Reach DA_GetReadFunction d ->
    (forall event level,
        handleEvent DA_GetReadFunction event level env d = Ok d' ->
        awake d' = if restarts_awake event level d then Some (now env) else awake d) /\
    (forall i, timerEvent DA_GetReadFunction i env d = Ok d' -> awake d' = awake d).
Proof.
  intros d d' env Hreach. apply Reach_Inv2 in Hreach. split.
  - intros event level Hstep.
    pose proof (handleEvent_safe event level env d Hreach) as Hsafe.
    rewrite Hstep in Hsafe. apply Hsafe.
  - intros i Hstep. pose proof (timerEvent_safe i env d Hreach) as Hsafe.
    rewrite Hstep in Hsafe. apply Hsafe.
Qed.

(** A device that handled an Awake event at level 0 is reachable for the
    next [MinMacPollRxOn] milliseconds, whatever its node and its Reachable
    and Sleeper items say. *)
Theorem reachable_after_Awake :
  forall (d d' : Device) (event : Event) (env env' : Env),
    Reach DA_GetReadFunction d ->
    is_what event REventAwake = true ->
    handleEvent DA_GetReadFunction event StateLevel0 env d = Ok d' ->
    now env' - now env < MinMacPollRxOn ->
    Device_reachable env' d' = true.
Proof.
  intros d d' event env env' Hreach Hev Hstep Hnow. apply Reach_Inv2 in Hreach.
  pose proof (handleEvent_safe event StateLevel0 env d Hreach) as Hsafe.
  rewrite Hstep in Hsafe. destruct Hsafe as (_ & _ & Haw & _).
  assert (Hr : restarts_awake event StateLevel0 d = true).
  { unfold restarts_awake. rewrite Hev.
    destruct Hreach as ((Hs & _) & _). unfold slots_ok in Hs.
    destruct (state d) as [[h|] s1 s2]; simpl in *; [|discriminate Hs].
    unfold is_what in *. destruct (ev_what event); try discriminate Hev; reflexivity. }
  rewrite Hr in Haw. unfold Device_reachable, Device_lastAwakeMs. rewrite Haw.
  apply Z.ltb_lt in Hnow. rewrite Hnow. reflexivity.
Qed.

(** A step sends at most one ZDP request, only when a StateEnter event is
    handled, and only to a device that is reachable at that time. *)
Theorem zdp_request_only_when_reachable :
  forall (d d' : Device) (x : Input) (env : Env),
    Reach DA_GetReadFunction d ->
    step DA_GetReadFunction x env d = Ok d' ->
    zdp_requests d' = zdp_requests d \/
    (Device_reachable env d = true /\
     (exists event level,
         x = In_handleEvent event level /\ is_what event REventStateEnter = true) /\
     exists req, zdp_requests d' = (zdp_requests d ++ [req])%list).
Proof.
  intros d d' x env Hreach Hstep. apply Reach_Inv2 in Hreach.
  destruct x as [event level|i|sub|its]; simpl in Hstep.
  - pose proof (handleEvent_safe event level env d Hreach) as Hsafe.
    rewrite Hstep in Hsafe. destruct Hsafe as (_ & _ & _ & Hz & Hq).
    destruct (is_what event REventStateEnter) eqn:Hev; [|left; exact (Hq eq_refl)].
    destruct Hz as [Hz | (Hr & req & Hz)]; [left; exact Hz|].
    right. split; [exact Hr|]. split; eauto.
  - pose proof (timerEvent_safe i env d Hreach) as Hsafe.
    rewrite Hstep in Hsafe. left. apply Hsafe.
  - unfold Device_addSubDevice in Hstep.
    destruct (Resource_item sub RAttrUniqueId); [|discriminate Hstep].
    destruct (existsb _ _); injection Hstep as <-; left; reflexivity.
  - injection Hstep as <-. left. reflexivity.
Qed.

(** *** The top level states *)

(** A verification state (NodeDescriptor, ActiveEndpoints, SimpleDescriptor,
    BasicCluster) goes back to Init on StateTimeout, on the event that answers
    its request, and on the confirm of its pending request with a status other
    than success; the answer also stops the level 0 timer and queues an Awake
    event behind the StateEnter.  On any other event but StateEnter it stays
    as it is. *)
Theorem verification_state_falls_back_to_Init :
  forall (env : Env) (d : Device) (event : Event) (h : Handler),
    is_verification_state h = true ->
    slot (state d) StateLevel0 = Some h ->
    is_what event REventStateEnter = false ->
    exists d',
      invoke DA_GetReadFunction call_depth h event env d = Ok d' /\
      slot (state d') StateLevel0 =
      Some (if is_what event REventStateTimeout || answers h event ||
               confirm_failed h d event
            then H_Init else h) /\
      slot (timer d') StateLevel0 =
      (if answers h event then None else slot (timer d) StateLevel0) /\
      trace d' =
      (trace d ++
       (if is_what event REventStateTimeout || answers h event ||
           confirm_failed h d event
        then [notified REventStateEnter 0 d] else []) ++
       (if answers h event then [notified REventAwake 0 d] else []))%list.
Proof.
  intros env d [res what id num key] h Hh Hst Hev.
  destruct_device d. destruct timer0 as [t0 t1 t2]. simpl in *. subst.
  unfold call_depth, confirm_failed, answers, pending_request, notified, is_what in *.
  destruct h; try discriminate Hh; destruct what; try discriminate Hev;
    crunch;
    (eexists; split; [reflexivity|]; cbn -[Z.mul];
     rewrite ?app_nil_r, <- ?app_assoc; repeat split; reflexivity).
Qed.

Ltac run_fetch :=
  unfold ZDP_Result_default;
  cbn -[Z.mul Z.gtb Z.geb Z.ltb Z.eqb Z.sub Z.add size_t_incr rev app
        Device_reachable needFetchEp].

(** Entering a ZDP verification state (NodeDescriptor, ActiveEndpoints,
    SimpleDescriptor): when the node already has what the state looks for,
    the next state follows and nothing is sent; else an unreachable device
    goes back to Init and nothing is sent; else one request is sent to the
    device's network address, its result is kept, and the state stays with
    the level 0 timer at MinMacPollRxOn when the request was enqueued and
    goes back to Init when it was not. *)
Theorem zdp_state_enter :
  forall (env : Env) (d : Device) (event : Event) (h : Handler) (p : NodePtr),
    is_zdp_state h = true ->
    slot (state d) StateLevel0 = Some h ->
    node d = Some p ->
    is_what event REventStateEnter = true ->
    exists d',
      invoke DA_GetReadFunction call_depth h event env d = Ok d' /\
      if zdp_verified h (node_at env p) then
        slot (state d') StateLevel0 = Some (zdp_next h) /\
        zdp_requests d' = zdp_requests d
      else if negb (Device_reachable env d) then
        slot (state d') StateLevel0 = Some H_Init /\
        zdp_requests d' = zdp_requests d
      else
        zdp_requests d' =
        (zdp_requests d ++ [fst (zdp_request h env d (node_at env p))])%list /\
        zdpResult d' = snd (zdp_request h env d (node_at env p)) /\
        if zdp_isEnqueued (zdpResult d') then
          slot (state d') StateLevel0 = Some h /\
          slot (timer d') StateLevel0 = Some MinMacPollRxOn
        else slot (state d') StateLevel0 = Some H_Init.
Proof.
  intros env d [res what id num key] h p Hh Hst Hn Hev.
  destruct_device d. destruct timer0 as [t0 t1 t2]. simpl in *. subst.
  unfold call_depth, zdp_verified, zdp_next, zdp_request, is_what in *.
  destruct what; try discriminate Hev; clear Hev.
  destruct h; try discriminate Hh; clear Hh;
    repeat (run_fetch; try break_goal);
    (eexists; split; [reflexivity|]; zdp_norm; use_eqns;
     rewrite ?filter_app; cbn -[Z.mul needFetchEp]; rewrite ?app_nil_r;
     repeat split; reflexivity).
Qed.

Ltac arith_eqns :=
  try match goal with
      | H : negb (_ =? _) = _ |- _ => vm_compute in H; discriminate H
      end.

(** Entering the BasicCluster state has one of three outcomes.  The state
    becomes GetDeviceDescription, and then manufacturer name and model id are
    both set and no request was sent; or the state stays, and then one read of
    the basic cluster was sent and enqueued and the level 0 timer runs for
    MinMacPollRxOn; or the state becomes Init, and then one of the two items
    is still not set.  When both items are set beforehand the outcome is the
    first and the items are untouched. *)
Theorem BasicCluster_enter :
  forall (env : Env) (d d' : Device) (event : Event),
    slot (state d) StateLevel0 = Some H_BasicCluster ->
    is_what event REventStateEnter = true ->
    invoke DA_GetReadFunction call_depth H_BasicCluster event env d = Ok d' ->
    ((slot (state d') StateLevel0 = Some H_GetDeviceDescription /\
      attrManufacturerName (items d') <> None /\
      attrModelId (items d') <> None /\
      trace d' = (trace d ++ [notified REventStateEnter 0 d])%list) \/
     (slot (state d') StateLevel0 = Some H_BasicCluster /\
      slot (timer d') StateLevel0 = Some MinMacPollRxOn /\
      isEnqueued (readResult d') = true /\
      exists param,
        zcl_clusterId param = 0x0000 /\
        trace d' =
        (trace d ++ [ZclReadAttributes param (attrExtAddress (items d))
                                       (attrNwkAddress (items d))])%list) \/
     (slot (state d') StateLevel0 = Some H_Init /\
      (attrManufacturerName (items d') = None \/ attrModelId (items d') = None))) /\
    (attrManufacturerName (items d) <> None ->
     attrModelId (items d) <> None ->
     slot (state d') StateLevel0 = Some H_GetDeviceDescription /\
     items d' = items d).
Proof.
  intros env d d' [res what id num key] Hst Hev.
  destruct_device d. destruct timer0 as [t0 t1 t2].
  destruct items0 as [sr sl ext nwk man mdl]. simpl in *. subst.
  unfold call_depth, notified, is_what in *.
  destruct what; try discriminate Hev; clear Hev.
  crunch; arith_eqns; intros Hok; inversion Hok; subst; clear Hok;
    cbn -[Z.mul]; (split; [|intros Hm Hi; try congruence; auto]).
  all: try solve [ left; repeat split; congruence ].
  all: try solve [ right; right; split; [reflexivity| auto] ].
  all: try solve [ right; left; split; [reflexivity|]; split; [reflexivity|];
                   split; [assumption|]; eexists; split; [|reflexivity]; reflexivity ].
Qed.

(** *** The binding sub state machine *)

Lemma BindingTableVerify_tick_more :
  forall (env : Env) (d : Device) (event : Event) (p : NodePtr),
    slot (state d) StateLevel1 = Some H_BindingTableVerify ->
    node d = Some p ->
    is_what event REventBindingTick = true ->
    0 <= bindingIter (binding d) < Z.of_nat (List.length (bindingTable (node_at env p))) ->
    Z.of_nat (List.length (bindingTable (node_at env p))) < 2 ^ 64 ->
    exists d',
      invoke DA_GetReadFunction call_depth H_BindingTableVerify event env d = Ok d' /\
      state d' = state d /\ node d' = node d /\ deviceKey d' = deviceKey d /\
      bindingIter (binding d') = bindingIter (binding d) + 1 /\
      trace d' = (trace d ++ [notified REventBindingTick 0 d])%list.
Proof.
  intros env d [res what id num key] p Hst Hn Hev Hi Hsz.
  destruct_device d. destruct binding0 as [bv bi bs]. simpl in *. subst.
  unfold call_depth, notified, is_what, deref_node in *.
  destruct what; try discriminate Hev; clear Hev.
  run_cmd.
  destruct (bi >=? _) eqn:Hge; [lia|].
  run_cmd. eexists; split; [reflexivity|]. cbn -[Z.mul size_t_incr].
  repeat split. unfold size_t_incr. apply Z.mod_small. lia.
Qed.

Lemma BindingTableVerify_tick_done :
  forall (env : Env) (d : Device) (event : Event) (p : NodePtr),
    slot (state d) StateLevel1 = Some H_BindingTableVerify ->
    node d = Some p ->
    is_what event REventBindingTick = true ->
    Z.of_nat (List.length (bindingTable (node_at env p))) <= bindingIter (binding d) ->
    exists d',
      invoke DA_GetReadFunction call_depth H_BindingTableVerify event env d = Ok d' /\
      slot (state d') StateLevel1 = Some H_Binding /\
      bindingVerify (binding d') = Some (now env) /\
      trace d' = (trace d ++ [notified REventStateEnter 1 d])%list.
Proof.
  intros env d [res what id num key] p Hst Hn Hev Hi.
  destruct_device d. destruct binding0 as [bv bi bs]. simpl in *. subst.
  unfold call_depth, notified, is_what, deref_node in *.
  destruct what; try discriminate Hev; clear Hev.
  run_cmd.
  destruct (bi >=? _) eqn:Hge; [|lia].
  run_cmd. eexists; split; [reflexivity|]. cbn -[Z.mul]. repeat split.
Qed.

(** The verification of the binding table ends: with [k] entries of the
    node's binding table still to visit, [k + 1] BindingTick events bring the
    binding sub state machine from BindingTableVerify back to Binding.  Each
    of the first [k] ticks queues the next tick, the last one stamps the time
    of the verification, so that the next Poll or Awake event does not start
    it again. *)
Theorem BindingTableVerify_completes :
  forall (env : Env) (event : Event) (p : NodePtr) (k : nat) (d : Device),
    slot (state d) StateLevel1 = Some H_BindingTableVerify ->
    node d = Some p ->
    is_what event REventBindingTick = true ->
    Z.of_nat (List.length (bindingTable (node_at env p))) < 2 ^ 64 ->
    0 <= bindingIter (binding d) ->
    bindingIter (binding d) + Z.of_nat k =
    Z.of_nat (List.length (bindingTable (node_at env p))) ->
    exists d',
      deliver DA_GetReadFunction H_BindingTableVerify event env (S k) d = Ok d' /\
      slot (state d') StateLevel1 = Some H_Binding /\
      bindingVerify (binding d') = Some (now env) /\
      binding_due env d' = false /\
      trace d' =
      (trace d ++ repeat (notified REventBindingTick 0 d) k ++
       [notified REventStateEnter 1 d])%list.
Proof.
  intros env event p k. induction k as [|k IH]; intros d Hst Hn Hev Hsz H0 Hk.
  - destruct (BindingTableVerify_tick_done env d event p Hst Hn Hev) as (d' & Hr & Hs & Hv & Ht).
    { lia. }
    exists d'. cbn [deliver]. rewrite Hr. repeat split; auto.
    unfold binding_due. rewrite Hv. rewrite Z.sub_diag. reflexivity.
  - destruct (BindingTableVerify_tick_more env d event p Hst Hn Hev)
      as (d1 & Hr & Hs1 & Hn1 & Hk1 & Hi1 & Ht1); [lia | exact Hsz |].
    destruct (IH d1) as (d' & Hr' & Hs & Hv & Hdue & Ht);
      [rewrite Hs1; exact Hst | rewrite Hn1; exact Hn | exact Hev | exact Hsz | lia | lia |].
    exists d'. change (deliver DA_GetReadFunction H_BindingTableVerify event env (S (S k)) d)
      with (match invoke DA_GetReadFunction call_depth H_BindingTableVerify event env d with
            | Ok d' => deliver DA_GetReadFunction H_BindingTableVerify event env (S k) d'
            | Crash u => Crash u
            end).
    rewrite Hr. repeat split; auto.
    rewrite Ht, Ht1. unfold notified. rewrite Hk1. cbn [repeat].
    rewrite <- !app_assoc. reflexivity.
Qed.

(** *** The poll sub state machine *)

(** PollIdle reacts to the Poll event only: it replaces the queue by the
    items that are due, and PollNext follows exactly when there is one.
    Every other event leaves the device as it is. *)
Theorem PollIdle_starts_on_Poll :
  forall (env : Env) (d : Device) (event : Event),
    slot (state d) StateLevel2 = Some H_PollIdle ->
    exists d',
      invoke DA_GetReadFunction call_depth H_PollIdle event env d = Ok d' /\
      if is_what event REventPoll then
        pollItems d' = DEV_GetPollItems env d /\
        match DEV_GetPollItems env d with
        | [] => state d' = state d /\ trace d' = trace d
        | _ :: _ =>
          slot (state d') StateLevel2 = Some H_PollNext /\
          trace d' = (trace d ++ [notified REventStateEnter 2 d])%list
        end
      else d' = d.
Proof.
  intros env d [res what id num key] Hst.
  destruct_device d. simpl in *. subst.
  unfold call_depth, notified, is_what in *.
  destruct what; crunch;
    (eexists; split; [reflexivity|]; cbn -[Z.mul DEV_GetPollItems];
     use_eqns; repeat split; reflexivity).
Qed.

(** PollNext gives up when the device is not reachable or the queue is
    empty: the queue is emptied, the poll timer is stopped, PollIdle follows
    and no read function is called. *)
Theorem PollNext_gives_up :
  forall (env : Env) (d : Device) (event : Event),
    slot (state d) StateLevel2 = Some H_PollNext ->
    is_what event REventStateEnter || is_what event REventStateTimeout = true ->
    Device_reachable env d = false \/ pollItems d = [] ->
    exists d',
      invoke DA_GetReadFunction call_depth H_PollNext event env d = Ok d' /\
      pollItems d' = [] /\
      slot (state d') StateLevel2 = Some H_PollIdle /\
      slot (timer d') StateLevel2 = None /\
      readResult d' = readResult d /\
      trace d' = (trace d ++ [notified REventStateEnter 2 d])%list.
Proof.
  intros env d [res what id num key] Hst Hev Hq.
  destruct_device d. destruct timer0 as [t0 t1 t2]. simpl in *. subst.
  unfold call_depth, notified, is_what in *.
  destruct what; try discriminate Hev; clear Hev;
    (destruct Hq as [Hr | Hq];
     [ run_cmd; rewrite Hr; run_queue
     | subst; run_queue ];
     (eexists; split; [reflexivity|]; cbn -[Z.mul]; repeat split; reflexivity)).
Qed.

(** PollBusy on StateTimeout goes back to PollNext with the poll timer
    stopped and the queue as it was: a request that was never confirmed is
    not counted as a failed attempt.  A confirm for another request id
    changes nothing. *)
Theorem PollBusy_timeout_keeps_queue :
  forall (env : Env) (d : Device) (event : Event),
    slot (state d) StateLevel2 = Some H_PollBusy ->
    (is_what event REventStateTimeout = true ->
     exists d',
       invoke DA_GetReadFunction call_depth H_PollBusy event env d = Ok d' /\
       slot (state d') StateLevel2 = Some H_PollNext /\
       slot (timer d') StateLevel2 = None /\
       pollItems d' = pollItems d /\
       trace d' = (trace d ++ [notified REventStateEnter 2 d])%list) /\
    (is_what event REventApsConfirm = true ->
     EventApsConfirmId event <> apsReqId (readResult d) ->
     invoke DA_GetReadFunction call_depth H_PollBusy event env d = Ok d).
Proof.
  intros env d [res what id num key] Hst.
  destruct_device d. destruct timer0 as [t0 t1 t2]. simpl in *. subst.
  unfold call_depth, notified, is_what in *.
  split; intros Hw; destruct what; try discriminate Hw; clear Hw.
  - destruct t2; run_cmd;
      (eexists; split; [reflexivity|]; cbn -[Z.mul]; repeat split; reflexivity).
  - intros Hid. apply Z.eqb_neq in Hid. run_cmd. rewrite Hid. reflexivity.
Qed.

(** *** Idle, Dead and Init *)

(** For an event other than Awake and Poll [DEV_CheckItemChanges] looks up
    the sub-device of the event, and fails where that lookup dereferences a
    missing item. *)
Lemma check_cases event env d :
  is_what event REventAwake || is_what event REventPoll = false ->
  match DEV_GetSubDevice (Device_subDevices env d) (ev_resource event) (ev_id event) with
  | Some _ =>
    exists fx, filter is_zdp_request fx = [] /\
               DEV_CheckItemChanges event env d = Ok (set_trace (trace d ++ fx) d)
  | None => DEV_CheckItemChanges event env d = Crash NullItem
  end.
Proof.
  intros Hev. unfold DEV_CheckItemChanges. rewrite Hev.
  destruct (DEV_GetSubDevice _ _ _) as [[sub|]|]; [| |reflexivity];
    eexists; (split; [apply check_sub_quiet | reflexivity]).
Qed.

(** DDFReload in Idle restarts the device: Init becomes the top level state,
    both sub state machines are cleared together with the poll timer, while
    the poll queue, the node and the items of the device are kept, and no
    ZDP request is sent.  The handler then looks up the sub-device of the
    event with [DEV_GetSubDevice]; it returns exactly when that lookup
    dereferences no missing item, and fails on a null item otherwise: that
    is, when a sub-device the lookup visits (before a match; one with the
    prefix of the event, or any where the event has no resource) has no
    uniqueid item, or has a unique id other than the id of the event and no
    id item. *)
Theorem Idle_DDFReload_restarts :
  forall (env : Env) (d : Device) (event : Event),
    Reach DA_GetReadFunction d ->
    slot (state d) StateLevel0 = Some H_Idle ->
    is_what event REventDDFReload = true ->
    match DEV_GetSubDevice (Device_subDevices env d) (ev_resource event) (ev_id event) with
    | Some _ =>
      exists d',
        invoke DA_GetReadFunction call_depth H_Idle event env d = Ok d' /\
        state d' = mkPerLevel (Some H_Init) None None /\
        timer d' = mkPerLevel (slot (timer d) StateLevel0) None None /\
        pollItems d' = pollItems d /\ node d' = node d /\ items d' = items d /\
        zdp_requests d' = zdp_requests d
    | None =>
      invoke DA_GetReadFunction call_depth H_Idle event env d = Crash NullItem
    end.
Proof.
  intros env d event Hreach Hst Hev.
  apply Reach_Inv2 in Hreach. destruct Hreach as ((Hs & _ & _) & _ & (Ht1 & Ht2)).
  destruct (slots_ok_idle _ Hs Hst) as (H1 & H2).
  assert (Hse : is_what event REventStateEnter = false)
    by (unfold is_what in *; destruct (ev_what event); try discriminate Hev; reflexivity).
  assert (Hsl : is_what event REventStateLeave = false)
    by (unfold is_what in *; destruct (ev_what event); try discriminate Hev; reflexivity).
  assert (Hap : is_what event REventAwake || is_what event REventPoll = false)
    by (unfold is_what in *; destruct (ev_what event); try discriminate Hev; reflexivity).
  unfold call_depth. rewrite (Idle_unfold _ _ Hse Hsl), Hev.
  unfold Device_handleEvent. rewrite Hse, Hsl.
  destruct_device d. destruct timer0 as [t0 t1 t2]. simpl in *. subst. clear Hs.
  destruct H1 as [-> | [-> | ->]]; destruct H2 as [-> | [-> | [-> | ->]]];
    try (destruct t2 as [t2|];
         [destruct Ht2 as [Ht2 | Ht2]; [discriminate | discriminate Ht2 | discriminate Ht2]|]);
    try destruct t2 as [t2|];
    run_cmd;
    match goal with
    | |- context [DEV_CheckItemChanges ?e ?en ?x] =>
      pose proof (check_cases e en x Hap) as Hcheck;
      unfold Device_subDevices in Hcheck |- *; cbn [subDevices_ids] in Hcheck |- *;
      destruct (DEV_GetSubDevice _ _ _) as [o|];
      [destruct Hcheck as (fx & Hfx & ->) | rewrite Hcheck]
    end; run_cmd; try reflexivity;
    (eexists; split; [reflexivity|]);
    (repeat (split; [reflexivity|])); zdp_norm; rewrite ?filter_app, Hfx;
    rewrite ?app_nil_r; reflexivity.
Qed.

(** A device in Dead stays as it is: no input changes its state, and it has
    no effect, as far as a run goes. *)
Theorem Dead_is_absorbing :
  forall (xs : list (Env * Input)) (d d' : Device),
    Reach DA_GetReadFunction d ->
    slot (state d) StateLevel0 = Some H_Dead ->
    run DA_GetReadFunction xs d = Ok d' ->
    state d' = mkPerLevel (Some H_Dead) None None /\ trace d' = trace d.
Proof.
  intros xs d d' Hreach Hst Hrun.
  apply Reach_Inv in Hreach. destruct Hreach as (Hs & _ & _).
  pose proof (slots_ok_dead _ Hs Hst) as Hdead.
  destruct (dead_forever xs d d' Hdead Hrun) as [H1 H2].
  split; congruence.
Qed.

(** Init with a node at hand (its own, or the one the core has for the
    device key): on Poll, Awake, a change of Reachable, LastUpdated or
    StateTimeout the device takes the node and copies its two addresses;
    NodeDescriptor follows when the node has a descriptor or the device is
    reachable, else the device stays in Init.  No request is sent.  Any
    other event but StateEnter changes nothing. *)
Theorem Init_takes_node :
  forall (env : Env) (d : Device) (event : Event) (p : NodePtr),
    slot (state d) StateLevel0 = Some H_Init ->
    is_what event REventStateEnter = false ->
    node d = Some p \/ (node d = None /\ DEV_GetCoreNode env (deviceKey d) = Some p) ->
    match invoke DA_GetReadFunction call_depth H_Init event env d with
    | Ok d' =>
      if init_progress_event event then
        node d' = Some p /\
        attrExtAddress (items d') = address_ext (node_at env p) /\
        attrNwkAddress (items d') = address_nwk (node_at env p) /\
        slot (state d') StateLevel0 =
        Some (if match nodeDescriptor (node_at env p) with
                 | Some _ => true
                 | None => false
                 end || Device_reachable env d'
              then H_NodeDescriptor else H_Init) /\
        trace d' =
        (trace d ++
         (if match nodeDescriptor (node_at env p) with
             | Some _ => true
             | None => false
             end || Device_reachable env d'
          then [notified REventStateEnter 0 d] else []))%list
      else d' = d
    | Crash _ => False
    end.
Proof.
  intros env d [res what id num key] p Hst Hev Hnode.
  destruct_device d. destruct items0 as [sr sl ext nwk man mdl]. simpl in *. subst.
  unfold call_depth, notified, init_progress_event, is_what in *.
  destruct Hnode as [-> | [-> Hcore]];
    destruct what; try discriminate Hev; clear Hev;
    run_cmd; rewrite ?Hcore; run_cmd; try reflexivity;
    unfold Device_reachable, Device_lastAwakeMs, deref_node;
    repeat (cbn -[Z.mul Z.ltb Z.sub Z.land Z.eqb]; try break_goal);
    try congruence;
    rewrite ?app_nil_r; repeat split; reflexivity.
Qed.

End Properties.

(** ** The properties on the scenarios *)

Lemma reach_s1_new : Reach sample_read_function dev_s1_new.
Proof. apply (Reach_new _ sample_env key_s1 true). vm_compute. reflexivity. Qed.

Lemma reach_description : Reach sample_read_function dev_description.
Proof.
  apply (Reach_run _ inputs_to_description dev_s1_new); [exact reach_s1_new|].
  vm_compute. reflexivity.
Qed.

Lemma reach_idle_pending : Reach sample_read_function dev_idle_pending.
Proof.
  apply (Reach_run _ inputs_to_idle dev_description); [exact reach_description|].
  vm_compute. reflexivity.
Qed.

Lemma reach_polling : Reach sample_read_function dev_polling.
Proof.
  apply (Reach_run _ inputs_to_polling dev_idle_pending); [exact reach_idle_pending|].
  vm_compute. reflexivity.
Qed.

Lemma reach_busy : Reach sample_read_function dev_busy.
Proof.
  apply (Reach_run _ inputs_to_busy dev_polling); [exact reach_polling|].
  vm_compute. reflexivity.
Qed.

Lemma reach_coordinator_new : Reach sample_read_function dev_coordinator_new.
Proof. apply (Reach_new _ sample_env key_coordinator true). vm_compute. reflexivity. Qed.

(** Scenario S1: the device reaches Idle, and its sub state machines start
    with the next Poll. *)
Example scenario_S1 :
  slot (state dev_idle_pending) StateLevel0 = Some H_Idle /\
  state dev_polling =
  mkPerLevel (Some H_Idle) (Some H_BindingTableVerify) (Some H_PollNext) /\
  map item (pollItems dev_polling) =
  [ROther "state/on"; RAttrModelId; RAttrManufacturerName].
Proof. repeat split; reflexivity. Qed.

(** Scenario S4: the third failed attempt takes the item off the queue; the
    timer PollNext arms brings it back to PollIdle. *)
Example scenario_S4 :
  exists d3 d4,
    run sample_read_function inputs_three_attempts dev_single_item = Ok d3 /\
    pollItems d3 = [] /\
    slot (state d3) STATE_LEVEL_POLL = Some H_PollNext /\
    slot (timer d3) STATE_LEVEL_POLL = Some MinMacPollRxOn /\
    timerEvent sample_read_function StateLevel2 sample_env_refusing d3 = Ok d4 /\
    slot (state d4) STATE_LEVEL_POLL = Some H_PollIdle.
Proof.
  do 2 eexists.
  split; [vm_compute; reflexivity|].
  split; [reflexivity|]. split; [reflexivity|]. split; [reflexivity|].
  split; [vm_compute; reflexivity | reflexivity].
Qed.

(** Scenario S5: the confirm with status 0x00 pops the item; when the read
    of the next item times out the item stays queued. *)
Example scenario_S5 :
  exists d',
    run sample_read_function inputs_read_times_out dev_confirmed = Ok d' /\
    pollItems d' = pollItems dev_confirmed /\
    slot (state d') STATE_LEVEL_POLL = Some H_PollNext.
Proof.
  eexists. split; [vm_compute; reflexivity|].
  split; reflexivity.
Qed.

(** C1 on scenario S1: the device while it polls. *)
Lemma slots_invariant_witness :
  Reach sample_read_function dev_polling /\
  ((exists h0, slot (state dev_polling) StateLevel0 = Some h0 /\
               level0_handler h0 = true) /\
   (slot (state dev_polling) StateLevel1 <> None \/
    slot (state dev_polling) StateLevel2 <> None ->
    slot (state dev_polling) StateLevel0 = Some H_Idle) /\
   (forall (env : Env) (event : Event),
       slot (state dev_polling) StateLevel0 = Some H_Idle ->
       is_what event REventStateEnter = true ->
       exists d',
         invoke sample_read_function call_depth H_Idle event env dev_polling = Ok d' /\
         state d' = mkPerLevel (Some H_Idle) (Some H_Binding) (Some H_PollIdle))).
Proof.
  split; [exact reach_polling|].
  apply (slots_invariant sample_read_function dev_polling). exact reach_polling.
Defined.

(** C1 as stated fails between [setState] installing Idle and Idle handling
    its StateEnter: after the DDF matched, Idle is the level 0 handler of the
    device of scenario S1 and the slots of level 1 and 2 are empty. *)
Lemma slots_iff_idle_counterexample :
  ~ (forall d : Device,
        Reach sample_read_function d ->
        (slot (state d) StateLevel1 <> None /\ slot (state d) StateLevel2 <> None
         <-> slot (state d) StateLevel0 = Some H_Idle)).
Proof.
  intros Hclaim.
  destruct (Hclaim dev_idle_pending reach_idle_pending) as [_ Hinstalled].
  destruct (Hinstalled eq_refl) as [Hlevel1 _].
  apply Hlevel1. reflexivity.
Qed.

(** C2 on scenario S5: the confirm with status 0x00 of the read with request
    id 42 takes the model id off the queue. *)
Lemma poll_queue_retry_and_removal_witness :
  Reach sample_read_function dev_busy /\
  slot (state dev_busy) STATE_LEVEL_POLL = Some H_PollBusy /\
  invoke sample_read_function call_depth H_PollBusy
         (sample_event REventApsConfirm (42 * 256) key_s1) sample_env dev_busy =
  Ok dev_confirmed /\
  Forall (fun p => 0 <= retry p < MaxPollItemRetries) (pollItems dev_confirmed) /\
  kept_items (pollItems dev_busy) (pollItems dev_confirmed) /\
  (exists p, pollItems dev_busy = (pollItems dev_confirmed ++ [p])%list).
Proof.
  assert (Hrun : invoke sample_read_function call_depth H_PollBusy
                        (sample_event REventApsConfirm (42 * 256) key_s1)
                        sample_env dev_busy = Ok dev_confirmed)
    by (vm_compute; reflexivity).
  destruct (poll_queue_retry_and_removal sample_read_function sample_env dev_busy
              (sample_event REventApsConfirm (42 * 256) key_s1) H_PollBusy
              dev_confirmed reach_busy eq_refl (or_intror eq_refl) Hrun)
    as (Hbound & Hkept & Hsuccess & _).
  repeat split; try assumption; try exact reach_busy.
  apply Hsuccess; reflexivity.
Defined.

(** C2 as stated fails: PollNext takes the manufacturer name, for which there
    is no read function, off the queue of scenario S1, though no read of it
    was confirmed and its retry count, 0, is below the cap. *)
Lemma removed_without_success_or_cap_counterexample :
  invoke sample_read_function call_depth H_PollNext
         (sample_event REventStateEnter 2 key_s1) sample_env dev_polling =
  Ok dev_after_discard /\
  exists p,
    pollItems dev_polling = (pollItems dev_after_discard ++ [p])%list /\
    item p = RAttrManufacturerName /\
    retry p = 0 /\ retry p < MaxPollItemRetries /\
    is_what (sample_event REventStateEnter 2 key_s1) REventApsConfirm = false.
Proof.
  split; [vm_compute; reflexivity|].
  eexists. split; [vm_compute; reflexivity|].
  repeat split; reflexivity.
Qed.

(** C4: a Poll one minute after the verification changes nothing; a
    BindingTable event after a binding table of two entries was verified
    resets bindingIter from 2 to 0 and queues the tick. *)
Lemma BindingHandler_transitions_witness :
  slot (state dev_busy) STATE_LEVEL_BINDING = Some H_Binding /\
  (exists d',
      invoke sample_read_function call_depth H_Binding
             (sample_event REventPoll 0 key_s1) sample_env_later dev_busy = Ok d' /\
      slot (state d') STATE_LEVEL_BINDING = Some H_Binding) /\
  slot (state dev_bound_verified) STATE_LEVEL_BINDING = Some H_Binding /\
  bindingIter (binding dev_bound_verified) = 2 /\
  binding_due sample_env_later dev_bound_verified = false /\
  exists d',
    invoke sample_read_function call_depth H_Binding
           (sample_event REventBindingTable ZdpSuccess key_s1) sample_env_later
           dev_bound_verified = Ok d' /\
    slot (state d') STATE_LEVEL_BINDING = Some H_BindingTableVerify /\
    mgmtBindSupported (binding d') = true /\
    bindingIter (binding d') = 0 /\
    trace d' =
    (trace dev_bound_verified ++
     [notified REventStateEnter 1 dev_bound_verified;
      notified REventBindingTick 0 dev_bound_verified])%list.
Proof.
  split; [reflexivity|]. split; [|split; [reflexivity|split; [reflexivity|split;
    [reflexivity|]]]].
  - destruct (BindingHandler_transitions sample_read_function sample_env_later dev_busy
                (sample_event REventPoll 0 key_s1) eq_refl)
      as (d' & Hrun & Hstate & _).
    exists d'. split; [exact Hrun | exact Hstate].
  - destruct (BindingHandler_transitions sample_read_function sample_env_later
                dev_bound_verified
                (sample_event REventBindingTable ZdpSuccess key_s1) eq_refl)
      as (d' & Hrun & Hstate & Hmgmt & _ & Hiter & _ & Htrace).
    exists d'. split; [exact Hrun|]. split; [exact Hstate|]. split; [exact Hmgmt|].
    split; [exact Hiter | exact Htrace].
Defined.

(** C4 as stated fails: one minute after the binding table of the device of
    scenario S1 was verified, a BindingTable event makes the Binding handler
    move to BindingTableVerify again. *)
Lemma BindingTable_event_transitions_counterexample :
  slot (state dev_busy) STATE_LEVEL_BINDING = Some H_Binding /\
  bindingVerify (binding dev_busy) = Some (now sample_env_later - 60000) /\
  binding_due sample_env_later dev_busy = false /\
  invoke sample_read_function call_depth H_Binding
         (sample_event REventBindingTable ZdpSuccess key_s1)
         sample_env_later dev_busy = Ok dev_reverify /\
  slot (state dev_reverify) STATE_LEVEL_BINDING = Some H_BindingTableVerify.
Proof. repeat split; vm_compute; reflexivity. Qed.

(** C5 on scenario S1: the manufacturer name has no read function. *)
Lemma PollNext_discards_item_witness :
  Reach sample_read_function dev_polling /\
  Device_reachable sample_env dev_polling = true /\
  pollItems dev_polling = (items_in_front ++ [item_manufacturer])%list /\
  sample_read_function (readParameters item_manufacturer) = None /\
  exists d',
    invoke sample_read_function call_depth H_PollNext
           (sample_event REventStateEnter 2 key_s1) sample_env dev_polling = Ok d' /\
    pollItems d' = items_in_front /\
    slot (state d') STATE_LEVEL_POLL = Some H_PollNext.
Proof.
  split; [exact reach_polling|].
  split; [vm_compute; reflexivity|].
  split; [vm_compute; reflexivity|].
  split; [vm_compute; reflexivity|].
  apply (PollNext_discards_item_without_read_function sample_read_function
           sample_env dev_polling (sample_event REventStateEnter 2 key_s1)
           items_in_front item_manufacturer);
    try exact reach_polling; vm_compute; reflexivity.
Defined.

(** C6: Poll makes a Green Power device without node Dead. *)
Lemma Init_green_power_dead_witness :
  slot (state dev_green_power_new) StateLevel0 = Some H_Init /\
  node dev_green_power_new = None /\
  DEV_GetCoreNode sample_env (deviceKey dev_green_power_new) = None /\
  exists d',
    invoke sample_read_function call_depth H_Init
           (sample_event REventPoll 0 key_green_power) sample_env
           dev_green_power_new = Ok d' /\
    slot (state d') StateLevel0 = Some H_Dead.
Proof.
  split; [reflexivity|]. split; [reflexivity|]. split; [reflexivity|].
  destruct (Init_green_power_dead sample_read_function sample_env dev_green_power_new
              (sample_event REventPoll 0 key_green_power)
              eq_refl eq_refl eq_refl eq_refl eq_refl)
    as (d' & Hrun & Hdead & _).
  exists d'. split; [exact Hrun | exact (Hdead eq_refl)].
Defined.

(** C6 as stated fails: StateEnter leaves a Green Power device without node
    in Init. *)
Lemma Init_green_power_StateEnter_counterexample :
  slot (state dev_green_power_new) StateLevel0 = Some H_Init /\
  node dev_green_power_new = None /\
  DEV_GetCoreNode sample_env (deviceKey dev_green_power_new) = None /\
  Z.land (deviceKey dev_green_power_new) 0xffffffff00000000 = 0 /\
  exists d',
    invoke sample_read_function call_depth H_Init
           (sample_event REventStateEnter 0 key_green_power) sample_env
           dev_green_power_new = Ok d' /\
    slot (state d') StateLevel0 = Some H_Init /\
    slot (state d') StateLevel0 <> Some H_Dead.
Proof.
  repeat split; try reflexivity.
  eexists. split; [vm_compute; reflexivity|].
  split; [reflexivity | discriminate].
Qed.

(** C7 on scenario S3. *)
Lemma Init_coordinator_dead_witness :
  Reach sample_read_function dev_coordinator_new /\
  DEV_GetCoreNode sample_env (deviceKey dev_coordinator_new) = Some 2 /\
  address_nwk (node_at sample_env 2) = 0x0000 /\
  exists d',
    invoke sample_read_function call_depth H_Init
           (sample_event REventStateEnter 0 key_coordinator) sample_env
           dev_coordinator_new = Ok d' /\
    slot (state d') StateLevel0 = Some H_Dead /\
    zdp_requests d' = zdp_requests dev_coordinator_new /\
    forall (xs : list (Env * Input)) (d'' : Device),
      run sample_read_function xs d' = Ok d'' ->
      slot (state d'') StateLevel0 = Some H_Dead /\
      zdp_requests d'' = zdp_requests dev_coordinator_new.
Proof.
  split; [exact reach_coordinator_new|].
  split; [reflexivity|]. split; [reflexivity|].
  apply (Init_coordinator_dead sample_read_function sample_env dev_coordinator_new
           (sample_event REventStateEnter 0 key_coordinator) 2);
    try exact reach_coordinator_new; reflexivity.
Defined.

(** C7 as stated fails: a coordinator whose key does not have all bits of
    0x00212E0000000000 set stays in Init on StateEnter, and once awake it is
    sent a Node_Descriptor_req. *)
Lemma other_coordinator_counterexample :
  DEV_GetCoreNode sample_env key_other_coordinator = Some 3 /\
  address_nwk (node_at sample_env 3) = 0x0000 /\
  invoke sample_read_function call_depth H_Init
         (sample_event REventStateEnter 0 key_other_coordinator) sample_env
         dev_other_coordinator_new = Ok dev_other_coordinator_new /\
  slot (state dev_other_coordinator_new) StateLevel0 = Some H_Init /\
  run sample_read_function inputs_other_coordinator dev_other_coordinator_new =
  Ok dev_other_coordinator_asked /\
  zdp_requests dev_other_coordinator_asked = [ZdpNodeDescriptorReq 0x0000].
Proof. repeat split; vm_compute; reflexivity. Qed.

(** C8: installing Init again in a new device. *)
Lemma setState_same_handler_noop_witness :
  slot (state dev_s1_new) StateLevel0 = Some H_Init /\
  setState (invoke sample_read_function call_depth) (Some H_Init) StateLevel0
           sample_env dev_s1_new = Ok dev_s1_new.
Proof.
  split; [reflexivity|].
  apply (setState_same_handler_noop (invoke sample_read_function call_depth)
           (Some H_Init) StateLevel0 sample_env dev_s1_new).
  reflexivity.
Defined.

(** C9 on scenarios S1 and S6. *)
Lemma GetDeviceDescription_transitions_witness :
  slot (state dev_description) StateLevel0 = Some H_GetDeviceDescription /\
  (exists d',
      invoke sample_read_function call_depth H_GetDeviceDescription
             (sample_event REventDDFInitResponse 1 key_s1) sample_env
             dev_description = Ok d' /\
      slot (state d') StateLevel0 = Some H_Idle) /\
  (exists d',
      invoke sample_read_function call_depth H_GetDeviceDescription
             (sample_event REventDDFInitResponse 0 key_s1) sample_env
             dev_description = Ok d' /\
      slot (state d') StateLevel0 = Some H_Dead).
Proof.
  split; [reflexivity|]. split.
  - exact (GetDeviceDescription_transitions sample_read_function sample_env
             dev_description (sample_event REventDDFInitResponse 1 key_s1) eq_refl).
  - exact (GetDeviceDescription_transitions sample_read_function sample_env
             dev_description (sample_event REventDDFInitResponse 0 key_s1) eq_refl).
Defined.

(** ** The further properties on the scenarios *)

Lemma reach_other_coordinator_awake :
  Reach sample_read_function dev_other_coordinator_awake.
Proof.
  apply (Reach_run _ inputs_other_coordinator_awake dev_other_coordinator_new).
  - apply (Reach_new _ sample_env key_other_coordinator true). vm_compute. reflexivity.
  - vm_compute. reflexivity.
Qed.

Lemma reach_coordinator_dead : Reach sample_read_function dev_coordinator_dead.
Proof.
  apply (Reach_run _ inputs_coordinator_dead dev_coordinator_new);
    [exact reach_coordinator_new|].
  vm_compute. reflexivity.
Qed.

Lemma reach_after_discard : Reach sample_read_function dev_after_discard.
Proof.
  apply (Reach_run _ [input_s1 REventStateEnter 2] dev_polling); [exact reach_polling|].
  vm_compute. reflexivity.
Qed.

Lemma devices_sample_unique : NoDup (keys_of devices_sample).
Proof.
  repeat constructor; simpl; intros H; repeat destruct H as [H|H];
    try discriminate H; exact H.
Qed.

(** The registry of two devices keeps one device per key. *)
Lemma registry_keys_unique_witness :
  NoDup (keys_of devices_sample) /\
  (forall devices' d,
      DEV_GetOrCreateDevice sample_env true devices_sample key_green_power =
      Ok (devices', d) ->
      NoDup (keys_of devices')) /\
  NoDup (keys_of (fst (DEV_RemoveDevice devices_sample key_green_power))).
Proof.
  split; [exact devices_sample_unique|].
  apply (registry_keys_unique sample_env true devices_sample key_green_power).
  exact devices_sample_unique.
Defined.

(** Removing the device of scenario S1 leaves the coordinator. *)
Lemma RemoveDevice_then_get_witness :
  NoDup (keys_of devices_sample) /\
  DEV_GetDevice (fst (DEV_RemoveDevice devices_sample key_s1)) key_s1 = None /\
  (forall key', key' <> key_s1 ->
      DEV_GetDevice (fst (DEV_RemoveDevice devices_sample key_s1)) key' =
      DEV_GetDevice devices_sample key').
Proof.
  split; [exact devices_sample_unique|].
  apply (RemoveDevice_then_get devices_sample key_s1).
  exact devices_sample_unique.
Defined.

(** The light of scenario S1 is added to the new device, and gets the
    device as its parent. *)
Lemma addSubDevice_registers_once_witness :
  Resource_item light_s1 RAttrUniqueId = Some uniqueid_s1 /\
  NoDup (map fst (subDevices_ids dev_s1_new)) /\
  r_parent light_s1 = None /\
  exists d' sub',
    Device_addSubDevice light_s1 sample_env dev_s1_new = Ok (d', sub') /\
    r_parent sub' = Some (deviceKey dev_s1_new) /\
    r_ref sub' = r_ref light_s1 /\ r_items sub' = r_items light_s1 /\
    r_stateChanges sub' = r_stateChanges light_s1 /\
    NoDup (map fst (subDevices_ids d')) /\
    In (ri_value uniqueid_s1) (map fst (subDevices_ids d')) /\
    Device_addSubDevice light_s1 sample_env d' = Ok (d', sub') /\
    Device_addSubDevice sub' sample_env d' = Ok (d', sub') /\
    set_subDevices_ids (subDevices_ids dev_s1_new) d' = dev_s1_new.
Proof.
  split; [reflexivity|]. split; [constructor|]. split; [reflexivity|].
  apply (addSubDevice_registers_once light_s1 uniqueid_s1 sample_env dev_s1_new).
  - reflexivity.
  - constructor.
Defined.


(** The light of scenario S1 is found by its unique id. *)
Lemma GetSubDevice_sound_witness :
  DEV_GetSubDevice [light_s1] (Some "/lights"%string) (ri_value uniqueid_s1) =
  Some (Some light_s1) /\
  In light_s1 [light_s1] /\
  (forall p, Some "/lights"%string = Some p -> r_prefix light_s1 = p) /\
  ((exists u, Resource_item light_s1 RAttrUniqueId = Some u /\
              ri_value u = ri_value uniqueid_s1) \/
   (exists i, Resource_item light_s1 RAttrId = Some i /\
              ri_value i = ri_value uniqueid_s1)).
Proof.
  split; [reflexivity|].
  apply (GetSubDevice_sound [light_s1] (Some "/lights"%string) (ri_value uniqueid_s1)
           light_s1).
  reflexivity.
Defined.

(** PollNext has dropped the item without read function and armed the poll
    timer to try the next one: the timer of the poll sub state machine runs
    while PollNext is installed, and when it expires PollNext is called. *)
Lemma timers_match_handlers_witness :
  Reach sample_read_function dev_after_discard /\
  slot (timer dev_after_discard) STATE_LEVEL_POLL = Some MinMacPollRxOn /\
  slot (state dev_after_discard) STATE_LEVEL_POLL = Some H_PollNext /\
  slot (timer dev_after_discard) STATE_LEVEL_BINDING = None /\
  (slot (timer dev_after_discard) STATE_LEVEL_POLL <> None ->
   slot (state dev_after_discard) STATE_LEVEL_POLL = Some H_PollNext \/
   slot (state dev_after_discard) STATE_LEVEL_POLL = Some H_PollBusy) /\
  (forall (i : DEV_StateLevel) (env : Env),
      timerEvent sample_read_function i env dev_after_discard <> Crash NullHandler).
Proof.
  split; [exact reach_after_discard|].
  split; [reflexivity|]. split; [reflexivity|].
  apply (timers_match_handlers sample_read_function dev_after_discard).
  exact reach_after_discard.
Defined.

Lemma node_known_after_Init_witness :
  Reach sample_read_function dev_busy /\
  (slot (state dev_busy) StateLevel0 <> Some H_Init ->
   slot (state dev_busy) StateLevel0 <> Some H_Dead -> node dev_busy <> None) /\
  (forall (x : Input) (env : Env),
      step sample_read_function x env dev_busy <> Crash NullNode).
Proof.
  split; [exact reach_busy|].
  apply (node_known_after_Init sample_read_function dev_busy). exact reach_busy.
Defined.

Lemma queue_not_empty_when_popped_witness :
  Reach sample_read_function dev_busy /\
  (slot (state dev_busy) STATE_LEVEL_POLL = Some H_PollBusy -> pollItems dev_busy <> []) /\
  (forall (x : Input) (env : Env),
      step sample_read_function x env dev_busy <> Crash EmptyVector).
Proof.
  split; [exact reach_busy|].
  apply (queue_not_empty_when_popped sample_read_function dev_busy). exact reach_busy.
Defined.

(** PollNext dropping an item leaves the identity of the device alone. *)
Lemma identity_kept_witness :
  Reach sample_read_function dev_polling /\
  step sample_read_function
       (In_handleEvent (sample_event REventStateEnter 2 key_s1) StateLevel0)
       sample_env dev_polling = Ok dev_after_discard /\
  same_identity dev_polling dev_after_discard.
Proof.
  split; [exact reach_polling|]. split; [vm_compute; reflexivity|].
  apply (identity_kept sample_read_function dev_polling dev_after_discard
           (In_handleEvent (sample_event REventStateEnter 2 key_s1) StateLevel0)
           sample_env).
  - exact reach_polling.
  - intros sub H. discriminate H.
  - vm_compute. reflexivity.
Defined.

(** The Awake event restarts the awake timer of the busy device. *)
Lemma awake_restarted_by_Awake_only_witness :
  Reach sample_read_function dev_busy /\
  handleEvent sample_read_function (sample_event REventAwake 0 key_s1) StateLevel0
              sample_env dev_busy = Ok dev_awake /\
  awake dev_awake = Some (now sample_env).
Proof.
  split; [exact reach_busy|]. split; [vm_compute; reflexivity|].
  apply (proj1 (awake_restarted_by_Awake_only sample_read_function dev_busy dev_awake
                  sample_env reach_busy)
               (sample_event REventAwake 0 key_s1) StateLevel0).
  vm_compute. reflexivity.
Defined.

(** Five seconds after the Awake event the device is reachable. *)
Lemma reachable_after_Awake_witness :
  Reach sample_read_function dev_busy /\
  handleEvent sample_read_function (sample_event REventAwake 0 key_s1) StateLevel0
              sample_env dev_busy = Ok dev_awake /\
  now sample_env_soon - now sample_env < MinMacPollRxOn /\
  Device_reachable sample_env_soon dev_awake = true.
Proof.
  split; [exact reach_busy|]. split; [vm_compute; reflexivity|].
  split; [vm_compute; reflexivity|].
  apply (reachable_after_Awake sample_read_function dev_busy dev_awake
           (sample_event REventAwake 0 key_s1) sample_env sample_env_soon).
  - exact reach_busy.
  - reflexivity.
  - vm_compute. reflexivity.
  - vm_compute. reflexivity.
Defined.

(** The awake coordinator with the other vendor prefix is sent one
    Node_Descriptor_req when NodeDescriptor enters. *)
Lemma zdp_request_only_when_reachable_witness :
  Reach sample_read_function dev_other_coordinator_awake /\
  step sample_read_function input_other_coordinator_enter sample_env
       dev_other_coordinator_awake = Ok dev_other_coordinator_asked /\
  (zdp_requests dev_other_coordinator_asked = zdp_requests dev_other_coordinator_awake \/
   (Device_reachable sample_env dev_other_coordinator_awake = true /\
    (exists event level,
        input_other_coordinator_enter = In_handleEvent event level /\
        is_what event REventStateEnter = true) /\
    exists req,
      zdp_requests dev_other_coordinator_asked =
      (zdp_requests dev_other_coordinator_awake ++ [req])%list)).
Proof.
  split; [exact reach_other_coordinator_awake|]. split; [vm_compute; reflexivity|].
  apply (zdp_request_only_when_reachable sample_read_function
           dev_other_coordinator_awake dev_other_coordinator_asked
           input_other_coordinator_enter sample_env).
  - exact reach_other_coordinator_awake.
  - vm_compute. reflexivity.
Defined.

(** The node descriptor arrives while the device of scenario S1 is in
    NodeDescriptor: Init follows and an Awake event is queued. *)
Lemma verification_state_falls_back_to_Init_witness :
  slot (state dev_node_descriptor) StateLevel0 = Some H_NodeDescriptor /\
  exists d',
    invoke sample_read_function call_depth H_NodeDescriptor
           (sample_event REventNodeDescriptor 0 key_s1) sample_env
           dev_node_descriptor = Ok d' /\
    slot (state d') StateLevel0 = Some H_Init /\
    slot (timer d') StateLevel0 = None /\
    trace d' =
    (trace dev_node_descriptor ++
     [notified REventStateEnter 0 dev_node_descriptor] ++
     [notified REventAwake 0 dev_node_descriptor])%list.
Proof.
  split; [reflexivity|].
  apply (verification_state_falls_back_to_Init sample_read_function sample_env
           dev_node_descriptor (sample_event REventNodeDescriptor 0 key_s1)
           H_NodeDescriptor); reflexivity.
Defined.

(** NodeDescriptor enters for the awake coordinator with the other vendor
    prefix, whose node descriptor is not known. *)
Lemma zdp_state_enter_witness :
  slot (state dev_other_coordinator_awake) StateLevel0 = Some H_NodeDescriptor /\
  node dev_other_coordinator_awake = Some 3 /\
  zdp_verified H_NodeDescriptor (node_at sample_env 3) = false /\
  Device_reachable sample_env dev_other_coordinator_awake = true /\
  exists d',
    invoke sample_read_function call_depth H_NodeDescriptor
           (sample_event REventStateEnter 0 key_other_coordinator) sample_env
           dev_other_coordinator_awake = Ok d' /\
    zdp_requests d' =
    (zdp_requests dev_other_coordinator_awake ++ [ZdpNodeDescriptorReq 0x0000])%list /\
    zdpResult d' = mkZDP_Result true 1 1 /\
    if zdp_isEnqueued (zdpResult d') then
      slot (state d') StateLevel0 = Some H_NodeDescriptor /\
      slot (timer d') StateLevel0 = Some MinMacPollRxOn
    else slot (state d') StateLevel0 = Some H_Init.
Proof.
  split; [reflexivity|]. split; [reflexivity|]. split; [reflexivity|].
  split; [vm_compute; reflexivity|].
  apply (zdp_state_enter sample_read_function sample_env dev_other_coordinator_awake
           (sample_event REventStateEnter 0 key_other_coordinator)
           H_NodeDescriptor 3); reflexivity.
Defined.

(** BasicCluster enters for the device of scenario S1 and takes both names
    from the light. *)
Lemma BasicCluster_enter_witness :
  slot (state dev_basic_cluster) StateLevel0 = Some H_BasicCluster /\
  invoke sample_read_function call_depth H_BasicCluster
         (sample_event REventStateEnter 0 key_s1) sample_env dev_basic_cluster =
  Ok dev_description /\
  slot (state dev_description) StateLevel0 = Some H_GetDeviceDescription /\
  attrManufacturerName (items dev_description) = Some "Acme"%string /\
  attrModelId (items dev_description) = Some "X"%string /\
  (attrManufacturerName (items dev_basic_cluster) <> None ->
   attrModelId (items dev_basic_cluster) <> None ->
   slot (state dev_description) StateLevel0 = Some H_GetDeviceDescription /\
   items dev_description = items dev_basic_cluster).
Proof.
  split; [reflexivity|]. split; [vm_compute; reflexivity|].
  split; [reflexivity|]. split; [reflexivity|]. split; [reflexivity|].
  apply (BasicCluster_enter sample_read_function sample_env dev_basic_cluster
           dev_description (sample_event REventStateEnter 0 key_s1)).
  - reflexivity.
  - reflexivity.
  - vm_compute. reflexivity.
Defined.

(** With two bindings on the node, three ticks end the verification. *)
Lemma BindingTableVerify_completes_witness :
  slot (state dev_polling) StateLevel1 = Some H_BindingTableVerify /\
  node dev_polling = Some 1 /\
  List.length (bindingTable (node_at sample_env_bound 1)) = 2%nat /\
  bindingIter (binding dev_polling) = 0 /\
  exists d',
    deliver sample_read_function H_BindingTableVerify
            (sample_event REventBindingTick 0 key_s1) sample_env_bound 3 dev_polling =
    Ok d' /\
    slot (state d') StateLevel1 = Some H_Binding /\
    bindingVerify (binding d') = Some (now sample_env_bound) /\
    binding_due sample_env_bound d' = false /\
    trace d' =
    (trace dev_polling ++ repeat (notified REventBindingTick 0 dev_polling) 2 ++
     [notified REventStateEnter 1 dev_polling])%list.
Proof.
  split; [reflexivity|]. split; [reflexivity|]. split; [reflexivity|].
  split; [reflexivity|].
  apply (BindingTableVerify_completes sample_read_function sample_env_bound
           (sample_event REventBindingTick 0 key_s1) 1 2 dev_polling);
    vm_compute; first [reflexivity | discriminate].
Defined.

(** Poll in PollIdle queues the three items that are due. *)
Lemma PollIdle_starts_on_Poll_witness :
  slot (state dev_poll_idle) StateLevel2 = Some H_PollIdle /\
  exists d',
    invoke sample_read_function call_depth H_PollIdle
           (sample_event REventPoll 0 key_s1) sample_env dev_poll_idle = Ok d' /\
    pollItems d' = DEV_GetPollItems sample_env dev_poll_idle /\
    slot (state d') StateLevel2 = Some H_PollNext /\
    trace d' = (trace dev_poll_idle ++ [notified REventStateEnter 2 dev_poll_idle])%list.
Proof.
  split; [reflexivity|].
  apply (PollIdle_starts_on_Poll sample_read_function sample_env dev_poll_idle
           (sample_event REventPoll 0 key_s1)).
  reflexivity.
Defined.

(** PollNext with an empty queue goes back to PollIdle. *)
Lemma PollNext_gives_up_witness :
  slot (state dev_queue_empty) StateLevel2 = Some H_PollNext /\
  pollItems dev_queue_empty = [] /\
  exists d',
    invoke sample_read_function call_depth H_PollNext
           (sample_event REventStateEnter 2 key_s1) sample_env dev_queue_empty = Ok d' /\
    pollItems d' = [] /\
    slot (state d') StateLevel2 = Some H_PollIdle /\
    slot (timer d') StateLevel2 = None /\
    readResult d' = readResult dev_queue_empty /\
    trace d' = (trace dev_queue_empty ++ [notified REventStateEnter 2 dev_queue_empty])%list.
Proof.
  split; [reflexivity|]. split; [reflexivity|].
  apply (PollNext_gives_up sample_read_function sample_env dev_queue_empty
           (sample_event REventStateEnter 2 key_s1)).
  - reflexivity.
  - reflexivity.
  - right. reflexivity.
Defined.

(** Scenario S5: the confirm does not arrive and PollBusy times out. *)
Lemma PollBusy_timeout_keeps_queue_witness :
  slot (state dev_busy) StateLevel2 = Some H_PollBusy /\
  exists d',
    invoke sample_read_function call_depth H_PollBusy
           (sample_event REventStateTimeout 2 key_s1) sample_env dev_busy = Ok d' /\
    slot (state d') StateLevel2 = Some H_PollNext /\
    slot (timer d') StateLevel2 = None /\
    pollItems d' = pollItems dev_busy /\
    trace d' = (trace dev_busy ++ [notified REventStateEnter 2 dev_busy])%list.
Proof.
  split; [reflexivity|].
  apply (proj1 (PollBusy_timeout_keeps_queue sample_read_function sample_env dev_busy
                  (sample_event REventStateTimeout 2 key_s1) eq_refl)).
  reflexivity.
Defined.

(** DDFReload while the device of scenario S1 is busy polling.  An event for
    the device itself restarts it; an event that names the lights makes the
    lookup of the sub-device ask the light for its id item, which it does
    not have. *)
Lemma Idle_DDFReload_restarts_witness :
  Reach sample_read_function dev_busy /\
  slot (state dev_busy) StateLevel0 = Some H_Idle /\
  (exists d',
      invoke sample_read_function call_depth H_Idle
             (sample_event REventDDFReload 0 key_s1) sample_env dev_busy = Ok d' /\
      state d' = mkPerLevel (Some H_Init) None None /\
      timer d' = mkPerLevel (slot (timer dev_busy) StateLevel0) None None /\
      pollItems d' = pollItems dev_busy /\ node d' = node dev_busy /\
      items d' = items dev_busy /\
      zdp_requests d' = zdp_requests dev_busy) /\
  Resource_item light_s1 RAttrUniqueId <> None /\
  Resource_item light_s1 RAttrId = None /\
  invoke sample_read_function call_depth H_Idle event_lights_reload sample_env dev_busy =
  Crash NullItem.
Proof.
  split; [exact reach_busy|]. split; [reflexivity|].
  split; [|split; [discriminate|split; [reflexivity|]]].
  - exact (Idle_DDFReload_restarts sample_read_function sample_env dev_busy
             (sample_event REventDDFReload 0 key_s1) reach_busy eq_refl eq_refl).
  - exact (Idle_DDFReload_restarts sample_read_function sample_env dev_busy
             event_lights_reload reach_busy eq_refl eq_refl).
Defined.

(** Scenario S3: the coordinator stays Dead when it gets an Awake event and
    a timer event. *)
Lemma Dead_is_absorbing_witness :
  Reach sample_read_function dev_coordinator_dead /\
  slot (state dev_coordinator_dead) StateLevel0 = Some H_Dead /\
  run sample_read_function inputs_dead_awake dev_coordinator_dead = Ok dev_dead_awake /\
  state dev_dead_awake = mkPerLevel (Some H_Dead) None None /\
  trace dev_dead_awake = trace dev_coordinator_dead.
Proof.
  split; [exact reach_coordinator_dead|]. split; [reflexivity|].
  split; [vm_compute; reflexivity|].
  apply (Dead_is_absorbing sample_read_function inputs_dead_awake
           dev_coordinator_dead dev_dead_awake).
  - exact reach_coordinator_dead.
  - reflexivity.
  - vm_compute. reflexivity.
Defined.

(** Scenario S1: the first Poll gives the new device its node. *)
Lemma Init_takes_node_witness :
  slot (state dev_s1_new) StateLevel0 = Some H_Init /\
  node dev_s1_new = None /\
  DEV_GetCoreNode sample_env (deviceKey dev_s1_new) = Some 1 /\
  match invoke sample_read_function call_depth H_Init
               (sample_event REventPoll 0 key_s1) sample_env dev_s1_new with
  | Ok d' =>
    node d' = Some 1 /\
    attrExtAddress (items d') = key_s1 /\
    attrNwkAddress (items d') = 0x1234 /\
    slot (state d') StateLevel0 = Some H_NodeDescriptor /\
    trace d' = (trace dev_s1_new ++ [notified REventStateEnter 0 dev_s1_new])%list
  | Crash _ => False
  end.
Proof.
  split; [reflexivity|]. split; [reflexivity|]. split; [reflexivity|].
  apply (Init_takes_node sample_read_function sample_env dev_s1_new
           (sample_event REventPoll 0 key_s1) 1).
  - reflexivity.
  - reflexivity.
  - right. split; reflexivity.
Defined.
